(** * Smart Interviewer backend: AI orchestration and degradation layer

    A shallow embedding of [backend/services/ai_service.py],
    [question_generator.py], [answer_analyzer.py] and [report_generator.py],
    followed by the properties stated about them.

    Conventions of the embedding.
    - Python values that travel as JSON are terms of [value]; a [dict] is an
      association list in insertion order with unique keys.
    - Python [int] and [float] are both rationals ([Q]).  The sums, quotients
      and comparisons of ratings are taken on the exact values.  Where the
      rounding of a float decides a result it is written out: [fl] rounds to
      the nearest binary float in the estimate of the speech duration, and
      [round(x, 2)] of a value midway between two hundredths, which the float
      holds on one side or the other, is left open ([round2_with]); [round2]
      is the choice of the even neighbour.
    - Text is a [string]; whitespace, case and word-character classes are those
      of ASCII text.
    - A Python call that may raise returns a [result]; [try_except] is the
      [try: ... except Exception:] statement.
    - What the program cannot decide by itself (the vendor's HTTP exchange, the
      library's JSON codec, the clock, the rendering of prompt text) is a field
      of the environment [Env], so every statement holds for all of them. *)

From Stdlib Require Import ZArith QArith Qround Qabs List String Ascii Bool Lia Lqa.
Import ListNotations.

Open Scope string_scope.
Open Scope Z_scope.

(** ** Python values *)

#[warnings="-register-all"]
Inductive value : Type :=
| VNone
| VBool (b : bool)
| VNum (q : Q)
| VSpecialFloat (name : string)
| VStr (s : string)
| VList (l : list value)
| VDict (d : list (string * value)).

Definition VInt (z : Z) : value := VNum (inject_Z z).
Definition VLen {A : Type} (l : list A) : value := VInt (Z.of_nat (List.length l)).

(** [d.get(k)]: the first binding of [k]. *)
Fixpoint dict_get (k : string) (d : list (string * value)) : option value :=
  match d with
  | [] => None
  | (k', v) :: d' => if String.eqb k k' then Some v else dict_get k d'
  end.

(** [d[k] = v]: an existing key keeps its position, a new key goes last. *)
Fixpoint dict_set (k : string) (v : value) (d : list (string * value))
  : list (string * value) :=
  match d with
  | [] => [(k, v)]
  | (k', v') :: d' =>
      if String.eqb k k' then (k', v) :: d' else (k', v') :: dict_set k v d'
  end.

Definition dict_keys (d : list (string * value)) : list string := map fst d.

(** [d.get(k, default)] *)
Definition get_default (k : string) (default : value) (d : list (string * value))
  : value :=
  match dict_get k d with Some v => v | None => default end.

(** ** Exceptions and results *)

Inductive exception : Type :=
| ProviderError (message : string)
| NoProviderConfigured
| JSONDecodeError
| StructuredResponseError
| ZeroDivisionError
| AttributeError
| TypeError
| StopIteration.

Inductive result (A : Type) : Type :=
| Ok (a : A)
| Raise (e : exception).

Arguments Ok {A} a.
Arguments Raise {A} e.

Definition bind {A B : Type} (r : result A) (k : A -> result B) : result B :=
  match r with
  | Ok a => k a
  | Raise e => Raise e
  end.

Notation "x <- r ;; k" := (bind r (fun x => k))
  (at level 61, r at next level, right associativity).

(** [try: body  except Exception as e: handler e] *)
Definition try_except {A : Type} (body : result A) (handler : exception -> result A)
  : result A :=
  match body with
  | Ok a => Ok a
  | Raise e => handler e
  end.

Definition returns {A : Type} (r : result A) : Prop := exists a, r = Ok a.

(** ** Text helpers (Python [str] methods used by the services) *)

Definition nat_in (n lo hi : nat) : bool := (Nat.leb lo n && Nat.leb n hi)%bool.

(** [c.isspace()] on ASCII. *)
Definition is_space (c : ascii) : bool :=
  let n := nat_of_ascii c in
  (nat_in n 9 13 || nat_in n 28 32)%bool.

Definition lower_char (c : ascii) : ascii :=
  let n := nat_of_ascii c in
  if nat_in n 65 90 then ascii_of_nat (n + 32) else c.

(** [s.lower()] *)
Fixpoint lower (s : string) : string :=
  match s with
  | EmptyString => EmptyString
  | String c r => String (lower_char c) (lower r)
  end.

(** [needle in hay] *)
Fixpoint contains (needle hay : string) : bool :=
  if prefix needle hay then true
  else match hay with
       | EmptyString => false
       | String _ r => contains needle r
       end.

(** [any(word in text for word in words)] *)
Definition any_in (words : list string) (text : string) : bool :=
  existsb (fun w => contains w text) words.

Definition rev_string (cs : list ascii) : string :=
  fold_left (fun acc c => String c acc) cs EmptyString.

(** [s.split()]: maximal runs of non-whitespace characters.  [cur] is the
    current word, reversed. *)
Fixpoint split_aux (s : string) (cur : list ascii) : list string :=
  match s with
  | EmptyString =>
      match cur with [] => [] | _ => [rev_string cur] end
  | String c r =>
      if is_space c then
        match cur with
        | [] => split_aux r []
        | _ => rev_string cur :: split_aux r []
        end
      else split_aux r (c :: cur)
  end.

Definition split (s : string) : list string := split_aux s [].

(** [l[:n]] for any Python integer [n]. *)
Definition slice_to {A : Type} (n : Z) (l : list A) : list A :=
  if 0 <=? n then firstn (Z.to_nat n) l
  else firstn (Z.to_nat (Z.of_nat (List.length l) + n)) l.

(** [l[-n:]] for a positive literal [n]. *)
Definition last_n {A : Type} (n : nat) (l : list A) : list A :=
  skipn (List.length l - n) l.

(** ** Numbers *)

Definition Qltb (a b : Q) : bool := negb (Qle_bool b a).
Definition Qgeb (a b : Q) : bool := Qle_bool b a.

(** [min(a, b)] and [max(a, b)] of two numbers: the first argument wins a tie. *)
Definition py_min (a b : Q) : Q := if Qltb b a then b else a.
Definition py_max (a b : Q) : Q := if Qltb a b then b else a.

(** Nearest integer, a tie going to the even neighbour. *)
Definition round_half_even (x : Q) : Z :=
  let lo := Qfloor x in
  let twice_rest := (2 * (x - inject_Z lo))%Q in
  if Qltb twice_rest 1 then lo
  else if Qltb 1 twice_rest then lo + 1
  else if Z.even lo then lo else lo + 1.

(** [round(x, 2)] *)
Definition round2 (x : Q) : Q := Qmake (round_half_even (x * 100)) 100.

(** Nearest integer, a value midway between two integers going up where
    [ties_up] says so. *)
Definition round_to_nearest (ties_up : Q -> bool) (x : Q) : Z :=
  let lo := Qfloor x in
  let twice_rest := (2 * (x - inject_Z lo))%Q in
  if Qltb twice_rest 1 then lo
  else if Qltb 1 twice_rest then lo + 1
  else if ties_up x then lo + 1 else lo.

(** [round(x, 2)] of a number the code holds as a binary float.  A value that
    lies midway between two hundredths is held as a float on one side of the
    middle or the other, and goes to that side; which side is not a matter of
    the exact value, so it is left to [ties_up]. *)
Definition round2_with (ties_up : Q -> bool) (x : Q) : Q :=
  Qmake (round_to_nearest ties_up (x * 100)) 100.

(** The choice that sends a midway value to the even neighbour. *)
Definition ties_to_even (x : Q) : bool := negb (Z.even (Qfloor x)).

(** The largest [k] with [2 ^ k <= x], for a positive [x]. *)
Definition ilog2 (x : Q) : Z :=
  let k := Z.log2 (Qnum x) - Z.log2 (Zpos (Qden x)) in
  if Qle_bool (2 ^ k) x then k else k - 1.

(** The binary float (53 significant bits) nearest to a positive [x], a tie
    going to the even significand. *)
Definition fl_pos (x : Q) : Q :=
  let e := ilog2 x - 52 in
  (inject_Z (round_half_even (x / 2 ^ e)) * 2 ^ e)%Q.

(** What a float operation gives when its exact result is [x]: [x] rounded to
    the nearest float (the exponent range plays no part at these sizes). *)
Definition fl (x : Q) : Q :=
  if Qltb 0 x then fl_pos x
  else if Qltb x 0 then (- fl_pos (- x))%Q
  else 0%Q.

(** ** Provider instances and the environment *)

Inductive provider_class : Type :=
| GeminiProvider
| OpenAIProvider
| AnthropicProvider.

(** An adapter object: its class and the two attributes [__init__] stores
    ([base_url] is a constant of the class). *)
Record instance : Type := {
  cls : provider_class;
  api_key : string;
  model : string
}.

(** The places where a prompt is put together.  The rendered text reaches the
    program only through the vendor's reply, so rendering is left to the
    environment and may raise. *)
Inductive prompt_site : Type :=
| QuestionPrompt (context question_type : string) (count : Z)
    (previous_questions : list string) (candidate_info : list (string * value))
    (type_instruction : string)
| FollowupPrompt (question answer : string) (recent_history : list value)
| AnalysisPrompt (question answer : string) (context : list (string * value))
| ExecutiveSummaryPrompt (questions answers : list value) (ratings : list Q)
    (duration : Z)
| DetailedAnalysisPrompt (questions answers : list value) (ratings : list Q)
| StrengthsWeaknessesPrompt (questions answers : list value) (ratings : list Q)
| RecommendationsPrompt (questions answers : list value) (ratings : list Q)
    (candidate_info : list (string * value)) (avg_rating : Q)
| NextStepsPrompt (candidate_info : list (string * value)) (avg_rating : Q)
| OverallAssessmentPrompt (metrics detailed_analysis : value).

Record Env : Type := {
  (** [instance.generate_text(prompt)]: the HTTP exchange with the vendor and
      the extraction of the text from its envelope; any outcome is possible. *)
  provider_generate_text : instance -> string -> result string;
  (** [json.loads]; [None] is [json.JSONDecodeError]. *)
  json_loads : string -> option value;
  (** [json.dumps(schema, indent=2)] *)
  json_dumps : value -> string;
  (** the f-string of each prompt *)
  render_prompt : prompt_site -> result string;
  (** the format [{x:.1f}] of a number *)
  format_1f : Q -> string;
  (** [datetime.now().isoformat()] *)
  now_isoformat : string
}.

(** ** ai_service.py *)

Module AIService.

(** [self.providers] *)
Definition providers : list (string * provider_class) :=
  [ ("gemini", GeminiProvider);
    ("openai", OpenAIProvider);
    ("anthropic", AnthropicProvider) ].

Fixpoint lookup {A : Type} (k : string) (d : list (string * A)) : option A :=
  match d with
  | [] => None
  | (k', v) :: d' => if String.eqb k k' then Some v else lookup k d'
  end.

Record provider_info : Type := {
  name : string;
  display_name : string;
  description : string;
  default_model : string
}.

Definition get_available_providers : list provider_info :=
  [ {| name := "gemini"; display_name := "Google Gemini";
       description := "Google's Gemini AI model";
       default_model := "gemini-2.5-flash" |};
    {| name := "openai"; display_name := "OpenAI";
       description := "OpenAI's GPT models";
       default_model := "gpt-3.5-turbo" |};
    {| name := "anthropic"; display_name := "Anthropic Claude";
       description := "Anthropic's Claude models";
       default_model := "claude-3-sonnet-20240229" |} ].

(** The two attributes of the service that change: the active pair. *)
Record t : Type := {
  current_provider : option string;
  current_instance : option instance
}.

(** The service before any configuration. *)
Definition unconfigured : t :=
  {| current_provider := None; current_instance := None |}.

(** Truth value of a string, and of the optional [model] argument. *)
Definition truthy (s : string) : bool :=
  match s with EmptyString => false | _ => true end.

Definition truthy_opt (s : option string) : bool :=
  match s with Some s' => truthy s' | None => false end.

(** [validate_config({"api_key": api_key})], the same in the three classes. *)
Definition validate_config (i : instance) (config_api_key : string) : bool :=
  truthy config_api_key.

(** [next(p for p in self.get_available_providers() if p["name"] == provider)] *)
Definition next_provider_info (provider : string) : result provider_info :=
  match find (fun p => String.eqb (name p) provider) get_available_providers with
  | Some p => Ok p
  | None => Raise StopIteration
  end.

(** [configure_provider]: the returned boolean and the service afterwards. *)
Definition configure_provider (self : t) (provider api_key : string)
    (model : option string) : bool * t :=
  let body : result (bool * t) :=
    match lookup provider providers with
    | None => Ok (false, self)
    | Some provider_class =>
        model' <- (if truthy_opt model
                   then Ok (match model with Some m => m | None => "" end)
                   else (provider_info <- next_provider_info provider ;;
                         Ok (default_model provider_info))) ;;
        let instance :=
          {| cls := provider_class; api_key := api_key; model := model' |} in
        if negb (validate_config instance api_key) then Ok (false, self)
        else Ok (true, {| current_provider := Some provider;
                          current_instance := Some instance |})
    end in
  match body with
  | Ok r => r
  | Raise _ => (false, self)
  end.

(** [_load_default_config], given the value of [os.getenv("GEMINI_API_KEY")]. *)
Definition _load_default_config (self : t) (gemini_key : option string) : t :=
  if truthy_opt gemini_key
  then snd (configure_provider self "gemini"
              (match gemini_key with Some k => k | None => "" end) None)
  else self.

(** [get_current_provider] *)
Definition get_current_provider (self : t) : string :=
  match current_provider self with
  | Some p => if truthy p then p else "none"
  | None => "none"
  end.

(** The regular expression search [re.search(r'\{.*\}', text, re.DOTALL)]:
    the match, when there is one, runs from the first opening brace to the
    last closing brace after it. *)
Fixpoint from_first_open (s : string) : option string :=
  match s with
  | EmptyString => None
  | String c r =>
      if Ascii.eqb c "{" then Some r else from_first_open r
  end.

Fixpoint through_last_close (s : string) : option string :=
  match s with
  | EmptyString => None
  | String c r =>
      match through_last_close r with
      | Some p => Some (String c p)
      | None => if Ascii.eqb c "}" then Some (String c EmptyString) else None
      end
  end.

Definition brace_span (text : string) : option string :=
  match from_first_open text with
  | None => None
  | Some r =>
      match through_last_close r with
      | Some p => Some (String "{" p)
      | None => None
      end
  end.

Definition nl : string := String (ascii_of_nat 10) EmptyString.
Definition indent12 : string := "            ".

Section WithEnv.
Context (E : Env).

(** [json.loads(s)] as a call that may raise. *)
Definition loads (s : string) : result value :=
  match json_loads E s with
  | Some v => Ok v
  | None => Raise JSONDecodeError
  end.

(** The parsing half of [generate_structured_response]. *)
Definition parse_structured (response_text : string) : result value :=
  match json_loads E response_text with
  | Some v => Ok v
  | None =>
      match brace_span response_text with
      | Some json_match => loads json_match
      | None => Raise StructuredResponseError
      end
  end.

Definition structured_prompt (prompt : string) (schema : value) : string :=
  nl ++ indent12 ++ prompt ++ nl
  ++ indent12 ++ nl
  ++ indent12 ++ "Please respond with a valid JSON object that matches this schema:" ++ nl
  ++ indent12 ++ json_dumps E schema ++ nl
  ++ indent12 ++ nl
  ++ indent12 ++ "Return only the JSON object, no additional text." ++ nl
  ++ indent12.

(** [generate_structured_response] of an adapter, the same in the three
    classes; its own [except] clause logs and re-raises. *)
Definition provider_generate_structured_response (i : instance)
    (prompt : string) (schema : value) : result value :=
  response_text <- provider_generate_text E i (structured_prompt prompt schema) ;;
  parse_structured response_text.

(** [AIService.generate_text] *)
Definition generate_text (self : t) (prompt : string) : result string :=
  match current_instance self with
  | None => Raise NoProviderConfigured
  | Some i => provider_generate_text E i prompt
  end.

(** [AIService.generate_structured_response] *)
Definition generate_structured_response (self : t) (prompt : string)
    (schema : value) : result value :=
  match current_instance self with
  | None => Raise NoProviderConfigured
  | Some i => provider_generate_structured_response i prompt schema
  end.

End WithEnv.

End AIService.

(** ** Schemas handed to the structured-response call

    A schema is a plain dict; these abbreviations build the dict literals of
    the source. *)

Module Schema.

Definition strs (l : list string) : value := VList (map VStr l).

Definition t_string : value := VDict [("type", VStr "string")].

Definition t_enum (l : list string) : value :=
  VDict [("type", VStr "string"); ("enum", strs l)].

Definition t_array (items : value) : value :=
  VDict [("type", VStr "array"); ("items", items)].

Definition t_strings : value := t_array t_string.

Definition t_score : value :=
  VDict [("type", VStr "number"); ("minimum", VInt 1); ("maximum", VInt 10)].

Definition t_object (properties : list (string * value)) : value :=
  VDict [("type", VStr "object"); ("properties", VDict properties)].

Definition t_object_req (properties : list (string * value))
    (required : list string) : value :=
  VDict [("type", VStr "object"); ("properties", VDict properties);
         ("required", strs required)].

End Schema.

(** ** question_generator.py *)

Module QuestionGenerator.
Import Schema.

Definition nl := AIService.nl.
Definition indent12 := AIService.indent12.

(** A triple-quoted block of two lines, as the source indents it. *)
Definition block2 (l1 l2 : string) : string :=
  nl ++ indent12 ++ l1 ++ nl ++ indent12 ++ l2 ++ nl ++ indent12.

Definition type_instructions : list (string * string) :=
  [ ("technical",
     block2 "Focus on technical skills, problem-solving abilities, and hands-on experience."
            "Include questions about specific technologies, coding challenges, and technical decision-making.");
    ("behavioral",
     block2 "Focus on past experiences, soft skills, and how the candidate handles various situations."
            "Use the STAR method (Situation, Task, Action, Result) format.");
    ("leadership",
     block2 "Focus on leadership experience, team management, decision-making, and vision."
            "Include questions about conflict resolution, team building, and strategic thinking.");
    ("general",
     block2 "Mix of technical, behavioral, and situational questions."
            "Cover various aspects of the role and company culture fit.");
    ("culture_fit",
     block2 "Focus on values alignment, work style, motivation, and team collaboration."
            "Include questions about company culture, work environment preferences, and long-term goals.") ].

(** [type_instructions.get(question_type, type_instructions["general"])] *)
Definition type_instruction (question_type : string) : string :=
  match AIService.lookup question_type type_instructions with
  | Some s => s
  | None =>
      match AIService.lookup "general" type_instructions with
      | Some s => s
      | None => EmptyString
      end
  end.

Definition questions_schema : value :=
  t_object_req
    [("questions",
      t_array
        (t_object_req
           [("question", t_string);
            ("category", t_string);
            ("difficulty", t_enum ["easy"; "medium"; "hard"]);
            ("purpose", t_string);
            ("follow_up_suggestions", t_strings)]
           ["question"; "category"; "difficulty"; "purpose"]))]
    ["questions"].

Definition followup_schema : value :=
  t_object_req
    [("followup_questions",
      t_array
        (t_object_req
           [("question", t_string);
            ("relevance", t_string);
            ("purpose", t_string)]
           ["question"; "relevance"; "purpose"]))]
    ["followup_questions"].

Definition fallback_question (question category difficulty purpose : string)
    (follow_up_suggestions : list string) : value :=
  VDict [("question", VStr question);
         ("category", VStr category);
         ("difficulty", VStr difficulty);
         ("purpose", VStr purpose);
         ("follow_up_suggestions", strs follow_up_suggestions)].

Definition fallback_questions : list (string * list value) :=
  [ ("technical",
     [ fallback_question
         "Can you walk me through your approach to solving a complex technical problem?"
         "Technical" "medium" "Assess problem-solving methodology"
         ["What specific tools or technologies did you use?";
          "How did you handle unexpected challenges?"];
       fallback_question
         "Describe a time when you had to learn a new technology quickly. How did you approach it?"
         "Technical" "easy" "Evaluate learning agility"
         ["What resources did you use?";
          "How did you ensure quality while learning quickly?"] ]);
    ("behavioral",
     [ fallback_question
         "Tell me about a time when you had to work with a difficult team member. How did you handle it?"
         "Behavioral" "medium" "Assess conflict resolution skills"
         ["What was the outcome?";
          "What did you learn from this experience?"];
       fallback_question
         "Describe a situation where you had to meet a tight deadline. How did you manage it?"
         "Behavioral" "easy" "Evaluate time management and stress handling"
         ["What strategies did you use?";
          "How did you ensure quality wasn't compromised?"] ]);
    ("general",
     [ fallback_question
         "Tell me about yourself and your professional background."
         "General" "easy" "Get overview of candidate's experience"
         ["What aspects of your background are most relevant to this role?";
          "What are you most proud of in your career?"];
       fallback_question
         "Why are you interested in this position and our company?"
         "General" "easy" "Assess motivation and company research"
         ["What specific aspects of our company culture appeal to you?";
          "How do you see yourself contributing to our team?"] ]) ].

(** [fallback_questions.get(key, fallback_questions["general"])] *)
Definition catalog (question_type : string) : list value :=
  match AIService.lookup question_type fallback_questions with
  | Some qs => qs
  | None =>
      match AIService.lookup "general" fallback_questions with
      | Some qs => qs
      | None => []
      end
  end.

Definition _get_fallback_questions (question_type : string) (count : Z)
  : list value :=
  slice_to count (catalog question_type).

Definition followup (question relevance purpose : string) : value :=
  VDict [("question", VStr question);
         ("relevance", VStr relevance);
         ("purpose", VStr purpose)].

Definition _get_fallback_followup_questions : list value :=
  [ followup "Can you provide a specific example of that?"
      "Asks for concrete evidence" "Verify claims with specific details";
    followup "What challenges did you face in that situation?"
      "Explores problem-solving approach"
      "Understand how candidate handles obstacles";
    followup "What would you do differently if you faced that situation again?"
      "Tests learning and self-reflection"
      "Assess growth mindset and continuous improvement" ].

(** [response.get(key, [])]: only a dict has [get]. *)
Definition response_get (key : string) (response : value) : result value :=
  match response with
  | VDict d => Ok (get_default key (VList []) d)
  | _ => Raise AttributeError
  end.

Definition or_default {A : Type} (o : option A) (default : A) : A :=
  match o with Some a => a | None => default end.

Section WithEnv.
Context (E : Env) (ai_service : AIService.t).

Definition _create_question_prompt (context question_type : string) (count : Z)
    (previous_questions : list string) (candidate_info : list (string * value))
  : result string :=
  render_prompt E
    (QuestionPrompt context question_type count previous_questions
       candidate_info (type_instruction question_type)).

Definition generate_questions (context question_type : string) (count : Z)
    (previous_questions : option (list string))
    (candidate_info : option (list (string * value))) : result value :=
  let previous_questions := or_default previous_questions [] in
  let candidate_info := or_default candidate_info [] in
  try_except
    (prompt <- _create_question_prompt context question_type count
                 previous_questions candidate_info ;;
     response <- AIService.generate_structured_response E ai_service prompt
                   questions_schema ;;
     response_get "questions" response)
    (fun _ => Ok (VList (_get_fallback_questions question_type count))).

Definition generate_followup_questions (question answer : string)
    (qa_history : option (list value)) : result value :=
  let qa_history := or_default qa_history [] in
  try_except
    (prompt <- render_prompt E
                 (FollowupPrompt question answer (last_n 3 qa_history)) ;;
     response <- AIService.generate_structured_response E ai_service prompt
                   followup_schema ;;
     response_get "followup_questions" response)
    (fun _ => Ok (VList _get_fallback_followup_questions)).

End WithEnv.

End QuestionGenerator.

(** ** answer_analyzer.py *)

Module AnswerAnalyzer.
Import Schema.

(** [len(text.split())] *)
Definition word_count_of (text : string) : Z :=
  Z.of_nat (List.length (split text)).

(** [max(1, int((words / 150) * 60))]: the quotient and the product are
    floats, each rounded; [int] truncates. *)
Definition _estimate_speech_duration (text : string) : Z :=
  let words := word_count_of text in
  Z.max 1 (Qfloor (fl (fl (inject_Z words / inject_Z 150) * inject_Z 60))).

Definition _classify_question_type (question : string) : string :=
  let question_lower := lower question in
  if any_in ["tell me about"; "describe"; "explain"; "walk me through"]
       question_lower then "behavioral"
  else if any_in ["how would you"; "what would you"; "design"; "implement";
                  "solve"] question_lower then "technical"
  else if any_in ["why"; "motivation"; "interest"; "passion"] question_lower
  then "motivational"
  else if any_in ["strengths"; "weaknesses"; "skills"; "abilities"]
            question_lower then "self-assessment"
  else "general".

Definition is_sentence_end (c : ascii) : bool :=
  (Ascii.eqb c "." || Ascii.eqb c "!" || Ascii.eqb c "?")%bool.

(** Number of matches of [[.!?]+]: the maximal runs of sentence marks. *)
Fixpoint count_runs (in_run : bool) (s : string) : nat :=
  match s with
  | EmptyString => 0
  | String c r =>
      if is_sentence_end c
      then (if in_run then 0 else 1) + count_runs true r
      else count_runs false r
  end%nat.

(** [len(re.split(r'[.!?]+', answer))]: one piece more than matches. *)
Definition sentence_count_of (answer : string) : Z :=
  Z.of_nat (S (count_runs false answer)).

(** [\w] on ASCII. *)
Definition is_word (c : ascii) : bool :=
  let n := nat_of_ascii c in
  (nat_in n 48 57 || nat_in n 65 90 || nat_in n 97 122 || Nat.eqb n 95)%bool.

Definition technical_words : list string :=
  ["api"; "database"; "algorithm"; "framework"; "architecture";
   "implementation"; "optimization"; "scalability"; "security"; "performance"].

(** The text starts with [w] and a word boundary follows. *)
Definition word_here (w s : string) : bool :=
  (prefix w s &&
   match String.get (String.length w) s with
   | Some c => negb (is_word c)
   | None => true
   end)%bool.

(** Matches of [\b(API|...|performance)\b], ignoring case, in a lowered text:
    the positions after a word boundary where one of the words stands. *)
Fixpoint count_technical (after_word : bool) (s : string) : nat :=
  match s with
  | EmptyString => 0
  | String c r =>
      (if (negb after_word && existsb (fun w => word_here w s) technical_words)%bool
       then 1 else 0)
      + count_technical (is_word c) r
  end%nat.

Definition _assess_answer_complexity (answer : string) : string :=
  let word_count := word_count_of answer in
  let sentence_count := sentence_count_of answer in
  let avg_sentence_length :=
    (inject_Z word_count / inject_Z (Z.max sentence_count 1))%Q in
  let technical_terms := Z.of_nat (count_technical false (lower answer)) in
  if ((100 <? word_count) && Qltb (inject_Z 15) avg_sentence_length
      && (2 <? technical_terms))%bool then "high"
  else if ((50 <? word_count) && Qltb (inject_Z 10) avg_sentence_length)%bool
  then "medium"
  else "low".

Definition analysis_metadata (question answer : string) : value :=
  VDict [("answer_length", VInt (word_count_of answer));
         ("answer_duration_estimate", VInt (_estimate_speech_duration answer));
         ("question_type", VStr (_classify_question_type question));
         ("answer_complexity", VStr (_assess_answer_complexity answer))].

Definition analysis_schema : value :=
  t_object_req
    [("overall_rating", t_score);
     ("detailed_scores",
      t_object [("relevance", t_score);
                ("completeness", t_score);
                ("clarity", t_score);
                ("specificity", t_score);
                ("professionalism", t_score)]);
     ("strengths", t_strings);
     ("weaknesses", t_strings);
     ("suggestions", t_strings);
     ("key_points", t_strings);
     ("sentiment", t_enum ["positive"; "neutral"; "negative"]);
     ("confidence_level", t_enum ["high"; "medium"; "low"])]
    ["overall_rating"; "detailed_scores"; "strengths"; "weaknesses";
     "suggestions"].

(** The three values the first [if] chain of the fallback assigns. *)
Definition length_bands (word_count : Z) : Z * Z * Z :=
  if word_count <? 10 then (3, 2, 4)
  else if word_count <? 30 then (5, 4, 6)
  else if word_count <? 60 then (7, 7, 7)
  else (8, 8, 8).

Definition sentiment_of (overall_rating : Z) : string :=
  if 7 <=? overall_rating then "positive"
  else if 5 <=? overall_rating then "neutral"
  else "negative".

Definition confidence_of (overall_rating : Z) : string :=
  if 8 <=? overall_rating then "high"
  else if 6 <=? overall_rating then "medium"
  else "low".

Definition _get_fallback_analysis (question answer : string) : value :=
  let word_count := word_count_of answer in
  let '(overall_rating, completeness, clarity) := length_bands word_count in
  let has_example :=
    any_in ["example"; "for instance"; "specifically"; "when"] (lower answer) in
  let has_technical_terms :=
    any_in ["api"; "database"; "system"; "process"; "method"] (lower answer) in
  let relevance := if has_example then 7 else 5 in
  let specificity := if has_technical_terms then 8 else 6 in
  let professionalism :=
    if 50 <? Z.of_nat (String.length answer) then 8 else 6 in
  VDict
    [("overall_rating", VInt overall_rating);
     ("detailed_scores",
      VDict [("relevance", VInt relevance);
             ("completeness", VInt completeness);
             ("clarity", VInt clarity);
             ("specificity", VInt specificity);
             ("professionalism", VInt professionalism)]);
     ("strengths",
      strs [ (if 0 <? word_count then "Provided a response"
              else "Attempted to answer");
             (if ((20 <=? word_count) && (word_count <=? 100))%bool
              then "Appropriate length"
              else if 100 <? word_count then "Good length"
              else "Could be more detailed") ]);
     ("weaknesses",
      strs [ (if negb has_example then "Could provide more specific examples"
              else "Good use of examples");
             (if word_count <? 30 then "Could be more detailed"
              else "Good level of detail") ]);
     ("suggestions",
      strs [ "Provide specific examples to support your points";
             "Elaborate on your experience and achievements";
             "Use the STAR method (Situation, Task, Action, Result) for behavioral questions" ]);
     ("key_points", strs (firstn 10 (split answer)));
     ("sentiment", VStr (sentiment_of overall_rating));
     ("confidence_level", VStr (confidence_of overall_rating));
     ("analysis_metadata", analysis_metadata question answer)].

(** [response["analysis_metadata"] = metadata]: item assignment by a string
    key is defined on a dict only. *)
Definition set_metadata (response metadata : value) : result value :=
  match response with
  | VDict d => Ok (VDict (dict_set "analysis_metadata" metadata d))
  | _ => Raise TypeError
  end.

Section WithEnv.
Context (E : Env) (ai_service : AIService.t).

Definition _create_analysis_prompt (question answer : string)
    (context : list (string * value)) : result string :=
  render_prompt E (AnalysisPrompt question answer context).

Definition analyze_answer (question answer : string)
    (context : option (list (string * value))) : result value :=
  let context := QuestionGenerator.or_default context [] in
  try_except
    (prompt <- _create_analysis_prompt question answer context ;;
     response <- AIService.generate_structured_response E ai_service prompt
                   analysis_schema ;;
     set_metadata response (analysis_metadata question answer))
    (fun _ => Ok (_get_fallback_analysis question answer)).

End WithEnv.

End AnswerAnalyzer.

(** ** report_generator.py *)

Module ReportGenerator.
Import Schema.

(** The [interview_data] bundle with values of the types the code expects of
    it; each key may be absent.  What a client sends is an object of any
    values: [Dynamic.interview_of] reads the bundle off it. *)
Record interview_data : Type := {
  questions : option (list value);
  answers : option (list value);
  ratings : option (list Q);
  duration : option Z;
  candidate_info : option (list (string * value))
}.

Definition or_default := @QuestionGenerator.or_default.

(** [sum(xs)] *)
Definition sum (xs : list Q) : Q := fold_left Qplus xs 0%Q.

Definition len {A : Type} (l : list A) : Q := inject_Z (Z.of_nat (List.length l)).

(** [max(xs)] and [min(xs)] of a non-empty list. *)
Definition max_of (x : Q) (xs : list Q) : Q := fold_left py_max xs x.
Definition min_of (x : Q) (xs : list Q) : Q := fold_left py_min xs x.

(** [sum(ratings) / len(ratings) if ratings else 0] *)
Definition average_or_zero (ratings : list Q) : Q :=
  match ratings with
  | [] => 0
  | _ => sum ratings / len ratings
  end%Q.

(** [sum((r - avg_rating) ** 2 for r in ratings) / len(ratings)] *)
Definition variance_of (ratings : list Q) (avg_rating : Q) : Q :=
  (sum (map (fun r => (r - avg_rating) * (r - avg_rating)) ratings)
   / len ratings)%Q.

Definition count_if (f : Q -> bool) (xs : list Q) : value :=
  VLen (filter f xs).

(** [a / b] of two integers, the quotient a float. *)
Definition true_div (a b : Z) : result Q :=
  if b =? 0 then Raise ZeroDivisionError
  else Ok (inject_Z a / inject_Z b)%Q.

Definition _calculate_metrics (questions answers : list value)
    (ratings : list Q) (duration : Z) : result value :=
  match ratings with
  | [] => Ok (VDict [("error", VStr "No ratings available")])
  | r0 :: rs =>
      let avg_rating := (sum ratings / len ratings)%Q in
      let max_rating := max_of r0 rs in
      let min_rating := min_of r0 rs in
      let variance := variance_of ratings avg_rating in
      let consistency := (10 - py_min 9 variance)%Q in
      let excellent_responses := count_if (fun r => Qgeb r 8) ratings in
      let good_responses :=
        count_if (fun r => (Qle_bool 6 r && Qltb r 8)%bool) ratings in
      let poor_responses := count_if (fun r => Qltb r 6) ratings in
      let response_rate :=
        match questions with
        | [] => 0%Q
        | _ => (len answers / len questions)%Q
        end in
      let duration_minutes :=
        if duration =? 0 then 0 else duration / 60000 in
      questions_per_minute <-
        (if 0 <? duration
         then true_div (Z.of_nat (List.length questions)) (duration / 60000)
         else Ok 0%Q) ;;
      Ok (VDict
            [("average_rating", VNum (round2 avg_rating));
             ("max_rating", VNum max_rating);
             ("min_rating", VNum min_rating);
             ("consistency_score", VNum (round2 consistency));
             ("total_questions", VLen questions);
             ("total_answers", VLen answers);
             ("response_rate", VNum response_rate);
             ("excellent_responses", excellent_responses);
             ("good_responses", good_responses);
             ("poor_responses", poor_responses);
             ("duration_minutes", VInt duration_minutes);
             ("questions_per_minute", VNum questions_per_minute)])
  end.

(** [_calculate_metrics] with the rounding of a midway value left open: the
    same computation, [round(x, 2)] being [round2_with] of the choice made
    for the average and of the one made for the consistency. *)
Definition _calculate_metrics_with (average_up consistency_up : Q -> bool)
    (questions answers : list value) (ratings : list Q) (duration : Z)
  : result value :=
  match ratings with
  | [] => Ok (VDict [("error", VStr "No ratings available")])
  | r0 :: rs =>
      let avg_rating := (sum ratings / len ratings)%Q in
      let max_rating := max_of r0 rs in
      let min_rating := min_of r0 rs in
      let variance := variance_of ratings avg_rating in
      let consistency := (10 - py_min 9 variance)%Q in
      let excellent_responses := count_if (fun r => Qgeb r 8) ratings in
      let good_responses :=
        count_if (fun r => (Qle_bool 6 r && Qltb r 8)%bool) ratings in
      let poor_responses := count_if (fun r => Qltb r 6) ratings in
      let response_rate :=
        match questions with
        | [] => 0%Q
        | _ => (len answers / len questions)%Q
        end in
      let duration_minutes :=
        if duration =? 0 then 0 else duration / 60000 in
      questions_per_minute <-
        (if 0 <? duration
         then true_div (Z.of_nat (List.length questions)) (duration / 60000)
         else Ok 0%Q) ;;
      Ok (VDict
            [("average_rating", VNum (round2_with average_up avg_rating));
             ("max_rating", VNum max_rating);
             ("min_rating", VNum min_rating);
             ("consistency_score", VNum (round2_with consistency_up consistency));
             ("total_questions", VLen questions);
             ("total_answers", VLen answers);
             ("response_rate", VNum response_rate);
             ("excellent_responses", excellent_responses);
             ("good_responses", good_responses);
             ("poor_responses", poor_responses);
             ("duration_minutes", VInt duration_minutes);
             ("questions_per_minute", VNum questions_per_minute)])
  end.

Definition _get_rating_category (rating : Q) : string :=
  if Qgeb rating 8 then "Excellent"
  else if Qgeb rating 6 then "Good"
  else if Qgeb rating 4 then "Average"
  else "Poor".

(** [answer.lower()] exists on a string only. *)
Definition _extract_key_insights (answer : value) : result (list string) :=
  match answer with
  | VStr answer =>
      let low := lower answer in
      let keywords :=
        ((if contains "experience" low then ["Mentioned relevant experience"] else [])
         ++ (if contains "challenge" low then ["Discussed challenges"] else [])
         ++ (if contains "team" low then ["Referenced teamwork"] else [])
         ++ (if contains "learn" low then ["Showed learning mindset"] else []))%list in
      Ok (firstn 3 keywords)
  | _ => Raise AttributeError
  end.

(** [x.get(key, x) if isinstance(x, dict) else x] *)
Definition text_of (key : string) (x : value) : value :=
  match x with
  | VDict d => get_default key x d
  | _ => x
  end.

(** The loop over [enumerate(zip(questions, answers, ratings))], from index [i]. *)
Fixpoint qa_entries (i : Z) (questions answers : list value) (ratings : list Q)
  : result (list value) :=
  match questions, answers, ratings with
  | question :: qs, answer :: ans, rating :: rs =>
      key_insights <- _extract_key_insights (text_of "answer" answer) ;;
      rest <- qa_entries (i + 1) qs ans rs ;;
      Ok (VDict [("question_number", VInt (i + 1));
                 ("question", text_of "text" question);
                 ("answer", text_of "answer" answer);
                 ("rating", VNum rating);
                 ("rating_category", VStr (_get_rating_category rating));
                 ("key_insights", strs key_insights)] :: rest)
  | _, _, _ => Ok []
  end.

Definition _generate_qa_analysis (questions answers : list value)
    (ratings : list Q) : result value :=
  entries <- qa_entries 0 questions answers ratings ;;
  Ok (VList entries).

Definition _get_fallback_detailed_analysis : value :=
  VDict [("communication_analysis", VStr "Manual review required");
         ("technical_analysis", VStr "Manual review required");
         ("experience_analysis", VStr "Manual review required")].

Definition _get_fallback_strengths_weaknesses : value :=
  VDict [("strengths",
          VList [VDict [("strength", VStr "Completed interview");
                        ("evidence", VStr "Participated in all questions");
                        ("impact", VStr "Showed engagement")]]);
         ("weaknesses",
          VList [VDict [("weakness", VStr "Analysis pending");
                        ("evidence", VStr "AI analysis unavailable");
                        ("improvement_suggestion", VStr "Manual review required")]])].

Definition _get_fallback_next_steps (avg_rating : Q) : value :=
  VList [VDict [("step", VStr "Manual review of interview responses");
                ("timeline", VStr "Within 2 business days");
                ("priority", VStr "High");
                ("description", VStr "Review all Q&A responses manually")];
         VDict [("step", VStr "Reference checks");
                ("timeline", VStr "Within 1 week");
                ("priority", VStr "Medium");
                ("description", VStr "Contact provided references")]].

Definition _get_fallback_overall_assessment (metrics : value) : result value :=
  match metrics with
  | VDict d =>
      Ok (VDict [("overall_score", get_default "average_rating" (VInt 5) d);
                 ("performance_level", VStr "Needs Review");
                 ("key_takeaways", strs ["Manual analysis required"]);
                 ("risk_assessment", VStr "Unknown");
                 ("success_potential", VStr "To be determined")])
  | _ => Raise AttributeError
  end.

Definition executive_summary_schema : value :=
  t_object_req
    [("summary", t_string);
     ("key_highlights", t_strings);
     ("concerns", t_strings);
     ("recommendation", t_string)]
    ["summary"; "key_highlights"; "concerns"; "recommendation"].

Definition detailed_analysis_schema : value :=
  t_object_req
    [("communication_analysis", t_string);
     ("technical_analysis", t_string);
     ("experience_analysis", t_string);
     ("cultural_fit_analysis", t_string);
     ("leadership_analysis", t_string);
     ("expertise_areas", t_strings);
     ("knowledge_gaps", t_strings)]
    ["communication_analysis"; "technical_analysis"; "experience_analysis"].

Definition strengths_weaknesses_schema : value :=
  t_object_req
    [("strengths",
      t_array (t_object [("strength", t_string);
                         ("evidence", t_string);
                         ("impact", t_string)]));
     ("weaknesses",
      t_array (t_object [("weakness", t_string);
                         ("evidence", t_string);
                         ("improvement_suggestion", t_string)]));
     ("red_flags", t_strings);
     ("differentiators", t_strings)]
    ["strengths"; "weaknesses"].

Definition recommendations_schema : value :=
  t_object_req
    [("recommendation",
      t_enum ["Strong Hire"; "Hire"; "No Hire"; "Strong No Hire"]);
     ("rationale", t_string);
     ("suggested_role_level", t_string);
     ("compensation_notes", t_string);
     ("onboarding_focus", t_strings);
     ("probation_areas", t_strings)]
    ["recommendation"; "rationale"].

Definition next_steps_schema : value :=
  t_object_req
    [("next_steps",
      t_array (t_object [("step", t_string);
                         ("timeline", t_string);
                         ("priority", t_enum ["High"; "Medium"; "Low"]);
                         ("description", t_string)]))]
    ["next_steps"].

Definition overall_assessment_schema : value :=
  t_object_req
    [("overall_score", t_score);
     ("performance_level", t_string);
     ("key_takeaways", t_strings);
     ("risk_assessment", t_string);
     ("success_potential", t_string)]
    ["overall_score"; "performance_level"; "key_takeaways"].

Section WithEnv.
Context (E : Env) (ai_service : AIService.t).

(** The call every section makes once its prompt is ready. *)
Definition ask (prompt : result string) (schema : value) : result value :=
  p <- prompt ;;
  AIService.generate_structured_response E ai_service p schema.

Definition _get_fallback_executive_summary (ratings : list Q) : value :=
  let avg_rating := average_or_zero ratings in
  VDict [("summary",
          VStr ("Interview completed with average rating of "
                ++ format_1f E avg_rating
                ++ "/10. Manual review recommended."));
         ("key_highlights", strs ["Interview conducted"]);
         ("concerns", strs ["AI analysis unavailable"]);
         ("recommendation", VStr "Manual review required")].

Definition _get_fallback_recommendations (avg_rating : Q) : value :=
  let recommendation :=
    if Qgeb avg_rating 7 then "Hire"
    else if Qgeb avg_rating 5 then "Consider"
    else "No Hire" in
  VDict [("recommendation", VStr recommendation);
         ("rationale",
          VStr ("Based on average rating of " ++ format_1f E avg_rating
                ++ "/10"))].

Definition _generate_executive_summary (questions answers : list value)
    (ratings : list Q) (duration : Z) : result value :=
  try_except
    (ask (render_prompt E
            (ExecutiveSummaryPrompt questions answers ratings duration))
         executive_summary_schema)
    (fun _ => Ok (_get_fallback_executive_summary ratings)).

Definition _generate_detailed_analysis (questions answers : list value)
    (ratings : list Q) : result value :=
  try_except
    (ask (render_prompt E (DetailedAnalysisPrompt questions answers ratings))
         detailed_analysis_schema)
    (fun _ => Ok _get_fallback_detailed_analysis).

Definition _generate_strengths_weaknesses (questions answers : list value)
    (ratings : list Q) : result value :=
  try_except
    (ask (render_prompt E (StrengthsWeaknessesPrompt questions answers ratings))
         strengths_weaknesses_schema)
    (fun _ => Ok _get_fallback_strengths_weaknesses).

(** [avg_rating] is the first assignment inside the [try] and cannot raise on
    numbers, so the handler always finds it bound. *)
Definition _generate_recommendations (questions answers : list value)
    (ratings : list Q) (candidate_info : list (string * value)) : result value :=
  let avg_rating := average_or_zero ratings in
  try_except
    (ask (render_prompt E
            (RecommendationsPrompt questions answers ratings candidate_info
               avg_rating))
         recommendations_schema)
    (fun _ => Ok (_get_fallback_recommendations avg_rating)).

Definition _generate_next_steps (ratings : list Q)
    (candidate_info : list (string * value)) : result value :=
  let avg_rating := average_or_zero ratings in
  try_except
    (response <- ask (render_prompt E (NextStepsPrompt candidate_info avg_rating))
                   next_steps_schema ;;
     QuestionGenerator.response_get "next_steps" response)
    (fun _ => Ok (_get_fallback_next_steps avg_rating)).

Definition _generate_overall_assessment (metrics detailed_analysis : value)
  : result value :=
  try_except
    (ask (render_prompt E (OverallAssessmentPrompt metrics detailed_analysis))
         overall_assessment_schema)
    (fun _ => _get_fallback_overall_assessment metrics).

Definition _get_fallback_report (data : interview_data) : result value :=
  metrics <- _calculate_metrics
               (or_default _ (questions data) [])
               (or_default _ (answers data) [])
               (or_default _ (ratings data) [])
               (or_default _ (duration data) 0) ;;
  Ok (VDict
        [("report_metadata",
          VDict [("generated_at", VStr (now_isoformat E));
                 ("status", VStr "fallback_report")]);
         ("executive_summary",
          VDict [("summary",
                  VStr "Interview completed. Please review individual Q&A for detailed assessment.");
                 ("key_highlights", strs ["Interview conducted successfully"]);
                 ("concerns", VList []);
                 ("recommendation", VStr "Manual review required")]);
         ("overall_assessment",
          VDict [("overall_score", VInt 5);
                 ("performance_level", VStr "Needs Review");
                 ("key_takeaways", strs ["Manual analysis required"]);
                 ("risk_assessment", VStr "Unknown");
                 ("success_potential", VStr "To be determined")]);
         ("metrics", metrics);
         ("recommendations",
          VDict [("recommendation", VStr "Manual Review Required");
                 ("rationale", VStr "AI analysis unavailable")])]).

Definition generate_report (data : interview_data) : result value :=
  try_except
    (let questions := or_default _ (questions data) [] in
     let answers := or_default _ (answers data) [] in
     let ratings := or_default _ (ratings data) [] in
     let duration := or_default _ (duration data) 0 in
     let candidate_info := or_default _ (candidate_info data) [] in
     executive_summary <-
       _generate_executive_summary questions answers ratings duration ;;
     detailed_analysis <- _generate_detailed_analysis questions answers ratings ;;
     strengths_weaknesses <-
       _generate_strengths_weaknesses questions answers ratings ;;
     recommendations <-
       _generate_recommendations questions answers ratings candidate_info ;;
     next_steps <- _generate_next_steps ratings candidate_info ;;
     metrics <- _calculate_metrics questions answers ratings duration ;;
     overall_assessment <- _generate_overall_assessment metrics detailed_analysis ;;
     qa_analysis <- _generate_qa_analysis questions answers ratings ;;
     Ok (VDict
           [("report_metadata",
             VDict [("generated_at", VStr (now_isoformat E));
                    ("interview_duration", VInt duration);
                    ("total_questions", VLen questions);
                    ("total_answers", VLen answers);
                    ("ai_provider",
                     VStr (AIService.get_current_provider ai_service))]);
            ("executive_summary", executive_summary);
            ("overall_assessment", overall_assessment);
            ("metrics", metrics);
            ("detailed_analysis", detailed_analysis);
            ("strengths_weaknesses", strengths_weaknesses);
            ("recommendations", recommendations);
            ("next_steps", next_steps);
            ("qa_analysis", qa_analysis)]))
    (fun _ => _get_fallback_report data).

End WithEnv.

End ReportGenerator.

(** ** A decoder for JSON text

    An executable model of the library's [json.loads], used where a concrete
    environment is needed.  It follows the decoder's scanner; a character
    outside ASCII, written as a [\u] escape, is held as its UTF-8 bytes. *)

Module JsonDecoder.

Definition is_json_space (c : ascii) : bool :=
  let n := nat_of_ascii c in
  (Nat.eqb n 32 || Nat.eqb n 9 || Nat.eqb n 10 || Nat.eqb n 13)%bool.

Fixpoint skip_ws (s : string) : string :=
  match s with
  | String c r => if is_json_space c then skip_ws r else s
  | EmptyString => s
  end.

Definition unescape (c : ascii) : option ascii :=
  let n := nat_of_ascii c in
  if Nat.eqb n 34 then Some c                         (* quote *)
  else if Nat.eqb n 92 then Some c                    (* backslash *)
  else if Nat.eqb n 47 then Some c                    (* slash *)
  else if Nat.eqb n 98 then Some (ascii_of_nat 8)     (* b: backspace *)
  else if Nat.eqb n 102 then Some (ascii_of_nat 12)   (* f: form feed *)
  else if Nat.eqb n 110 then Some (ascii_of_nat 10)   (* n: line feed *)
  else if Nat.eqb n 114 then Some (ascii_of_nat 13)   (* r: carriage return *)
  else if Nat.eqb n 116 then Some (ascii_of_nat 9)    (* t: tab *)
  else None.

Definition hex_of (c : ascii) : option Z :=
  let n := nat_of_ascii c in
  if nat_in n 48 57 then Some (Z.of_nat (n - 48))
  else if nat_in n 97 102 then Some (Z.of_nat (n - 87))
  else if nat_in n 65 70 then Some (Z.of_nat (n - 55))
  else None.

(** The value of four hex digits. *)
Definition hex4 (a b c d : ascii) : option Z :=
  match hex_of a, hex_of b, hex_of c, hex_of d with
  | Some x, Some y, Some z, Some w => Some (((x * 16 + y) * 16 + z) * 16 + w)
  | _, _, _, _ => None
  end.

Definition byte (z : Z) : ascii := ascii_of_nat (Z.to_nat z).

(** The UTF-8 bytes of a code point. *)
Definition utf8 (cp : Z) : list ascii :=
  if cp <? 128 then [byte cp]
  else if cp <? 2048 then [byte (192 + cp / 64); byte (128 + cp mod 64)]
  else if cp <? 65536 then
    [byte (224 + cp / 4096); byte (128 + (cp / 64) mod 64);
     byte (128 + cp mod 64)]
  else
    [byte (240 + cp / 262144); byte (128 + (cp / 4096) mod 64);
     byte (128 + (cp / 64) mod 64); byte (128 + cp mod 64)].

Definition is_high_surrogate (cp : Z) : bool :=
  ((55296 <=? cp) && (cp <=? 56319))%bool.
Definition is_low_surrogate (cp : Z) : bool :=
  ((56320 <=? cp) && (cp <=? 57343))%bool.
Definition join_surrogates (hi lo : Z) : Z :=
  65536 + (hi - 55296) * 1024 + (lo - 56320).

(** [chars] put in front of the reversed accumulator. *)
Definition push (chars acc : list ascii) : list ascii := (rev chars ++ acc)%list.

(** The body of a string literal, after its opening quote.  After [\u] come
    four hex digits; a high surrogate followed by the escape of a low one is
    joined with it. *)
Fixpoint scan_string (s : string) (acc : list ascii) : option (string * string) :=
  match s with
  | EmptyString => None
  | String c r =>
      let n := nat_of_ascii c in
      if Nat.eqb n 34 then Some (rev_string acc, r)
      else if Nat.eqb n 92 then
        match r with
        | String e r' =>
            if Ascii.eqb e "u" then
              match r' with
              | String a (String b (String c0 (String d r2))) =>
                  match hex4 a b c0 d with
                  | Some cp =>
                      match r2 with
                      | String b1 (String u1 (String a' (String b'
                          (String c' (String d' r3))))) =>
                          if (is_high_surrogate cp
                              && Nat.eqb (nat_of_ascii b1) 92
                              && Ascii.eqb u1 "u")%bool
                          then
                            match hex4 a' b' c' d' with
                            | Some lo =>
                                if is_low_surrogate lo
                                then scan_string r3
                                       (push (utf8 (join_surrogates cp lo)) acc)
                                else scan_string r2 (push (utf8 cp) acc)
                            | None => None
                            end
                          else scan_string r2 (push (utf8 cp) acc)
                      | _ => scan_string r2 (push (utf8 cp) acc)
                      end
                  | None => None
                  end
              | _ => None
              end
            else
              match unescape e with
              | Some ch => scan_string r' (ch :: acc)
              | None => None
              end
        | EmptyString => None
        end
      else if Nat.ltb n 32 then None
      else scan_string r (c :: acc)
  end.

Definition digit_of (c : ascii) : option Z :=
  let n := nat_of_ascii c in
  if nat_in n 48 57 then Some (Z.of_nat (n - 48)) else None.

(** The longest run of digits: its value, its length and the rest. *)
Fixpoint scan_digits (s : string) (acc : Z) (len : nat) : Z * nat * string :=
  match s with
  | String c r =>
      match digit_of c with
      | Some d => scan_digits r (10 * acc + d) (S len)
      | None => (acc, len, s)
      end
  | EmptyString => (acc, len, s)
  end.

(** [0] or a run of digits without leading zero. *)
Definition scan_int (s : string) : option (Z * string) :=
  match s with
  | String c r =>
      match digit_of c with
      | Some 0 => Some (0, r)
      | Some d => let '(v, _, rest) := scan_digits r d 1 in Some (v, rest)
      | None => None
      end
  | EmptyString => None
  end.

(** [m * 10 ^ e] *)
Definition scale10 (m e : Z) : Q :=
  if 0 <=? e then inject_Z (m * 10 ^ e)
  else Qmake m (Z.to_pos (10 ^ (- e))).

(** The optional fraction: the mantissa extended by its digits, their number. *)
Definition scan_frac (m : Z) (s : string) : Z * Z * string :=
  match s with
  | String c r =>
      if Ascii.eqb c "." then
        match scan_digits r m 0 with
        | (_, O, _) => (m, 0, s)
        | (m', k, rest) => (m', Z.of_nat k, rest)
        end
      else (m, 0, s)
  | EmptyString => (m, 0, s)
  end.

(** The optional exponent. *)
Definition scan_exp (s : string) : option Z * string :=
  match s with
  | String c r =>
      if (Ascii.eqb c "e" || Ascii.eqb c "E")%bool then
        let '(sign, r') :=
          match r with
          | String c' r'' =>
              if Ascii.eqb c' "-" then (-1, r'')
              else if Ascii.eqb c' "+" then (1, r'')
              else (1, r)
          | EmptyString => (1, r)
          end in
        match scan_digits r' 0 0 with
        | (_, O, _) => (None, s)
        | (e, _, rest) => (Some (sign * e), rest)
        end
      else (None, s)
  | EmptyString => (None, s)
  end.

Definition scan_number (s : string) : option (value * string) :=
  let '(sign, s1) :=
    match s with
    | String c r => if Ascii.eqb c "-" then (-1, r) else (1, s)
    | EmptyString => (1, s)
    end in
  match scan_int s1 with
  | None => None
  | Some (i, s2) =>
      let '(m, k, s3) := scan_frac i s2 in
      let '(e, s4) := scan_exp s3 in
      let e := match e with Some e => e | None => 0 end in
      Some (VNum (scale10 (sign * m) (e - k)), s4)
  end.

(** [s] starts with [word]: the rest. *)
Fixpoint strip (word s : string) : option string :=
  match word, s with
  | EmptyString, _ => Some s
  | String a w, String b r => if Ascii.eqb a b then strip w r else None
  | String _ _, EmptyString => None
  end.

Definition scan_literal (s : string) : option (value * string) :=
  match strip "null" s with
  | Some r => Some (VNone, r)
  | None =>
  match strip "true" s with
  | Some r => Some (VBool true, r)
  | None =>
  match strip "false" s with
  | Some r => Some (VBool false, r)
  | None =>
  match scan_number s with
  | Some x => Some x
  | None =>
  match strip "NaN" s with
  | Some r => Some (VSpecialFloat "nan", r)
  | None =>
  match strip "Infinity" s with
  | Some r => Some (VSpecialFloat "inf", r)
  | None =>
  match strip "-Infinity" s with
  | Some r => Some (VSpecialFloat "-inf", r)
  | None => None
  end end end end end end end.

Fixpoint scan_value (fuel : nat) (s : string) : option (value * string) :=
  match fuel with
  | O => None
  | S fuel' =>
      match s with
      | EmptyString => None
      | String c r =>
          if Ascii.eqb c "{" then
            match skip_ws r with
            | String c' r' =>
                if Ascii.eqb c' "}" then Some (VDict [], r')
                else scan_members fuel' (String c' r') []
            | EmptyString => None
            end
          else if Ascii.eqb c "[" then
            match skip_ws r with
            | String c' r' =>
                if Ascii.eqb c' "]" then Some (VList [], r')
                else scan_elements fuel' (String c' r') []
            | EmptyString => None
            end
          else if Nat.eqb (nat_of_ascii c) 34 then
            match scan_string r [] with
            | Some (str, rest) => Some (VStr str, rest)
            | None => None
            end
          else scan_literal s
      end
  end

with scan_members (fuel : nat) (s : string) (acc : list (string * value))
  : option (value * string) :=
  match fuel with
  | O => None
  | S fuel' =>
      match s with
      | String q r =>
          if Nat.eqb (nat_of_ascii q) 34 then
            match scan_string r [] with
            | Some (key, r1) =>
                match skip_ws r1 with
                | String colon r2 =>
                    if Ascii.eqb colon ":" then
                      match scan_value fuel' (skip_ws r2) with
                      | Some (v, r3) =>
                          let acc' := dict_set key v acc in
                          match skip_ws r3 with
                          | String d r4 =>
                              if Ascii.eqb d "}" then Some (VDict acc', r4)
                              else if Ascii.eqb d ","
                              then scan_members fuel' (skip_ws r4) acc'
                              else None
                          | EmptyString => None
                          end
                      | None => None
                      end
                    else None
                | EmptyString => None
                end
            | None => None
            end
          else None
      | EmptyString => None
      end
  end

with scan_elements (fuel : nat) (s : string) (acc : list value)
  : option (value * string) :=
  match fuel with
  | O => None
  | S fuel' =>
      match scan_value fuel' s with
      | Some (v, r1) =>
          match skip_ws r1 with
          | String d r2 =>
              if Ascii.eqb d "]" then Some (VList (rev (v :: acc)), r2)
              else if Ascii.eqb d ","
              then scan_elements fuel' (skip_ws r2) (v :: acc)
              else None
          | EmptyString => None
          end
      | None => None
      end
  end.

(** [json.loads(s)]: one value between optional whitespace, nothing else. *)
Definition loads (s : string) : option value :=
  match scan_value (2 * String.length s + 2) (skip_ws s) with
  | Some (v, rest) =>
      match skip_ws rest with
      | EmptyString => Some v
      | String _ _ => None
      end
  | None => None
  end.

End JsonDecoder.

(** ** Observations on results, and fixtures *)

(** [v[k]] read off a dict value. *)
Definition field (k : string) (v : value) : option value :=
  match v with
  | VDict d => dict_get k d
  | _ => None
  end.

(** The top-level keys of a dict value. *)
Definition sections (v : value) : list string :=
  match v with
  | VDict d => dict_keys d
  | _ => []
  end.

Definition known_providers : list string := ["gemini"; "openai"; "anthropic"].

(** The five dimensions of [detailed_scores]. *)
Definition score_names : list string :=
  ["relevance"; "completeness"; "clarity"; "specificity"; "professionalism"].

Definition mem_string (k : string) (l : list string) : bool :=
  existsb (String.eqb k) l.

(** A number within the scale 1 to 10. *)
Definition in_scale (v : value) : bool :=
  match v with
  | VNum q => (Qle_bool 1 q && Qle_bool q 10)%bool
  | _ => false
  end.

(** The invariant of an AnswerAnalysis: [overall_rating] is on the scale and
    [detailed_scores] has the five dimensions as its keys, no other, each on
    the scale. *)
Definition well_scored (analysis : value) : bool :=
  match field "overall_rating" analysis, field "detailed_scores" analysis with
  | Some rating, Some (VDict scores) =>
      (in_scale rating
       && forallb (fun k => mem_string k score_names) (dict_keys scores)
       && forallb (fun k => mem_string k (dict_keys scores)) score_names
       && forallb (fun kv => in_scale (snd kv)) scores)%bool
  | _, _ => false
  end.

(** The character [c] occurs in [s]. *)
Fixpoint occurs (c : ascii) (s : string) : bool :=
  match s with
  | EmptyString => false
  | String x r => (Ascii.eqb x c || occurs c r)%bool
  end.

(** The sections of a report assembled on the primary path, and those of the
    whole-report fallback. *)
Definition primary_sections : list string :=
  ["report_metadata"; "executive_summary"; "overall_assessment"; "metrics";
   "detailed_analysis"; "strengths_weaknesses"; "recommendations";
   "next_steps"; "qa_analysis"].

Definition fallback_sections : list string :=
  ["report_metadata"; "executive_summary"; "overall_assessment"; "metrics";
   "recommendations"].


Module Fixtures.

(** An environment whose vendor always answers [reply], with the decoder
    above as [json.loads]; prompts render to the empty text. *)
Definition env_replying (reply : result string) : Env :=
  {| provider_generate_text := fun _ _ => reply;
     json_loads := JsonDecoder.loads;
     json_dumps := fun _ => EmptyString;
     render_prompt := fun _ => Ok EmptyString;
     format_1f := fun _ => EmptyString;
     now_isoformat := "2024-01-01T00:00:00" |}.

(** A service configured with the Gemini adapter. *)
Definition gemini_service : AIService.t :=
  snd (AIService.configure_provider AIService.unconfigured "gemini" "key" None).

Definition quote : string := String (ascii_of_nat 34) EmptyString.

(** A string literal of JSON text. *)
Definition lit (s : string) : string := quote ++ s ++ quote.

(** The object of the round-trip example, as text and as value. *)
Definition embedded_text : string :=
  "{" ++ lit "question" ++ ":" ++ lit "Why?" ++ ","
  ++ lit "category" ++ ":" ++ lit "General" ++ ","
  ++ lit "difficulty" ++ ":" ++ lit "easy" ++ ","
  ++ lit "purpose" ++ ":" ++ lit "warmup" ++ "}".

Definition embedded_object : value :=
  VDict [("question", VStr "Why?");
         ("category", VStr "General");
         ("difficulty", VStr "easy");
         ("purpose", VStr "warmup")].

Definition wrapped_text : string := "Sure! " ++ embedded_text.

(** A reply that spreads an object over several lines between two sentences. *)
Definition spread_text : string :=
  "Here you go:" ++ AIService.nl
  ++ "{" ++ AIService.nl ++ lit "questions" ++ ": []" ++ AIService.nl ++ "}"
  ++ AIService.nl ++ "Hope this helps.".

(** An environment whose vendor is unreachable. *)
Definition env_offline : Env :=
  env_replying (Raise (ProviderError "503 - Service Unavailable")).

(** An interview of one question, rated 7, that lasted [duration] ms. *)
Definition interview_of (answer : value) (duration : Z)
  : ReportGenerator.interview_data :=
  {| ReportGenerator.questions := Some [VStr "Why this role?"];
     ReportGenerator.answers := Some [answer];
     ReportGenerator.ratings := Some [7%Q];
     ReportGenerator.duration := Some duration;
     ReportGenerator.candidate_info := None |}.


Definition spoken_answer : value := VStr "I like solving hard problems".

(** An answer sent as a dict that has no "answer" key. *)
Definition keyless_answer : value :=
  VDict [("text", VStr "I like solving hard problems")].

End Fixtures.

(** ** answer_analyzer.py: feedback

    [generate_feedback] reads four fields of an analysis; the record gives
    them the types the analysis schema gives them. *)

Module Feedback.

Record analysis : Type := {
  overall_rating : Q;
  strengths : list string;
  weaknesses : list string;
  suggestions : list string
}.

(** [sep.join(l)] *)
Fixpoint join (sep : string) (l : list string) : string :=
  match l with
  | [] => EmptyString
  | [x] => x
  | x :: r => x ++ sep ++ join sep r
  end.

Definition opening (rating : Q) : string :=
  if Qgeb rating 8 then
    "Excellent response! You demonstrated strong communication skills and provided valuable insights. "
  else if Qgeb rating 6 then
    "Good response with solid points. You communicated your thoughts clearly. "
  else
    "Thank you for your response. There's room for improvement in providing more detailed examples. ".

Definition closing : string :=
  "Keep practicing and you'll continue to improve your interview skills!".

(** [if items: feedback += f"{label}{', '.join(items[:2])}. "] *)
Definition mention (label : string) (items : list string) : string :=
  match items with
  | [] => EmptyString
  | _ => label ++ join ", " (firstn 2 items) ++ ". "
  end.

Definition _get_fallback_feedback (a : analysis) : string :=
  let feedback := opening (overall_rating a) in
  let feedback := feedback ++ mention "Your strengths include: " (strengths a) in
  let feedback := feedback ++ mention "To improve, consider: " (weaknesses a) in
  feedback ++ closing.

Section WithEnv.
Context (E : Env) (ai_service : AIService.t).
(** The f-string of the feedback prompt. *)
Context (feedback_prompt : analysis -> string).

Definition generate_feedback (a : analysis) : result string :=
  try_except
    (AIService.generate_text E ai_service (feedback_prompt a))
    (fun _ => Ok (_get_fallback_feedback a)).

End WithEnv.

End Feedback.

(** ** The services on the fields of a request

    The routes hand the fields of a request body to the services as the
    client sent them: JSON values of any type, whatever the signatures
    annotate.  Here the services are read on such values.  On values of the
    annotated types they are the functions above; elsewhere they follow the
    source as far as the outcome is decided by the types alone, and the rest
    is left open. *)

Module Dynamic.

(** A method of [str] called on a value ([x.split()], [x.lower()]): of the
    JSON values only a string has it. *)
Definition str_of (x : value) : result string :=
  match x with
  | VStr s => Ok s
  | _ => Raise AttributeError
  end.

(** [x.get(...)]: of the JSON values only an object has it. *)
Definition dict_of (x : value) : result (list (string * value)) :=
  match x with
  | VDict d => Ok d
  | _ => Raise AttributeError
  end.

(** [if x is None: x = default] *)
Definition none_is (default x : value) : value :=
  match x with
  | VNone => default
  | _ => x
  end.

Definition as_list (v : value) : option (list value) :=
  match v with
  | VList l => Some l
  | _ => None
  end.

Definition as_dict (v : value) : option (list (string * value)) :=
  match v with
  | VDict d => Some d
  | _ => None
  end.

(** A list of numbers. *)
Fixpoint numbers_of (l : list value) : option (list Q) :=
  match l with
  | [] => Some []
  | VNum q :: r =>
      match numbers_of r with
      | Some qs => Some (q :: qs)
      | None => None
      end
  | _ :: _ => None
  end.

Definition as_numbers (v : value) : option (list Q) :=
  match v with
  | VList l => numbers_of l
  | _ => None
  end.

(** A number written as an integer. *)
Definition as_int (v : value) : option Z :=
  match v with
  | VNum q => if (Qden q =? 1)%positive then Some (Qnum q) else None
  | _ => None
  end.

(** The key [key] of an object, read at a type: absent, or present with a
    value of that type; [None] when the value is of another type. *)
Definition optional {A : Type} (as_a : value -> option A) (key : string)
    (d : list (string * value)) : option (option A) :=
  match dict_get key d with
  | None => Some None
  | Some v =>
      match as_a v with
      | Some a => Some (Some a)
      | None => None
      end
  end.

(** The bundle an object is when each key it has carries a value of the type
    [generate_report] annotates or expects: a list of questions, a list of
    answers, a list of numbers as ratings, an integer as duration, an object
    about the candidate. *)
Definition interview_of (d : list (string * value))
  : option ReportGenerator.interview_data :=
  match optional as_list "questions" d, optional as_list "answers" d,
        optional as_numbers "ratings" d, optional as_int "duration" d,
        optional as_dict "candidate_info" d with
  | Some questions, Some answers, Some ratings, Some duration,
    Some candidate_info =>
      Some {| ReportGenerator.questions := questions;
              ReportGenerator.answers := answers;
              ReportGenerator.ratings := ratings;
              ReportGenerator.duration := duration;
              ReportGenerator.candidate_info := candidate_info |}
  | _, _, _, _, _ => None
  end.

Section WithEnv.
Context (E : Env) (ai_service : AIService.t).
(** The f-string of a prompt on arguments that are not of the annotated
    types. *)
Context (render_untyped : list value -> result string).
(** [generate_report] on an object that is no bundle in the sense of
    [interview_of]. *)
Context (report_untyped : list (string * value) -> result value).

(** [_create_analysis_prompt]: the f-string takes any value, [context.get]
    needs an object. *)
Definition _create_analysis_prompt (question answer context : value)
  : result string :=
  context <- dict_of context ;;
  match question, answer with
  | VStr q, VStr a => AnswerAnalyzer._create_analysis_prompt E q a context
  | _, _ => render_untyped [question; answer; VDict context]
  end.

(** The dict assigned to [response["analysis_metadata"]]: [answer.split()]
    comes first, [question.lower()] after it. *)
Definition analysis_metadata (question answer : value) : result value :=
  a <- str_of answer ;;
  q <- str_of question ;;
  Ok (AnswerAnalyzer.analysis_metadata q a).

(** [_get_fallback_analysis] starts with [answer.split()] and classifies the
    question with [question.lower()]. *)
Definition _get_fallback_analysis (question answer : value) : result value :=
  a <- str_of answer ;;
  q <- str_of question ;;
  Ok (AnswerAnalyzer._get_fallback_analysis q a).

Definition analyze_answer (question answer context : value) : result value :=
  let context := none_is (VDict []) context in
  try_except
    (prompt <- _create_analysis_prompt question answer context ;;
     response <- AIService.generate_structured_response E ai_service prompt
                   AnswerAnalyzer.analysis_schema ;;
     metadata <- analysis_metadata question answer ;;
     AnswerAnalyzer.set_metadata response metadata)
    (fun _ => _get_fallback_analysis question answer).

(** The prompt of [generate_followup_questions], built inside its [try]. *)
Definition followup_prompt (question answer qa_history : value)
  : result string :=
  match question, answer, qa_history with
  | VStr q, VStr a, VList h => render_prompt E (FollowupPrompt q a (last_n 3 h))
  | _, _, _ => render_untyped [question; answer; qa_history]
  end.

Definition generate_followup_questions (question answer qa_history : value)
  : result value :=
  let qa_history := none_is (VList []) qa_history in
  try_except
    (prompt <- followup_prompt question answer qa_history ;;
     response <- AIService.generate_structured_response E ai_service prompt
                   QuestionGenerator.followup_schema ;;
     QuestionGenerator.response_get "followup_questions" response)
    (fun _ => Ok (VList QuestionGenerator._get_fallback_followup_questions)).

(** [generate_report]: on a value that is no object, [interview_data.get]
    raises inside the [try] and again in [_get_fallback_report], outside any
    [try]. *)
Definition generate_report (interview_data : value) : result value :=
  match interview_data with
  | VDict d =>
      match interview_of d with
      | Some data => ReportGenerator.generate_report E ai_service data
      | None => report_untyped d
      end
  | _ => Raise AttributeError
  end.

End WithEnv.

End Dynamic.

(** ** app.py: the routes

    A request body is what [request.get_json()] gives: it raises, or it is a
    JSON value, and [data.get] raises [AttributeError] on any value but an
    object.  The generation routes pass the fields on as they are.  A response
    is the dict handed to [jsonify] and the status code. *)

Module App.

Record response : Type := {
  status : Z;
  body : list (string * value)
}.

Definition or_default := @QuestionGenerator.or_default.

(** The body of a configuration request: [None] stands for a JSON value that
    is no object; the fields are strings where present. *)
Record configure_request : Type := {
  cr_provider : option string;
  cr_api_key : option string;
  cr_model : option string
}.

(** [data = request.get_json()] followed by the first [data.get]. *)
Definition object_of {A : Type} (get_json : result (option A)) : result A :=
  data <- get_json ;;
  match data with
  | Some d => Ok d
  | None => Raise AttributeError
  end.

(** [data.get(key, default)] *)
Definition data_get (data : value) (key : string) (default : value)
  : result value :=
  d <- Dynamic.dict_of data ;;
  Ok (get_default key default d).

Section WithEnv.
Context (E : Env).
(** [str(e)] *)
Context (str : exception -> string).
Context (render_untyped : list value -> result string).
Context (report_untyped : list (string * value) -> result value).

(** The [except] clause every generation route shares. *)
Definition error_500 (e : exception) : response :=
  {| status := 500;
     body := [("success", VBool false); ("error", VStr (str e))] |}.

Definition ok_200 (key : string) (payload : value) : response :=
  {| status := 200;
     body := [("success", VBool true); (key, payload);
              ("timestamp", VStr (now_isoformat E))] |}.

Definition respond (key : string) (r : result value) : response :=
  match r with
  | Ok payload => ok_200 key payload
  | Raise e => error_500 e
  end.

Definition health_check (ai_service : AIService.t) : response :=
  {| status := 200;
     body := [("status", VStr "healthy");
              ("timestamp", VStr (now_isoformat E));
              ("ai_provider",
               VStr (AIService.get_current_provider ai_service))] |}.

Definition analyze_answer (ai_service : AIService.t)
    (get_json : result value) : response :=
  respond "analysis"
    (data <- get_json ;;
     question <- data_get data "question" (VStr EmptyString) ;;
     answer <- data_get data "answer" (VStr EmptyString) ;;
     context <- data_get data "context" (VDict []) ;;
     Dynamic.analyze_answer E ai_service render_untyped question answer
       context).

Definition suggest_followup (ai_service : AIService.t)
    (get_json : result value) : response :=
  respond "followup_questions"
    (data <- get_json ;;
     question <- data_get data "question" (VStr EmptyString) ;;
     answer <- data_get data "answer" (VStr EmptyString) ;;
     qa_history <- data_get data "qa_history" (VList []) ;;
     Dynamic.generate_followup_questions E ai_service render_untyped question
       answer qa_history).

Definition generate_report (ai_service : AIService.t)
    (get_json : result value) : response :=
  respond "report"
    (data <- get_json ;;
     interview_data <- data_get data "interview_data" (VDict []) ;;
     Dynamic.generate_report E ai_service report_untyped interview_data).

(** The route that configures the provider: its response and the service
    afterwards. *)
Definition configure_ai (ai_service : AIService.t)
    (get_json : result (option configure_request))
  : response * AIService.t :=
  match object_of get_json with
  | Raise e => (error_500 e, ai_service)
  | Ok data =>
      let provider := or_default _ (cr_provider data) "gemini" in
      let api_key := or_default _ (cr_api_key data) EmptyString in
      let model := or_default _ (cr_model data) EmptyString in
      let '(success, ai_service') :=
        AIService.configure_provider ai_service provider api_key (Some model) in
      if success then
        ({| status := 200;
            body := [("success", VBool true);
                     ("message", VStr ("AI provider configured: " ++ provider));
                     ("provider", VStr provider)] |},
         ai_service')
      else
        ({| status := 400;
            body := [("success", VBool false);
                     ("error", VStr "Failed to configure AI provider")] |},
         ai_service')
  end.

Definition provider_entry (p : AIService.provider_info) : value :=
  VDict [("name", VStr (AIService.name p));
         ("display_name", VStr (AIService.display_name p));
         ("description", VStr (AIService.description p));
         ("default_model", VStr (AIService.default_model p))].

Definition get_providers : response :=
  {| status := 200;
     body := [("success", VBool true);
              ("providers",
               VList (map provider_entry AIService.get_available_providers))] |}.

End WithEnv.

End App.

(** ** Observations used by the further properties *)

(** The ["required"] list of a schema. *)
Definition required_of (schema : value) : list string :=
  match field "required" schema with
  | Some (VList l) =>
      flat_map (fun v => match v with VStr s => [s] | _ => [] end) l
  | _ => []
  end.

(** The schema of the items of the array property [key] of a schema. *)
Definition items_schema (key : string) (schema : value) : value :=
  match field "properties" schema with
  | Some props =>
      match field key props with
      | Some arr =>
          match field "items" arr with Some s => s | None => VNone end
      | None => VNone
      end
  | None => VNone
  end.

(** The ["enum"] list of the property [key] of a schema. *)
Definition enum_of (key : string) (schema : value) : list string :=
  match field "properties" schema with
  | Some props =>
      match field key props with
      | Some p =>
          match field "enum" p with
          | Some (VList l) =>
              flat_map (fun v => match v with VStr s => [s] | _ => [] end) l
          | _ => []
          end
      | None => []
      end
  | None => []
  end.

(** Every key of [keys] is a field of [v]. *)
Definition has_fields (keys : list string) (v : value) : bool :=
  forallb (fun k => match field k v with Some _ => true | None => false end)
    keys.

(** The service after a sequence of [configure_provider] calls. *)
Fixpoint configure_all (self : AIService.t)
    (calls : list (string * string * option string)) : AIService.t :=
  match calls with
  | [] => self
  | (provider, key, model) :: rest =>
      configure_all (snd (AIService.configure_provider self provider key model))
        rest
  end.

(** The text of an answer is a string. *)
Definition spoken (answer : value) : bool :=
  match ReportGenerator.text_of "answer" answer with
  | VStr _ => true
  | _ => false
  end.


(** The active pair is absent, or names a provider of the registry together
    with an adapter of its class that holds a key and a model. *)
Definition well_configured (self : AIService.t) : Prop :=
  match AIService.current_provider self, AIService.current_instance self with
  | None, None => True
  | Some p, Some i =>
      AIService.lookup p AIService.providers = Some (cls i)
      /\ api_key i <> EmptyString
      /\ model i <> EmptyString
  | _, _ => False
  end.

(** The default model the catalog lists for a provider. *)
Definition catalog_default (provider : string) : string :=
  match find (fun p => String.eqb (AIService.name p) provider)
          AIService.get_available_providers with
  | Some p => AIService.default_model p
  | None => EmptyString
  end.

(** A text without a word: empty, or whitespace only. *)
Fixpoint blank (s : string) : bool :=
  match s with
  | EmptyString => true
  | String c r => (is_space c && blank r)%bool
  end.

(** The keywords [_classify_question_type] looks for, in its order. *)
Definition question_keywords : list string :=
  ["tell me about"; "describe"; "explain"; "walk me through";
   "how would you"; "what would you"; "design"; "implement"; "solve";
   "why"; "motivation"; "interest"; "passion";
   "strengths"; "weaknesses"; "skills"; "abilities"].

(** * Properties *)

(** ** Provider service *)

Lemma lookup_unknown_provider (provider : string) :
  ~ In provider known_providers ->
  AIService.lookup provider AIService.providers = None.
Proof.
  intros Hnot. unfold AIService.providers. simpl.
  destruct (String.eqb_spec provider "gemini") as [-> | _];
    [exfalso; apply Hnot; simpl; auto |].
  destruct (String.eqb_spec provider "openai") as [-> | _];
    [exfalso; apply Hnot; simpl; auto |].
  destruct (String.eqb_spec provider "anthropic") as [-> | _];
    [exfalso; apply Hnot; simpl; auto |].
  reflexivity.
Qed.

Lemma known_provider_cases (provider : string) :
  In provider known_providers ->
  provider = "gemini" \/ provider = "openai" \/ provider = "anthropic".
Proof.
  simpl. intros [H | [H | [H | []]]]; subst; auto.
Qed.

Lemma truthy_nonempty (s : string) : s <> EmptyString -> AIService.truthy s = true.
Proof. destruct s; [congruence | reflexivity]. Qed.

Lemma configure_provider_empty_key (self : AIService.t) (provider : string)
    (model : option string) :
  AIService.configure_provider self provider EmptyString model = (false, self).
Proof.
  unfold AIService.configure_provider.
  destruct (AIService.lookup provider AIService.providers) as [c |]; [| reflexivity].
  destruct (AIService.truthy_opt model); simpl.
  - reflexivity.
  - destruct (AIService.next_provider_info provider); reflexivity.
Qed.

(** C8: a call to [configure_provider] naming an unknown provider, or passing a
    configuration that [validate_config] refuses (an empty API key), returns
    [False] and leaves the active pair as it was; a call with a known provider
    and a non-empty key returns [True] and installs the new pair. *)
Theorem configure_provider_outcome (self : AIService.t) (provider key : string)
    (model : option string) :
  (~ In provider known_providers \/ key = EmptyString ->
   AIService.configure_provider self provider key model = (false, self))
  /\ (In provider known_providers /\ key <> EmptyString ->
      exists i,
        AIService.configure_provider self provider key model
        = (true, {| AIService.current_provider := Some provider;
                    AIService.current_instance := Some i |})
        /\ api_key i = key
        /\ AIService.lookup provider AIService.providers = Some (cls i)).
Proof.
  split.
  - intros [Hunknown | ->].
    + unfold AIService.configure_provider.
      rewrite (lookup_unknown_provider _ Hunknown). reflexivity.
    + apply configure_provider_empty_key.
  - intros [Hknown Hkey].
    apply known_provider_cases in Hknown.
    unfold AIService.configure_provider.
    destruct Hknown as [-> | [-> | ->]]; simpl;
      destruct (AIService.truthy_opt model); simpl;
      unfold AIService.validate_config; rewrite (truthy_nonempty _ Hkey); simpl;
      eexists; repeat split.
Qed.

Lemma configure_provider_outcome_witness :
  AIService.configure_provider Fixtures.gemini_service "mistral" "k" None
  = (false, Fixtures.gemini_service)
  /\ AIService.configure_provider Fixtures.gemini_service "openai" "" None
     = (false, Fixtures.gemini_service)
  /\ AIService.get_current_provider
       (snd (AIService.configure_provider Fixtures.gemini_service "openai" "k" None))
     = "openai".
Proof.
  split; [| split].
  - apply (proj1 (configure_provider_outcome Fixtures.gemini_service "mistral" "k" None)).
    left. simpl. intros [H | [H | [H | []]]]; discriminate H.
  - apply (proj1 (configure_provider_outcome Fixtures.gemini_service "openai" "" None)).
    right. reflexivity.
  - destruct (proj2 (configure_provider_outcome Fixtures.gemini_service "openai" "k" None))
      as [i [Heq _]].
    + split; [simpl; auto | discriminate].
    + rewrite Heq. reflexivity.
Defined.

(** ** Question generator *)

Lemma slice_to_length {A : Type} (n : Z) (l : list A) :
  (List.length (slice_to n l) <= List.length l)%nat.
Proof.
  unfold slice_to. destruct (0 <=? n);
    rewrite length_firstn; apply Nat.le_min_r.
Qed.

Lemma in_firstn {A : Type} (k : nat) (l : list A) (x : A) :
  In x (firstn k l) -> In x l.
Proof.
  revert l. induction k as [| k IH]; intros [| a l]; simpl; try tauto.
  intros [H | H]; auto.
Qed.

Lemma slice_to_incl {A : Type} (n : Z) (l : list A) (x : A) :
  In x (slice_to n l) -> In x l.
Proof.
  unfold slice_to. destruct (0 <=? n); apply in_firstn.
Qed.

Lemma catalog_length (question_type : string) :
  List.length (QuestionGenerator.catalog question_type) = 2%nat.
Proof.
  unfold QuestionGenerator.catalog, QuestionGenerator.fallback_questions. simpl.
  destruct (String.eqb question_type "technical"); [reflexivity |].
  destruct (String.eqb question_type "behavioral"); [reflexivity |].
  destruct (String.eqb question_type "general"); reflexivity.
Qed.

(** C10: the fallback catalog has the three keys technical, behavioral and
    general, with two questions each, so the fallback returns at most two
    questions whatever the count, and as many as the count allows up to two.
    The types leadership and culture_fit have prompt instructions of their own
    and no catalog entry: for them the fallback returns the questions of the
    general entry, "Tell me about yourself..." and "Why are you interested...",
    both of them for a count of two or more and the first for a count of
    one. *)
Theorem fallback_catalog_coverage :
  map fst QuestionGenerator.fallback_questions
  = ["technical"; "behavioral"; "general"]
  /\ Forall (fun entry => List.length (snd entry) = 2%nat)
       QuestionGenerator.fallback_questions
  /\ (forall question_type count,
        (List.length (QuestionGenerator._get_fallback_questions question_type count)
         <= 2)%nat
        /\ (0 <= count ->
            Z.of_nat
              (List.length
                 (QuestionGenerator._get_fallback_questions question_type count))
            = Z.min count 2))
  /\ In "leadership" (map fst QuestionGenerator.type_instructions)
  /\ In "culture_fit" (map fst QuestionGenerator.type_instructions)
  /\ AIService.lookup "leadership" QuestionGenerator.fallback_questions = None
  /\ AIService.lookup "culture_fit" QuestionGenerator.fallback_questions = None
  /\ (exists g1 g2,
        AIService.lookup "general" QuestionGenerator.fallback_questions
        = Some [g1; g2]
        /\ field "question" g1
           = Some (VStr "Tell me about yourself and your professional background.")
        /\ field "question" g2
           = Some (VStr "Why are you interested in this position and our company?")
        /\ field "category" g1 = Some (VStr "General")
        /\ field "category" g2 = Some (VStr "General")
        /\ forall question_type,
             In question_type ["leadership"; "culture_fit"] ->
             forall count,
               QuestionGenerator._get_fallback_questions question_type count
               = slice_to count [g1; g2]
               /\ (2 <= count ->
                   QuestionGenerator._get_fallback_questions question_type count
                   = [g1; g2])
               /\ (count = 1 ->
                   QuestionGenerator._get_fallback_questions question_type count
                   = [g1])
               /\ (count = 0 ->
                   QuestionGenerator._get_fallback_questions question_type count
                   = [])).
Proof.
  split; [reflexivity |].
  split; [repeat constructor |].
  split.
  { intros question_type count.
    unfold QuestionGenerator._get_fallback_questions. split.
    - rewrite <- (catalog_length question_type). apply slice_to_length.
    - intros Hcount. unfold slice_to.
      destruct (Z.leb_spec 0 count); [| lia].
      rewrite length_firstn, catalog_length. lia. }
  split; [simpl; auto |].
  split; [simpl; auto 6 |].
  split; [reflexivity |]. split; [reflexivity |].
  eexists _, _. split; [reflexivity |].
  split; [reflexivity |]. split; [reflexivity |].
  split; [reflexivity |]. split; [reflexivity |].
  intros question_type Hin count.
  assert (Hgeneral :
    QuestionGenerator._get_fallback_questions question_type count
    = slice_to count (QuestionGenerator.catalog "general")).
  { destruct Hin as [<- | [<- | []]]; reflexivity. }
  rewrite Hgeneral. split; [reflexivity |].
  unfold slice_to. split; [| split].
  - intros H2. destruct (Z.leb_spec 0 count); [| lia].
    apply firstn_all2. simpl. lia.
  - intros ->. reflexivity.
  - intros ->. reflexivity.
Qed.

Lemma fallback_catalog_coverage_witness :
  map (field "question")
    (QuestionGenerator._get_fallback_questions "leadership" 5)
  = [Some (VStr "Tell me about yourself and your professional background.");
     Some (VStr "Why are you interested in this position and our company?")]
  /\ map (field "question")
       (QuestionGenerator._get_fallback_questions "culture_fit" 1)
     = [Some (VStr "Tell me about yourself and your professional background.")].
Proof.
  destruct fallback_catalog_coverage
    as [_ [_ [_ [_ [_ [_ [_ [g1 [g2 [_ [Hq1 [Hq2 [_ [_ H]]]]]]]]]]]]]].
  split.
  - destruct (H "leadership" (or_introl eq_refl) 5) as [_ [H2 _]].
    rewrite H2 by lia. simpl. rewrite Hq1, Hq2. reflexivity.
  - destruct (H "culture_fit" (or_intror (or_introl eq_refl)) 1)
      as [_ [_ [H1 _]]].
    rewrite H1 by reflexivity. simpl. rewrite Hq1. reflexivity.
Defined.

Lemma response_get_missing (key : string) (d : list (string * value)) :
  dict_get key d = None ->
  QuestionGenerator.response_get key (VDict d) = Ok (VList []).
Proof.
  intros H. unfold QuestionGenerator.response_get, get_default.
  rewrite H. reflexivity.
Qed.

(** C9: when the prompt is built and the structured response parses to an
    object without a "questions" key, [generate_questions] returns the empty
    list; more generally an object is answered from the object, and the
    catalog is returned only when the attempt raises. *)
Theorem generate_questions_without_key (E : Env) (ai_service : AIService.t)
    (context question_type : string) (count : Z)
    (previous_questions : option (list string))
    (candidate_info : option (list (string * value)))
    (prompt : string) (d : list (string * value)) :
  QuestionGenerator._create_question_prompt E context question_type count
    (QuestionGenerator.or_default previous_questions [])
    (QuestionGenerator.or_default candidate_info []) = Ok prompt ->
  AIService.generate_structured_response E ai_service prompt
    QuestionGenerator.questions_schema = Ok (VDict d) ->
  (dict_get "questions" d = None ->
   QuestionGenerator.generate_questions E ai_service context question_type count
     previous_questions candidate_info = Ok (VList []))
  /\ QuestionGenerator.generate_questions E ai_service context question_type
       count previous_questions candidate_info
     = Ok (get_default "questions" (VList []) d).
Proof.
  intros Hprompt Hresponse.
  assert (Hrun :
    QuestionGenerator.generate_questions E ai_service context question_type
      count previous_questions candidate_info
    = Ok (get_default "questions" (VList []) d)).
  { unfold QuestionGenerator.generate_questions.
    rewrite Hprompt. simpl. rewrite Hresponse. reflexivity. }
  split; [| exact Hrun].
  intros Hmissing. rewrite Hrun. unfold get_default. rewrite Hmissing. reflexivity.
Qed.

(** The fallback is what an attempt that raises is replaced by. *)
Lemma generate_questions_on_exception (E : Env) (ai_service : AIService.t)
    (context question_type : string) (count : Z)
    (previous_questions : option (list string))
    (candidate_info : option (list (string * value))) (e : exception) :
  (prompt <- QuestionGenerator._create_question_prompt E context question_type
               count (QuestionGenerator.or_default previous_questions [])
               (QuestionGenerator.or_default candidate_info []) ;;
   response <- AIService.generate_structured_response E ai_service prompt
                 QuestionGenerator.questions_schema ;;
   QuestionGenerator.response_get "questions" response) = Raise e ->
  QuestionGenerator.generate_questions E ai_service context question_type count
    previous_questions candidate_info
  = Ok (VList (QuestionGenerator._get_fallback_questions question_type count)).
Proof.
  intros H. unfold QuestionGenerator.generate_questions. rewrite H. reflexivity.
Qed.

Lemma generate_questions_without_key_witness :
  QuestionGenerator.generate_questions
    (Fixtures.env_replying (Ok "{ }")) Fixtures.gemini_service
    "" "technical" 5 None None = Ok (VList [])
  /\ QuestionGenerator._get_fallback_questions "technical" 5 <> [].
Proof.
  split.
  - apply (generate_questions_without_key
             (Fixtures.env_replying (Ok "{ }")) Fixtures.gemini_service
             "" "technical" 5 None None "" []);
      reflexivity.
  - discriminate.
Defined.

(** ** Answer analyzer *)

Lemma dict_get_set_other (k k' : string) (v : value) (d : list (string * value)) :
  k <> k' -> dict_get k (dict_set k' v d) = dict_get k d.
Proof.
  intros Hne. induction d as [| [k0 v0] d IH]; simpl.
  - destruct (String.eqb_spec k k'); [contradiction | reflexivity].
  - destruct (String.eqb_spec k' k0) as [-> | Hk0]; simpl.
    + destruct (String.eqb_spec k k0); [contradiction | reflexivity].
    + destruct (String.eqb k k0); [reflexivity | exact IH].
Qed.

Lemma dict_get_set_same (k : string) (v : value) (d : list (string * value)) :
  dict_get k (dict_set k v d) = Some v.
Proof.
  induction d as [| [k0 v0] d IH]; simpl.
  - rewrite String.eqb_refl. reflexivity.
  - destruct (String.eqb k k0) eqn:Hk; simpl; rewrite Hk; [reflexivity | exact IH].
Qed.

Lemma length_bands_cases (word_count : Z) :
  (word_count < 10 /\ AnswerAnalyzer.length_bands word_count = (3, 2, 4))
  \/ (10 <= word_count < 30 /\ AnswerAnalyzer.length_bands word_count = (5, 4, 6))
  \/ (30 <= word_count < 60 /\ AnswerAnalyzer.length_bands word_count = (7, 7, 7))
  \/ (60 <= word_count /\ AnswerAnalyzer.length_bands word_count = (8, 8, 8)).
Proof.
  unfold AnswerAnalyzer.length_bands.
  destruct (Z.ltb_spec word_count 10); [left; split; [lia | reflexivity] |].
  destruct (Z.ltb_spec word_count 30); [right; left; split; [lia | reflexivity] |].
  destruct (Z.ltb_spec word_count 60);
    [right; right; left; split; [lia | reflexivity] |].
  right; right; right. split; [lia | reflexivity].
Qed.

(** The three fields of the fallback that depend on the rating. *)
Lemma fallback_rating_fields (question answer : string) :
  let r := fst (fst (AnswerAnalyzer.length_bands
                       (AnswerAnalyzer.word_count_of answer))) in
  let fb := AnswerAnalyzer._get_fallback_analysis question answer in
  field "overall_rating" fb = Some (VInt r)
  /\ field "sentiment" fb = Some (VStr (AnswerAnalyzer.sentiment_of r))
  /\ field "confidence_level" fb = Some (VStr (AnswerAnalyzer.confidence_of r)).
Proof.
  unfold AnswerAnalyzer._get_fallback_analysis.
  destruct (AnswerAnalyzer.length_bands (AnswerAnalyzer.word_count_of answer))
    as [[r c] cl].
  repeat split.
Qed.

(** C7: the fallback analysis rates by the word count of the answer alone,
    3 below 10 words, 5 below 30, 7 below 60 and 8 from 60 on; sentiment is
    positive from 7, neutral from 5 and negative below, confidence high from
    8, medium from 6 and low below.  An answer of five words is rated 3, with
    negative sentiment and low confidence. *)
Theorem fallback_rating_by_word_count (question answer : string) :
  let word_count := AnswerAnalyzer.word_count_of answer in
  let fb := AnswerAnalyzer._get_fallback_analysis question answer in
  exists (r : Z) (sentiment confidence : string),
    field "overall_rating" fb = Some (VInt r)
    /\ field "sentiment" fb = Some (VStr sentiment)
    /\ field "confidence_level" fb = Some (VStr confidence)
    /\ (word_count < 10 -> r = 3)
    /\ (10 <= word_count < 30 -> r = 5)
    /\ (30 <= word_count < 60 -> r = 7)
    /\ (60 <= word_count -> r = 8)
    /\ (sentiment = "positive" <-> 7 <= r)
    /\ (sentiment = "neutral" <-> 5 <= r < 7)
    /\ (sentiment = "negative" <-> r < 5)
    /\ (confidence = "high" <-> 8 <= r)
    /\ (confidence = "medium" <-> 6 <= r < 8)
    /\ (confidence = "low" <-> r < 6)
    /\ (word_count = 5 ->
        r = 3 /\ sentiment = "negative" /\ confidence = "low").
Proof.
  intros word_count fb.
  destruct (fallback_rating_fields question answer) as [Hr [Hs Hc]].
  fold word_count in Hr, Hs, Hc. fold fb in Hr, Hs, Hc.
  eexists _, _, _.
  split; [exact Hr |]. split; [exact Hs |]. split; [exact Hc |].
  destruct (length_bands_cases word_count) as [[Hw ->] | [[Hw ->] | [[Hw ->] | [Hw ->]]]];
    simpl;
    repeat split; intros; try lia; try discriminate; try reflexivity.
Qed.

Lemma fallback_rating_by_word_count_witness :
  AnswerAnalyzer.word_count_of "I like solving hard problems" = 5
  /\ field "overall_rating"
       (AnswerAnalyzer._get_fallback_analysis "Why this role?"
          "I like solving hard problems") = Some (VInt 3).
Proof.
  split; [reflexivity |].
  destruct (fallback_rating_by_word_count "Why this role?"
              "I like solving hard problems")
    as [r [s [c [Hr [_ [_ [_ [_ [_ [_ [_ [_ [_ [_ [_ [_ H5]]]]]]]]]]]]]]]].
  destruct (H5 eq_refl) as [-> _]. exact Hr.
Defined.

(** Every fallback analysis satisfies the invariant of an AnswerAnalysis. *)
Lemma fallback_analysis_well_scored (question answer : string) :
  well_scored (AnswerAnalyzer._get_fallback_analysis question answer) = true.
Proof.
  unfold AnswerAnalyzer._get_fallback_analysis.
  destruct (length_bands_cases (AnswerAnalyzer.word_count_of answer))
    as [[_ ->] | [[_ ->] | [[_ ->] | [_ ->]]]];
    destruct (any_in ["example"; "for instance"; "specifically"; "when"]
                (lower answer));
    destruct (any_in ["api"; "database"; "system"; "process"; "method"]
                (lower answer));
    destruct (50 <? Z.of_nat (String.length answer));
    reflexivity.
Qed.

(** An analysis never raises: the handler of its [try] is total. *)
Lemma analyze_answer_returns (E : Env) (ai_service : AIService.t)
    (question answer : string) (context : option (list (string * value))) :
  returns (AnswerAnalyzer.analyze_answer E ai_service question answer context).
Proof.
  unfold AnswerAnalyzer.analyze_answer, try_except, returns.
  match goal with |- exists a, match ?body with _ => _ end = _ =>
    destruct body; eauto end.
Qed.

(** C2, as the code has it: an analysis is either the parsed object of the
    model with [analysis_metadata] set and every other field as the model gave
    it, without any check of the scores, or, when the attempt raises, the
    fallback analysis, which has exactly the five dimensions and every score
    between 1 and 10. *)
Theorem analyze_answer_scores (E : Env) (ai_service : AIService.t)
    (question answer : string) (context : option (list (string * value))) :
  let response :=
    (prompt <- AnswerAnalyzer._create_analysis_prompt E question answer
                 (QuestionGenerator.or_default context []) ;;
     AIService.generate_structured_response E ai_service prompt
       AnswerAnalyzer.analysis_schema) in
  exists analysis,
    AnswerAnalyzer.analyze_answer E ai_service question answer context
    = Ok analysis
    /\ match response with
       | Ok (VDict d) =>
           analysis
           = VDict (dict_set "analysis_metadata"
                      (AnswerAnalyzer.analysis_metadata question answer) d)
           /\ forall k, k <> "analysis_metadata" ->
                        field k analysis = dict_get k d
       | _ =>
           analysis = AnswerAnalyzer._get_fallback_analysis question answer
           /\ well_scored analysis = true
           /\ (exists scores,
                 field "detailed_scores" analysis = Some (VDict scores)
                 /\ dict_keys scores = score_names)
       end.
Proof.
  intros response.
  assert (Hfb : forall v, v = AnswerAnalyzer._get_fallback_analysis question answer ->
            v = AnswerAnalyzer._get_fallback_analysis question answer
            /\ well_scored v = true
            /\ (exists scores,
                  field "detailed_scores" v = Some (VDict scores)
                  /\ dict_keys scores = score_names)).
  { intros v ->. split; [reflexivity |].
    split; [apply fallback_analysis_well_scored |].
    unfold AnswerAnalyzer._get_fallback_analysis.
    destruct (AnswerAnalyzer.length_bands (AnswerAnalyzer.word_count_of answer))
      as [[r c] cl].
    eexists. split; reflexivity. }
  unfold AnswerAnalyzer.analyze_answer. subst response.
  destruct (AnswerAnalyzer._create_analysis_prompt E question answer
              (QuestionGenerator.or_default context [])) as [prompt | e]; simpl;
    [| eexists; split; [reflexivity | apply Hfb; reflexivity]].
  destruct (AIService.generate_structured_response E ai_service prompt
              AnswerAnalyzer.analysis_schema)
    as [[| b | q | n | s | l | d] | e]; simpl;
    eexists; (split; [reflexivity |]); try (apply Hfb; reflexivity).
  split; [reflexivity |].
  intros k Hk. simpl. apply dict_get_set_other. exact Hk.
Qed.

(** C2 as stated fails on the AI path: a model that answers with a rating of
    15 and no detailed scores gets exactly that passed on. *)
Lemma analyze_answer_ai_scores_unchecked :
  let E := Fixtures.env_replying
             (Ok ("{" ++ Fixtures.lit "overall_rating" ++ ": 15}")) in
  exists analysis,
    AnswerAnalyzer.analyze_answer E Fixtures.gemini_service
      "Why this role?" "I like solving hard problems" None = Ok analysis
    /\ field "overall_rating" analysis = Some (VInt 15)
    /\ field "detailed_scores" analysis = None
    /\ well_scored analysis = false.
Proof.
  eexists. split; [vm_compute; reflexivity |].
  repeat split.
Qed.

(** ** Structured-response contract *)

Lemma from_first_open_spec (s r : string) :
  AIService.from_first_open s = Some r <->
  exists pre, s = pre ++ String "{" r /\ occurs "{" pre = false.
Proof.
  revert r. induction s as [| c s IH]; intros r; simpl.
  - split; [discriminate |].
    intros [[| x pre] [H _]]; discriminate H.
  - destruct (Ascii.eqb_spec c "{") as [-> | Hc].
    + split.
      * intros H. injection H as <-. exists EmptyString. split; reflexivity.
      * intros [[| x pre] [H Hpre]]; simpl in *.
        -- injection H as <-. reflexivity.
        -- injection H as <- _. simpl in Hpre. discriminate Hpre.
    + rewrite IH. split.
      * intros [pre [-> Hpre]]. exists (String c pre). split; [reflexivity |].
        simpl. rewrite Hpre. destruct (Ascii.eqb_spec c "{"); [contradiction | reflexivity].
      * intros [[| x pre] [H Hpre]]; simpl in *.
        -- injection H as -> _. contradiction Hc. reflexivity.
        -- injection H as <- ->. exists pre. split; [reflexivity |].
           apply Bool.orb_false_iff in Hpre. tauto.
Qed.

Lemma through_last_close_none (s : string) :
  AIService.through_last_close s = None <-> occurs "}" s = false.
Proof.
  induction s as [| c s IH]; simpl; [tauto |].
  destruct (AIService.through_last_close s) as [p |].
  - split; [discriminate |]. intros H.
    apply Bool.orb_false_iff in H. destruct H as [_ H].
    apply IH in H. discriminate H.
  - destruct (Ascii.eqb c "}"); simpl; [split; discriminate |].
    split; intros _; [apply IH |]; reflexivity.
Qed.

Lemma occurs_middle (c : ascii) (b post : string) :
  occurs c (b ++ String c post) = true.
Proof.
  induction b as [| y b IHb]; simpl.
  - rewrite Ascii.eqb_refl. reflexivity.
  - rewrite IHb. apply Bool.orb_true_r.
Qed.

Lemma through_last_close_spec (s p : string) :
  AIService.through_last_close s = Some p <->
  exists body post,
    s = body ++ String "}" post /\ p = body ++ "}" /\ occurs "}" post = false.
Proof.
  revert p. induction s as [| c s IH]; intros p; simpl.
  - split; [discriminate |].
    intros [[| x body] [post [H _]]]; discriminate H.
  - destruct (AIService.through_last_close s) as [p' |] eqn:Hs.
    + split.
      * intros H. injection H as <-.
        destruct (proj1 (IH p') eq_refl) as [body [post [-> [-> Hpost]]]].
        exists (String c body), post. auto.
      * intros [[| x b] [post' [H [-> Hpost']]]]; simpl in H.
        -- injection H as _ <-.
           apply through_last_close_none in Hpost'. congruence.
        -- injection H as <- ->.
           assert (Hb : Some p' = Some (b ++ "}")).
           { apply IH. exists b, post'. auto. }
           injection Hb as ->. reflexivity.
    + apply through_last_close_none in Hs.
      destruct (Ascii.eqb_spec c "}") as [-> | Hc].
      * split.
        -- intros H. injection H as <-. exists EmptyString, s. auto.
        -- intros [[| x b] [post' [H [-> Hpost']]]]; simpl in H.
           ++ reflexivity.
           ++ injection H as _ ->.
              rewrite occurs_middle in Hs. discriminate Hs.
      * split; [discriminate |].
        intros [[| x b] [post' [H [-> Hpost']]]]; simpl in H.
        -- injection H as -> _. contradiction Hc. reflexivity.
        -- injection H as _ ->.
           rewrite occurs_middle in Hs. discriminate Hs.
Qed.

(** The match of the brace pattern runs from the first opening brace of the
    text to its last closing brace. *)
Lemma brace_span_spec (text span : string) :
  AIService.brace_span text = Some span <->
  exists pre body post,
    text = pre ++ span ++ post
    /\ span = String "{" (body ++ "}")
    /\ occurs "{" pre = false
    /\ occurs "}" post = false.
Proof.
  unfold AIService.brace_span. split.
  - destruct (AIService.from_first_open text) as [r |] eqn:Hopen; [| discriminate].
    destruct (AIService.through_last_close r) as [p |] eqn:Hclose; [| discriminate].
    intros H. injection H as <-.
    apply from_first_open_spec in Hopen. destruct Hopen as [pre [-> Hpre]].
    apply through_last_close_spec in Hclose.
    destruct Hclose as [body [post [-> [-> Hpost]]]].
    exists pre, body, post. repeat split; auto.
    f_equal. simpl. f_equal.
    clear. induction body as [| c b IHb]; simpl; [reflexivity | now rewrite IHb].
  - intros [pre [body [post [-> [-> [Hpre Hpost]]]]]].
    assert (Hopen : AIService.from_first_open
                      (pre ++ String "{" (body ++ "}") ++ post)
                    = Some ((body ++ "}") ++ post)).
    { apply from_first_open_spec. exists pre. auto. }
    rewrite Hopen.
    assert (Hclose : AIService.through_last_close ((body ++ "}") ++ post)
                     = Some (body ++ "}")).
    { apply through_last_close_spec. exists body, post. repeat split; auto.
      clear. induction body as [| c b IHb]; simpl; [reflexivity | now rewrite IHb]. }
    rewrite Hclose. reflexivity.
Qed.

Lemma occurs_app (c : ascii) (a b : string) :
  occurs c (a ++ b) = (occurs c a || occurs c b)%bool.
Proof.
  induction a as [| x a IH]; simpl; [reflexivity |].
  rewrite IH. apply Bool.orb_assoc.
Qed.

(** What follows the first opening brace contains what follows any opening
    brace. *)
Lemma from_first_open_suffix (pre rest : string) :
  exists mid,
    AIService.from_first_open (pre ++ String "{" rest) = Some (mid ++ rest).
Proof.
  induction pre as [| c pre IH]; simpl.
  - exists EmptyString. reflexivity.
  - destruct (Ascii.eqb c "{").
    + exists (pre ++ "{"). f_equal.
      clear. induction pre as [| x pre IH]; simpl; [reflexivity | now rewrite IH].
    + exact IH.
Qed.

(** The brace pattern finds nothing exactly in the texts where no opening
    brace is followed by a closing one. *)
Lemma brace_span_none (text : string) :
  AIService.brace_span text = None <->
  ~ exists pre body post, text = pre ++ String "{" (body ++ String "}" post).
Proof.
  split.
  - intros Hnone [pre [body [post ->]]].
    unfold AIService.brace_span in Hnone.
    destruct (from_first_open_suffix pre (body ++ String "}" post))
      as [mid Hopen].
    rewrite Hopen in Hnone.
    destruct (AIService.through_last_close (mid ++ body ++ String "}" post))
      eqn:Hclose; [discriminate Hnone |].
    apply through_last_close_none in Hclose.
    rewrite occurs_app, occurs_middle, Bool.orb_true_r in Hclose.
    discriminate Hclose.
  - intros Hno.
    destruct (AIService.brace_span text) as [span |] eqn:Hspan; [| reflexivity].
    exfalso. apply Hno.
    apply brace_span_spec in Hspan.
    destruct Hspan as [pre [body [post [-> [-> _]]]]].
    exists pre, body, post. simpl. f_equal. f_equal.
    clear. induction body as [| x body IH]; simpl; [reflexivity | now rewrite IH].
Qed.

Lemma span_then_rest (body post : string) :
  (body ++ "}") ++ post = body ++ String "}" post.
Proof.
  induction body as [| c body IH]; simpl; [reflexivity | now rewrite IH].
Qed.

(** A text in which some opening brace is followed by a closing one splits at
    its first opening and its last closing brace. *)
Lemma first_and_last_brace (text : string) :
  (exists pre body post, text = pre ++ String "{" (body ++ String "}" post)) ->
  exists pre body post,
    text = pre ++ String "{" (body ++ String "}" post)
    /\ occurs "{" pre = false
    /\ occurs "}" post = false.
Proof.
  intros Hsome.
  destruct (AIService.brace_span text) as [span |] eqn:Hspan.
  - apply brace_span_spec in Hspan.
    destruct Hspan as [pre [body [post [-> [-> [Hpre Hpost]]]]]].
    exists pre, body, post. split; [| auto].
    simpl. rewrite span_then_rest. reflexivity.
  - apply brace_span_none in Hspan. contradiction.
Qed.

Lemma wrapped_text_facts :
  JsonDecoder.loads Fixtures.wrapped_text = None
  /\ AIService.brace_span Fixtures.wrapped_text = Some Fixtures.embedded_text
  /\ JsonDecoder.loads Fixtures.embedded_text = Some Fixtures.embedded_object.
Proof. repeat split; vm_compute; reflexivity. Qed.

(** C5: the structured-response contract parses the text the model returned
    in two stages.  A text that the decoder accepts as a whole gives its
    value.  Otherwise, when some opening brace of the text is followed by a
    closing one, the text splits at its first opening and its last closing
    brace, whatever lies between (line breaks included), and the outcome is
    what the decoder makes of that span: its value, or its error.  When no
    opening brace is followed by a closing one the call raises.  For the text
    of the example, an object behind the words "Sure! ", which the decoder
    refuses as a whole and accepts as the object once the words are cut, the
    result is that object. *)
Theorem structured_response_two_stage (E : Env) (i : instance)
    (prompt : string) (schema : value) (text : string) :
  provider_generate_text E i (AIService.structured_prompt E prompt schema)
  = Ok text ->
  let outcome :=
    AIService.provider_generate_structured_response E i prompt schema in
  (forall v, json_loads E text = Some v -> outcome = Ok v)
  /\ (json_loads E text = None ->
      (forall pre body post,
         text = pre ++ String "{" (body ++ String "}" post) ->
         occurs "{" pre = false ->
         occurs "}" post = false ->
         outcome = match json_loads E (String "{" (body ++ "}")) with
                   | Some v => Ok v
                   | None => Raise JSONDecodeError
                   end)
      /\ ((exists pre body post,
             text = pre ++ String "{" (body ++ String "}" post)) ->
          exists pre body post,
            text = pre ++ String "{" (body ++ String "}" post)
            /\ occurs "{" pre = false
            /\ occurs "}" post = false)
      /\ ((~ exists pre body post,
              text = pre ++ String "{" (body ++ String "}" post)) ->
          outcome = Raise StructuredResponseError))
  /\ (text = Fixtures.wrapped_text ->
      json_loads E Fixtures.wrapped_text = None ->
      json_loads E Fixtures.embedded_text = Some Fixtures.embedded_object ->
      outcome = Ok Fixtures.embedded_object).
Proof.
  intros Htext outcome. subst outcome.
  unfold AIService.provider_generate_structured_response.
  rewrite Htext. simpl. unfold AIService.parse_structured.
  split; [| split].
  - intros v ->. reflexivity.
  - intros ->. split; [| split].
    + intros pre body post Hsplit Hpre Hpost.
      assert (Hspan : AIService.brace_span text
                      = Some (String "{" (body ++ "}"))).
      { apply brace_span_spec. exists pre, body, post.
        split; [| auto]. rewrite Hsplit. simpl.
        rewrite span_then_rest. reflexivity. }
      rewrite Hspan. reflexivity.
    + apply first_and_last_brace.
    + intros Hno. apply brace_span_none in Hno. rewrite Hno. reflexivity.
  - intros -> Hwhole Hobject.
    destruct wrapped_text_facts as [_ [Hspan _]].
    rewrite Hwhole, Hspan. unfold AIService.loads.
    rewrite Hobject. reflexivity.
Qed.

Lemma structured_response_two_stage_witness :
  AIService.generate_structured_response
    (Fixtures.env_replying (Ok Fixtures.wrapped_text)) Fixtures.gemini_service
    "Ask one warm-up question." QuestionGenerator.questions_schema
  = Ok Fixtures.embedded_object
  /\ AIService.generate_structured_response
       (Fixtures.env_replying (Ok Fixtures.spread_text)) Fixtures.gemini_service
       "Ask one warm-up question." QuestionGenerator.questions_schema
     = Ok (VDict [("questions", VList [])]).
Proof.
  split.
  - apply (structured_response_two_stage
             (Fixtures.env_replying (Ok Fixtures.wrapped_text))
             {| cls := GeminiProvider; api_key := "key";
                model := "gemini-2.5-flash" |}
             "Ask one warm-up question." QuestionGenerator.questions_schema
             Fixtures.wrapped_text eq_refl);
      [reflexivity | vm_compute; reflexivity | vm_compute; reflexivity].
  - apply (proj1 (proj1 (proj2 (structured_response_two_stage
             (Fixtures.env_replying (Ok Fixtures.spread_text))
             {| cls := GeminiProvider; api_key := "key";
                model := "gemini-2.5-flash" |}
             "Ask one warm-up question." QuestionGenerator.questions_schema
             Fixtures.spread_text eq_refl)) eq_refl)
             ("Here you go:" ++ AIService.nl)
             (AIService.nl ++ Fixtures.lit "questions" ++ ": []" ++ AIService.nl)
             (AIService.nl ++ "Hope this helps."));
      reflexivity.
Defined.

(** ** Metrics aggregator *)

Lemma Qltb_true (a b : Q) : Qltb a b = true <-> (a < b)%Q.
Proof.
  unfold Qltb. rewrite Bool.negb_true_iff. split.
  - intros H. apply Qnot_le_lt. intros Hle.
    apply Qle_bool_iff in Hle. congruence.
  - intros H. destruct (Qle_bool b a) eqn:Hle; [| reflexivity].
    apply Qle_bool_iff in Hle. exfalso. apply (Qlt_not_le _ _ H Hle).
Qed.

Lemma Qltb_false (a b : Q) : Qltb a b = false <-> (b <= a)%Q.
Proof.
  unfold Qltb. rewrite Bool.negb_false_iff. apply Qle_bool_iff.
Qed.

(** Rounding to the nearest integer moves a number by a half at most. *)
Lemma round_half_even_near (x : Q) :
  (inject_Z (round_half_even x) - (1 # 2) <= x
   /\ x <= inject_Z (round_half_even x) + (1 # 2))%Q.
Proof.
  unfold round_half_even.
  pose proof (Qfloor_le x) as Hlo.
  pose proof (Qlt_floor x) as Hhi.
  rewrite inject_Z_plus in Hhi.
  set (lo := Qfloor x) in *.
  change (inject_Z 1) with 1%Q in Hhi.
  destruct (Qltb (2 * (x - inject_Z lo)) 1) eqn:H1.
  - apply Qltb_true in H1. split; lra.
  - apply Qltb_false in H1.
    destruct (Qltb 1 (2 * (x - inject_Z lo))) eqn:H2.
    + rewrite inject_Z_plus. change (inject_Z 1) with 1%Q. split; lra.
    + apply Qltb_false in H2.
      destruct (Z.even lo).
      * split; lra.
      * rewrite inject_Z_plus. change (inject_Z 1) with 1%Q. split; lra.
Qed.

Lemma round2_as_quotient (x : Q) :
  (round2 x == inject_Z (round_half_even (x * 100)) / 100)%Q.
Proof. unfold round2. apply Qmake_Qdiv. Qed.

(** [round(x, 2)] is within half a hundredth of [x]. *)
Lemma round2_near (x : Q) : (Qabs (round2 x - x) <= 1 # 200)%Q.
Proof.
  apply Qabs_diff_Qle_condition.
  rewrite round2_as_quotient.
  destruct (round_half_even_near (x * 100)) as [Hl Hu].
  set (z := inject_Z (round_half_even (x * 100))) in *.
  unfold Qdiv. change (/ 100)%Q with (1 # 100)%Q.
  split; lra.
Qed.

(** Rounding keeps a number between two integers between them. *)
Lemma round2_between (x : Q) :
  (1 <= x)%Q -> (x <= 10)%Q -> (1 <= round2 x /\ round2 x <= 10)%Q.
Proof.
  intros H1 H10.
  destruct (round_half_even_near (x * 100)) as [Hl Hu].
  assert (Hz : 100 <= round_half_even (x * 100) <= 1000).
  { split.
    - assert (H : (inject_Z 99 < inject_Z (round_half_even (x * 100)))%Q).
      { change (inject_Z 99) with 99%Q. lra. }
      rewrite <- Zlt_Qlt in H. lia.
    - assert (H : (inject_Z (round_half_even (x * 100)) < inject_Z 1001)%Q).
      { change (inject_Z 1001) with 1001%Q. lra. }
      rewrite <- Zlt_Qlt in H. lia. }
  unfold round2, Qle. simpl. lia.
Qed.




Lemma py_min_cases (a b : Q) :
  ((b < a)%Q /\ py_min a b = b) \/ ((a <= b)%Q /\ py_min a b = a).
Proof.
  unfold py_min. destruct (Qltb b a) eqn:H.
  - left. apply Qltb_true in H. auto.
  - right. apply Qltb_false in H. auto.
Qed.


(** The two ways the last entry of the metrics is computed. *)
Lemma calculate_metrics_cases (questions answers : list value) (r : Q)
    (rs : list Q) (duration : Z) :
  let ratings := r :: rs in
  let avg := (ReportGenerator.sum ratings / ReportGenerator.len ratings)%Q in
  let consistency :=
    (10 - py_min 9 (ReportGenerator.variance_of ratings avg))%Q in
  (0 < duration < 60000
   /\ ReportGenerator._calculate_metrics questions answers ratings duration
      = Raise ZeroDivisionError)
  \/ ((duration <= 0 \/ 60000 <= duration)
      /\ exists m,
           ReportGenerator._calculate_metrics questions answers ratings duration
           = Ok m
           /\ sections m
              = ["average_rating"; "max_rating"; "min_rating";
                 "consistency_score"; "total_questions"; "total_answers";
                 "response_rate"; "excellent_responses"; "good_responses";
                 "poor_responses"; "duration_minutes"; "questions_per_minute"]
           /\ field "average_rating" m = Some (VNum (round2 avg))
           /\ field "consistency_score" m = Some (VNum (round2 consistency))
           /\ field "duration_minutes" m = Some (VInt (duration / 60000))
           /\ field "questions_per_minute" m
              = Some (VNum (if 0 <? duration
                            then inject_Z (Z.of_nat (List.length questions))
                                 / inject_Z (duration / 60000)
                            else 0))).
Proof.
  intros ratings avg consistency.
  unfold ReportGenerator._calculate_metrics. fold ratings. fold avg.
  subst ratings. cbv zeta.
  destruct (Z.ltb_spec 0 duration) as [Hpos | Hneg].
  - unfold ReportGenerator.true_div.
    destruct (Z.eqb_spec (duration / 60000) 0) as [Hzero | Hnz].
    + left. split; [| reflexivity].
      split; [exact Hpos |].
      apply Z.div_small_iff in Hzero; lia.
    + right. split.
      * right. destruct (Z_lt_le_dec duration 60000) as [Hlt | Hge]; [| exact Hge].
        exfalso. apply Hnz. apply Z.div_small. lia.
      * eexists. split; [reflexivity |].
        destruct (Z.eqb_spec duration 0) as [-> | _]; [lia |].
        repeat split.
  - right. split; [left; exact Hneg |].
    eexists. split; [reflexivity |].
    destruct (Z.eqb_spec duration 0) as [-> | _]; repeat split.
Qed.

(** C3, where the code departs from it: for any interview with a rating and a
    duration above zero and below one minute, [_calculate_metrics] divides the
    number of questions by zero whole minutes and raises. *)
Theorem calculate_metrics_raises_below_a_minute (questions answers : list value)
    (r : Q) (rs : list Q) (duration : Z) :
  0 < duration < 60000 ->
  ReportGenerator._calculate_metrics questions answers (r :: rs) duration
  = Raise ZeroDivisionError.
Proof.
  intros Hd.
  destruct (calculate_metrics_cases questions answers r rs duration)
    as [[_ H] | [[H | H] _]]; [exact H | lia | lia].
Qed.

Lemma calculate_metrics_raises_below_a_minute_witness :
  ReportGenerator._calculate_metrics
    [VStr "Why this role?"] [VStr "I like solving hard problems"] [7%Q] 30000
  = Raise ZeroDivisionError.
Proof.
  apply (calculate_metrics_raises_below_a_minute
           [VStr "Why this role?"] [VStr "I like solving hard problems"]
           7%Q [] 30000).
  lia.
Defined.






(** [_calculate_metrics] is the computation with midway values sent to the
    even neighbour. *)
Lemma calculate_metrics_ties_to_even (questions answers : list value)
    (ratings : list Q) (duration : Z) :
  ReportGenerator._calculate_metrics questions answers ratings duration
  = ReportGenerator._calculate_metrics_with ties_to_even ties_to_even questions
      answers ratings duration.
Proof.
  assert (Hround : forall x, round2 x = round2_with ties_to_even x).
  { intros x. unfold round2, round2_with, round_half_even, round_to_nearest,
      ties_to_even.
    destruct (Qltb _ 1); [reflexivity |].
    destruct (Qltb 1 _); [reflexivity |].
    destruct (Z.even (Qfloor (x * 100))); reflexivity. }
  unfold ReportGenerator._calculate_metrics,
    ReportGenerator._calculate_metrics_with.
  destruct ratings as [| r rs]; [reflexivity |].
  rewrite !Hround. reflexivity.
Qed.





(** ** Report assembler *)

Lemma try_except_returns {A : Type} (body : result A)
    (handler : exception -> result A) :
  (forall e, returns (handler e)) -> returns (try_except body handler).
Proof.
  intros H. destruct body as [a | e]; simpl; [exists a; reflexivity | apply H].
Qed.

Ltac handler_total :=
  apply try_except_returns; intros ?; eexists; reflexivity.

Section Sections.
Context (E : Env) (ai_service : AIService.t).

Lemma generate_questions_returns context question_type count previous_questions
    candidate_info :
  returns (QuestionGenerator.generate_questions E ai_service context
             question_type count previous_questions candidate_info).
Proof. handler_total. Qed.

Lemma generate_followup_questions_returns question answer qa_history :
  returns (QuestionGenerator.generate_followup_questions E ai_service question
             answer qa_history).
Proof. handler_total. Qed.

Lemma executive_summary_returns questions answers ratings duration :
  returns (ReportGenerator._generate_executive_summary E ai_service questions
             answers ratings duration).
Proof. handler_total. Qed.

Lemma detailed_analysis_returns questions answers ratings :
  returns (ReportGenerator._generate_detailed_analysis E ai_service questions
             answers ratings).
Proof. handler_total. Qed.

Lemma strengths_weaknesses_returns questions answers ratings :
  returns (ReportGenerator._generate_strengths_weaknesses E ai_service questions
             answers ratings).
Proof. handler_total. Qed.

Lemma recommendations_returns questions answers ratings candidate_info :
  returns (ReportGenerator._generate_recommendations E ai_service questions
             answers ratings candidate_info).
Proof. handler_total. Qed.

Lemma next_steps_returns ratings candidate_info :
  returns (ReportGenerator._generate_next_steps E ai_service ratings
             candidate_info).
Proof. handler_total. Qed.

Lemma overall_assessment_returns d detailed_analysis :
  returns (ReportGenerator._generate_overall_assessment E ai_service (VDict d)
             detailed_analysis).
Proof. handler_total. Qed.

(** The metrics are a dict whenever they are computed. *)
Lemma calculate_metrics_is_dict questions answers ratings duration m :
  ReportGenerator._calculate_metrics questions answers ratings duration = Ok m ->
  exists d, m = VDict d.
Proof.
  unfold ReportGenerator._calculate_metrics.
  destruct ratings as [| r rs].
  - intros H. injection H as <-. eexists. reflexivity.
  - match goal with |- (_ <- ?q ;; _) = _ -> _ => destruct q as [x | e] end;
      simpl; intros H; [injection H as <-; eexists; reflexivity | discriminate H].
Qed.

(** The whole-report fallback stands or falls with the metrics, and has five
    sections. *)
Lemma fallback_report_cases (data : ReportGenerator.interview_data) :
  let metrics :=
    ReportGenerator._calculate_metrics
      (ReportGenerator.or_default _ (ReportGenerator.questions data) [])
      (ReportGenerator.or_default _ (ReportGenerator.answers data) [])
      (ReportGenerator.or_default _ (ReportGenerator.ratings data) [])
      (ReportGenerator.or_default _ (ReportGenerator.duration data) 0) in
  match metrics with
  | Ok m =>
      exists report,
        ReportGenerator._get_fallback_report E data = Ok report
        /\ sections report = fallback_sections
        /\ field "metrics" report = Some m
  | Raise e => ReportGenerator._get_fallback_report E data = Raise e
  end.
Proof.
  intros metrics. unfold ReportGenerator._get_fallback_report. fold metrics.
  destruct metrics as [m | e]; simpl; [| reflexivity].
  eexists. repeat split.
Qed.

(** A report is assembled in full, or is the whole-report fallback. *)
Lemma generate_report_cases (data : ReportGenerator.interview_data) :
  (exists report,
     ReportGenerator.generate_report E ai_service data = Ok report
     /\ sections report = primary_sections)
  \/ ReportGenerator.generate_report E ai_service data
     = ReportGenerator._get_fallback_report E data.
Proof.
  unfold ReportGenerator.generate_report.
  match goal with |- context [try_except ?body _] =>
    destruct body as [report | e] eqn:Hbody end; simpl; [| right; reflexivity].
  left. exists report. split; [reflexivity |].
  revert Hbody. cbv zeta.
  repeat match goal with
         | |- (_ <- ?r ;; _) = _ -> _ =>
             destruct r as [? | ?]; cbn [bind]; [| discriminate]
         end.
  intros H. injection H as <-. reflexivity.
Qed.

End Sections.

(** C1, where the code departs from it: for an interview with a rating and a
    duration above zero and below one minute, [generate_report] raises to its
    caller whatever the provider does.  The metrics raise during assembly, the
    handler turns to the whole-report fallback, and the fallback computes the
    same metrics outside any [try]. *)
Theorem generate_report_raises_below_a_minute (E : Env)
    (ai_service : AIService.t) (data : ReportGenerator.interview_data)
    (r : Q) (rs : list Q) (d : Z) :
  ReportGenerator.ratings data = Some (r :: rs) ->
  ReportGenerator.duration data = Some d ->
  0 < d < 60000 ->
  ReportGenerator.generate_report E ai_service data = Raise ZeroDivisionError.
Proof.
  intros Hr Hd Hrange.
  assert (Hm : ReportGenerator._calculate_metrics
                 (ReportGenerator.or_default _ (ReportGenerator.questions data) [])
                 (ReportGenerator.or_default _ (ReportGenerator.answers data) [])
                 (r :: rs) d = Raise ZeroDivisionError).
  { destruct (calculate_metrics_cases
                (ReportGenerator.or_default _ (ReportGenerator.questions data) [])
                (ReportGenerator.or_default _ (ReportGenerator.answers data) [])
                r rs d) as [[_ H] | [[H | H] _]]; [exact H | lia | lia]. }
  assert (Hfb : ReportGenerator._get_fallback_report E data
                = Raise ZeroDivisionError).
  { unfold ReportGenerator._get_fallback_report. rewrite Hr, Hd.
    change (ReportGenerator.or_default (list Q) (Some (r :: rs)) [])
      with (r :: rs).
    change (ReportGenerator.or_default Z (Some d) 0) with d.
    rewrite Hm. reflexivity. }
  unfold ReportGenerator.generate_report. rewrite Hfb.
  rewrite Hr, Hd. cbv zeta.
  set (questions := ReportGenerator.or_default _ (ReportGenerator.questions data) []) in *.
  set (answers := ReportGenerator.or_default _ (ReportGenerator.answers data) []) in *.
  set (candidate_info :=
         ReportGenerator.or_default _ (ReportGenerator.candidate_info data) []).
  change (ReportGenerator.or_default (list Q) (Some (r :: rs)) []) with (r :: rs).
  change (ReportGenerator.or_default Z (Some d) 0) with d.
  destruct (executive_summary_returns E ai_service questions answers (r :: rs) d)
    as [x1 ->].
  destruct (detailed_analysis_returns E ai_service questions answers (r :: rs))
    as [x2 ->].
  destruct (strengths_weaknesses_returns E ai_service questions answers (r :: rs))
    as [x3 ->].
  destruct (recommendations_returns E ai_service questions answers (r :: rs)
              candidate_info) as [x4 ->].
  destruct (next_steps_returns E ai_service (r :: rs) candidate_info) as [x5 ->].
  cbn [bind]. rewrite Hm. reflexivity.
Qed.

Lemma generate_report_raises_below_a_minute_witness :
  ReportGenerator.generate_report Fixtures.env_offline Fixtures.gemini_service
    (Fixtures.interview_of Fixtures.spoken_answer 30000)
  = Raise ZeroDivisionError.
Proof.
  apply (generate_report_raises_below_a_minute Fixtures.env_offline
           Fixtures.gemini_service
           (Fixtures.interview_of Fixtures.spoken_answer 30000) 7%Q [] 30000);
    [reflexivity | reflexivity | lia].
Defined.

(** What holds of C1: the other three operations never raise (above), and a
    report is returned whenever its metrics can be computed. *)
Lemma generate_report_returns_elsewhere (E : Env) (ai_service : AIService.t)
    (data : ReportGenerator.interview_data) :
  returns (ReportGenerator._calculate_metrics
             (ReportGenerator.or_default _ (ReportGenerator.questions data) [])
             (ReportGenerator.or_default _ (ReportGenerator.answers data) [])
             (ReportGenerator.or_default _ (ReportGenerator.ratings data) [])
             (ReportGenerator.or_default _ (ReportGenerator.duration data) 0)) ->
  returns (ReportGenerator.generate_report E ai_service data).
Proof.
  intros [m Hm].
  destruct (generate_report_cases E ai_service data)
    as [[report [-> _]] | ->]; [eexists; reflexivity |].
  pose proof (fallback_report_cases E data) as H. cbv zeta in H.
  rewrite Hm in H. destruct H as [report [-> _]]. eexists. reflexivity.
Qed.

(** C4, as the code has it: the whole-report fallback, whenever it returns, has
    the five sections report_metadata, executive_summary, overall_assessment,
    metrics and recommendations, all of them sections of a primary report; it
    has no detailed_analysis, strengths_weaknesses, next_steps or qa_analysis.
    A report that [generate_report] returns has the nine sections of the
    primary path or these five. *)
Theorem fallback_report_sections (E : Env) (ai_service : AIService.t)
    (data : ReportGenerator.interview_data) (report : value) :
  ReportGenerator._get_fallback_report E data = Ok report ->
  sections report = fallback_sections
  /\ incl (sections report) primary_sections
  /\ (forall k,
        In k ["detailed_analysis"; "strengths_weaknesses"; "next_steps";
              "qa_analysis"] ->
        field k report = None)
  /\ (forall full,
        ReportGenerator.generate_report E ai_service data = Ok full ->
        sections full = primary_sections \/ full = report).
Proof.
  intros Hfb.
  pose proof (fallback_report_cases E data) as H. cbv zeta in H.
  assert (Hsec : sections report = fallback_sections).
  { destruct (ReportGenerator._calculate_metrics _ _ _ _) as [m | e].
    - destruct H as [report' [H' [Hsec _]]]. congruence.
    - congruence. }
  split; [exact Hsec |].
  split.
  { rewrite Hsec. intros k Hk. simpl in Hk. simpl.
    repeat destruct Hk as [<- | Hk]; auto 10. }
  split.
  { intros k Hk.
    unfold ReportGenerator._get_fallback_report in Hfb.
    destruct (ReportGenerator._calculate_metrics _ _ _ _) as [m | e];
      simpl in Hfb; [| discriminate Hfb].
    injection Hfb as <-.
    simpl in Hk. repeat destruct Hk as [<- | Hk]; try reflexivity.
    contradiction. }
  intros full Hfull.
  destruct (generate_report_cases E ai_service data)
    as [[full' [Hfull' Hprimary]] | Hsame].
  - left. congruence.
  - right. congruence.
Qed.

Lemma fallback_report_sections_witness :
  exists report,
    ReportGenerator.generate_report Fixtures.env_offline Fixtures.gemini_service
      (Fixtures.interview_of Fixtures.keyless_answer 120000) = Ok report
    /\ sections report = fallback_sections.
Proof.
  eexists. split; [vm_compute; reflexivity |].
  refine (proj1 (fallback_report_sections Fixtures.env_offline
                   Fixtures.gemini_service
                   (Fixtures.interview_of Fixtures.keyless_answer 120000) _ _)).
  vm_compute. reflexivity.
Defined.

(** C4 as stated fails: an answer sent as a dict without an "answer" key makes
    the question-by-question analysis raise, and the report returned is the
    whole-report fallback, which lacks four of the nine sections. *)
Lemma whole_report_fallback_lacks_sections :
  let E := Fixtures.env_offline in
  let data := Fixtures.interview_of Fixtures.keyless_answer 120000 in
  exists report,
    ReportGenerator.generate_report E Fixtures.gemini_service data = Ok report
    /\ ReportGenerator._get_fallback_report E data = Ok report
    /\ sections report = fallback_sections
    /\ ~ incl primary_sections (sections report)
    /\ field "detailed_analysis" report = None
    /\ field "strengths_weaknesses" report = None
    /\ field "next_steps" report = None
    /\ field "qa_analysis" report = None.
Proof.
  eexists. split; [vm_compute; reflexivity |].
  split; [vm_compute; reflexivity |].
  split; [reflexivity |].
  split; [| repeat split].
  intros Hincl.
  assert (H : In "qa_analysis" fallback_sections).
  { apply Hincl. simpl. auto 10. }
  simpl in H.
  repeat destruct H as [H | H]; try discriminate H. exact H.
Qed.

(** The same interview with a spoken answer is assembled in full, every
    section from its own fallback while the vendor is unreachable. *)
Example primary_report_sections :
  exists report,
    ReportGenerator.generate_report Fixtures.env_offline Fixtures.gemini_service
      (Fixtures.interview_of Fixtures.spoken_answer 120000) = Ok report
    /\ sections report = primary_sections.
Proof.
  eexists. split; [vm_compute; reflexivity | reflexivity].
Qed.

(** * Further properties *)

(** ** Provider service *)

(** The two outcomes of [configure_provider]. *)
Lemma configure_provider_cases (self : AIService.t) (provider key : string)
    (model : option string) :
  (AIService.configure_provider self provider key model = (false, self)
   /\ (AIService.lookup provider AIService.providers = None
       \/ key = EmptyString))
  \/ (exists c,
        AIService.lookup provider AIService.providers = Some c
        /\ key <> EmptyString
        /\ AIService.configure_provider self provider key model
           = (true,
              {| AIService.current_provider := Some provider;
                 AIService.current_instance :=
                   Some {| cls := c; api_key := key;
                           model := if AIService.truthy_opt model
                                    then QuestionGenerator.or_default model
                                           EmptyString
                                    else catalog_default provider |} |})).
Proof.
  destruct key as [| k0 key'].
  { left. split; [apply configure_provider_empty_key | right; reflexivity]. }
  unfold AIService.configure_provider, catalog_default,
    AIService.next_provider_info, AIService.providers. simpl AIService.lookup.
  destruct (String.eqb_spec provider "gemini") as [-> | _].
  { right. exists GeminiProvider. split; [reflexivity |]. split; [discriminate |].
    destruct model as [[| m0 m] |]; reflexivity. }
  destruct (String.eqb_spec provider "openai") as [-> | _].
  { right. exists OpenAIProvider. split; [reflexivity |]. split; [discriminate |].
    destruct model as [[| m0 m] |]; reflexivity. }
  destruct (String.eqb_spec provider "anthropic") as [-> | _].
  { right. exists AnthropicProvider. split; [reflexivity |]. split; [discriminate |].
    destruct model as [[| m0 m] |]; reflexivity. }
  left. split; [reflexivity | left; reflexivity].
Qed.

Lemma catalog_default_nonempty (provider : string) (c : provider_class) :
  AIService.lookup provider AIService.providers = Some c ->
  catalog_default provider <> EmptyString.
Proof.
  unfold AIService.providers, catalog_default. simpl.
  destruct (String.eqb_spec provider "gemini") as [-> | _]; [discriminate |].
  destruct (String.eqb_spec provider "openai") as [-> | _]; [discriminate |].
  destruct (String.eqb_spec provider "anthropic") as [-> | _]; discriminate.
Qed.

Lemma configure_provider_keeps_well_configured (self : AIService.t)
    (provider key : string) (model : option string) :
  well_configured self ->
  well_configured (snd (AIService.configure_provider self provider key model)).
Proof.
  intros Hself.
  destruct (configure_provider_cases self provider key model)
    as [[-> _] | [c [Hc [Hkey ->]]]]; [exact Hself |].
  unfold well_configured. simpl.
  split; [exact Hc |]. split; [exact Hkey |].
  destruct model as [[| m0 m] |]; simpl;
    try (apply (catalog_default_nonempty _ _ Hc)); discriminate.
Qed.

(** X1: whatever sequence of [configure_provider] calls a fresh service
    receives, its active pair stays coherent: either both halves are absent
    and the reported provider is "none", or the name is one of the registry,
    the adapter is of that name's class and holds a non-empty key and model,
    and the reported provider is that name. *)
Theorem configure_all_well_configured
    (calls : list (string * string * option string)) :
  let self := configure_all AIService.unconfigured calls in
  well_configured self
  /\ (AIService.current_instance self = None
      /\ AIService.get_current_provider self = "none"
      \/ (exists i,
            AIService.current_instance self = Some i
            /\ In (AIService.get_current_provider self) known_providers
            /\ AIService.current_provider self
               = Some (AIService.get_current_provider self)
            /\ AIService.lookup (AIService.get_current_provider self)
                 AIService.providers = Some (cls i))).
Proof.
  intros self.
  assert (Hwc : well_configured self).
  { subst self. generalize AIService.unconfigured, (I : well_configured AIService.unconfigured).
    induction calls as [| [[p k] m] rest IH]; intros st Hst; simpl.
    - exact Hst.
    - apply IH. apply configure_provider_keeps_well_configured. exact Hst. }
  split; [exact Hwc |].
  unfold well_configured in Hwc. unfold AIService.get_current_provider.
  destruct (AIService.current_provider self) as [p |];
    destruct (AIService.current_instance self) as [i |]; try contradiction.
  - right. exists i. destruct Hwc as [Hp _].
    assert (Hknown : In p known_providers).
    { revert Hp. unfold AIService.providers. simpl.
      destruct (String.eqb_spec p "gemini") as [-> | _]; [auto |].
      destruct (String.eqb_spec p "openai") as [-> | _]; [auto |].
      destruct (String.eqb_spec p "anthropic") as [-> | _]; [auto | discriminate]. }
    assert (Htruthy : AIService.truthy p = true).
    { destruct Hknown as [<- | [<- | [<- | []]]]; reflexivity. }
    rewrite Htruthy. auto.
  - left. auto.
Qed.

(** X2: a successful [configure_provider] installs the model it was given
    when that is a non-empty string, and otherwise the default the catalog
    lists for the provider: gemini-2.5-flash, gpt-3.5-turbo or
    claude-3-sonnet-20240229. *)
Theorem configure_provider_resolves_model (self : AIService.t)
    (provider key : string) (requested : option string) :
  fst (AIService.configure_provider self provider key requested) = true ->
  exists i,
    AIService.current_instance
      (snd (AIService.configure_provider self provider key requested)) = Some i
    /\ api_key i = key
    /\ (forall m, requested = Some m -> m <> EmptyString -> model i = m)
    /\ (requested = None \/ requested = Some EmptyString ->
        (provider = "gemini" /\ model i = "gemini-2.5-flash")
        \/ (provider = "openai" /\ model i = "gpt-3.5-turbo")
        \/ (provider = "anthropic" /\ model i = "claude-3-sonnet-20240229")).
Proof.
  destruct (configure_provider_cases self provider key requested)
    as [[-> _] | [c [Hc [Hkey ->]]]]; [discriminate |].
  intros _. simpl. eexists. split; [reflexivity |]. split; [reflexivity |].
  split.
  - intros m -> Hm. simpl. destruct m; [contradiction | reflexivity].
  - intros Hreq.
    assert (Hfalse : AIService.truthy_opt requested = false)
      by (destruct Hreq as [-> | ->]; reflexivity).
    simpl. rewrite Hfalse.
    revert Hc. unfold AIService.providers. simpl.
    destruct (String.eqb_spec provider "gemini") as [-> | _];
      [intros _; left; split; reflexivity |].
    destruct (String.eqb_spec provider "openai") as [-> | _];
      [intros _; right; left; split; reflexivity |].
    destruct (String.eqb_spec provider "anthropic") as [-> | _];
      [intros _; right; right; split; reflexivity | discriminate].
Qed.

Lemma configure_provider_resolves_model_witness :
  exists i,
    AIService.current_instance
      (snd (AIService.configure_provider AIService.unconfigured "openai"
              "sk-test" (Some EmptyString))) = Some i
    /\ model i = "gpt-3.5-turbo".
Proof.
  destruct (configure_provider_resolves_model AIService.unconfigured "openai"
              "sk-test" (Some EmptyString) eq_refl)
    as [i [Hi [_ [_ Hdefault]]]].
  exists i. split; [exact Hi |].
  destruct (Hdefault (or_intror eq_refl)) as [[H _] | [[_ H] | [H _]]];
    [discriminate H | exact H | discriminate H].
Defined.

(** X3: [_load_default_config] leaves the service as it is when the
    environment variable is unset or empty, and otherwise activates the Gemini
    adapter with that key and the default Gemini model, whatever was active. *)
Theorem load_default_config_outcome (self : AIService.t)
    (gemini_key : option string) :
  (gemini_key = None \/ gemini_key = Some EmptyString ->
   AIService._load_default_config self gemini_key = self)
  /\ (forall k, gemini_key = Some k -> k <> EmptyString ->
      AIService._load_default_config self gemini_key
      = {| AIService.current_provider := Some "gemini";
           AIService.current_instance :=
             Some {| cls := GeminiProvider; api_key := k;
                     model := "gemini-2.5-flash" |} |}
      /\ AIService.get_current_provider
           (AIService._load_default_config self gemini_key) = "gemini").
Proof.
  split.
  - intros [-> | ->]; reflexivity.
  - intros k -> Hk. unfold AIService._load_default_config.
    destruct k as [| k0 k]; [contradiction |]. simpl. split; reflexivity.
Qed.

Lemma load_default_config_outcome_witness :
  AIService.get_current_provider
    (AIService._load_default_config AIService.unconfigured None) = "none"
  /\ AIService.get_current_provider
       (AIService._load_default_config AIService.unconfigured (Some "AIza-test"))
     = "gemini".
Proof.
  split.
  - rewrite (proj1 (load_default_config_outcome AIService.unconfigured None)
               (or_introl eq_refl)).
    reflexivity.
  - apply (proj2 (load_default_config_outcome AIService.unconfigured
                    (Some "AIza-test")) "AIza-test" eq_refl).
    discriminate.
Defined.

(** X4: while no provider is active, every generator answers with its
    fallback, whatever the environment: the question catalog cut to the count,
    the three fixed follow-ups, the fallback analysis and the fallback
    feedback. *)
Theorem unconfigured_service_degrades (E : Env) (self : AIService.t) :
  AIService.current_instance self = None ->
  (forall context question_type count previous_questions candidate_info,
     QuestionGenerator.generate_questions E self context question_type count
       previous_questions candidate_info
     = Ok (VList (QuestionGenerator._get_fallback_questions question_type count)))
  /\ (forall question answer qa_history,
        QuestionGenerator.generate_followup_questions E self question answer
          qa_history
        = Ok (VList QuestionGenerator._get_fallback_followup_questions))
  /\ (forall question answer context,
        AnswerAnalyzer.analyze_answer E self question answer context
        = Ok (AnswerAnalyzer._get_fallback_analysis question answer))
  /\ (forall feedback_prompt a,
        Feedback.generate_feedback E self feedback_prompt a
        = Ok (Feedback._get_fallback_feedback a)).
Proof.
  intros Hnone.
  assert (Hcall : forall prompt schema,
            AIService.generate_structured_response E self prompt schema
            = Raise NoProviderConfigured).
  { intros. unfold AIService.generate_structured_response.
    rewrite Hnone. reflexivity. }
  repeat split; intros.
  - unfold QuestionGenerator.generate_questions,
      QuestionGenerator._create_question_prompt.
    destruct (render_prompt E _) as [p | e]; simpl; [rewrite Hcall |]; reflexivity.
  - unfold QuestionGenerator.generate_followup_questions.
    destruct (render_prompt E _) as [p | e]; simpl; [rewrite Hcall |]; reflexivity.
  - unfold AnswerAnalyzer.analyze_answer, AnswerAnalyzer._create_analysis_prompt.
    destruct (render_prompt E _) as [p | e]; simpl; [rewrite Hcall |]; reflexivity.
  - unfold Feedback.generate_feedback, AIService.generate_text.
    rewrite Hnone. reflexivity.
Qed.

Lemma unconfigured_service_degrades_witness :
  QuestionGenerator.generate_questions
    (Fixtures.env_replying (Ok Fixtures.embedded_text)) AIService.unconfigured
    "" "behavioral" 1 None None
  = Ok (VList (QuestionGenerator._get_fallback_questions "behavioral" 1)).
Proof.
  apply (proj1 (unconfigured_service_degrades
                  (Fixtures.env_replying (Ok Fixtures.embedded_text))
                  AIService.unconfigured eq_refl)).
Defined.

(** ** Structured-response contract *)

(** X5: when the text the model returned is not JSON as a whole, the contract
    fails in two distinct ways.  It raises the error "could not parse" exactly
    when no opening brace of the text is followed by a closing one; when there
    is such a span and the span is not JSON either, the decoder's own error is
    what the caller sees. *)
Theorem structured_response_failures (E : Env) (i : instance)
    (prompt : string) (schema : value) (text : string) :
  provider_generate_text E i (AIService.structured_prompt E prompt schema)
  = Ok text ->
  json_loads E text = None ->
  let outcome :=
    AIService.provider_generate_structured_response E i prompt schema in
  (outcome = Raise StructuredResponseError <->
   ~ exists pre body post, text = pre ++ String "{" (body ++ String "}" post))
  /\ (forall span,
        AIService.brace_span text = Some span ->
        json_loads E span = None ->
        outcome = Raise JSONDecodeError)
  /\ (occurs "{" text = false \/ occurs "}" text = false ->
      outcome = Raise StructuredResponseError).
Proof.
  intros Htext Hloads outcome. subst outcome.
  unfold AIService.provider_generate_structured_response.
  rewrite Htext. simpl. unfold AIService.parse_structured. rewrite Hloads.
  assert (Hiff :
    match AIService.brace_span text with
    | Some json_match => AIService.loads E json_match
    | None => Raise StructuredResponseError
    end = Raise StructuredResponseError <->
    ~ exists pre body post, text = pre ++ String "{" (body ++ String "}" post)).
  { rewrite <- brace_span_none.
    destruct (AIService.brace_span text) as [span |]; [| tauto].
    unfold AIService.loads.
    destruct (json_loads E span); split; discriminate. }
  split; [exact Hiff |]. split.
  - intros span -> Hspan. unfold AIService.loads. rewrite Hspan. reflexivity.
  - intros Hocc. apply Hiff. intros [pre [body [post ->]]].
    destruct Hocc as [H | H].
    + rewrite occurs_middle in H. discriminate H.
    + rewrite occurs_app in H. simpl in H. rewrite occurs_middle in H.
      rewrite !Bool.orb_true_r in H. discriminate H.
Qed.

Lemma structured_response_failures_witness :
  AIService.generate_structured_response
    (Fixtures.env_replying (Ok "I cannot answer that."))
    Fixtures.gemini_service "Ask one question."
    QuestionGenerator.questions_schema
  = Raise StructuredResponseError
  /\ AIService.generate_structured_response
       (Fixtures.env_replying (Ok "{one} and {two}"))
       Fixtures.gemini_service "Ask one question."
       QuestionGenerator.questions_schema
     = Raise JSONDecodeError.
Proof.
  split.
  - apply (structured_response_failures
             (Fixtures.env_replying (Ok "I cannot answer that."))
             {| cls := GeminiProvider; api_key := "key";
                model := "gemini-2.5-flash" |}
             "Ask one question." QuestionGenerator.questions_schema
             "I cannot answer that." eq_refl eq_refl).
    left. reflexivity.
  - apply (proj1 (proj2 (structured_response_failures
             (Fixtures.env_replying (Ok "{one} and {two}"))
             {| cls := GeminiProvider; api_key := "key";
                model := "gemini-2.5-flash" |}
             "Ask one question." QuestionGenerator.questions_schema
             "{one} and {two}" eq_refl eq_refl)) "{one} and {two}");
      reflexivity.
Defined.

(** ** Question generator *)

Lemma catalog_cases (question_type : string) :
  QuestionGenerator.catalog question_type = QuestionGenerator.catalog "technical"
  \/ QuestionGenerator.catalog question_type
     = QuestionGenerator.catalog "behavioral"
  \/ QuestionGenerator.catalog question_type = QuestionGenerator.catalog "general".
Proof.
  assert (H : QuestionGenerator.catalog question_type
              = if String.eqb question_type "technical"
                then QuestionGenerator.catalog "technical"
                else if String.eqb question_type "behavioral"
                     then QuestionGenerator.catalog "behavioral"
                     else QuestionGenerator.catalog "general").
  { unfold QuestionGenerator.catalog, QuestionGenerator.fallback_questions.
    simpl.
    destruct (String.eqb question_type "technical"); [reflexivity |].
    destruct (String.eqb question_type "behavioral"); [reflexivity |].
    destruct (String.eqb question_type "general"); reflexivity. }
  rewrite H.
  destruct (String.eqb question_type "technical"); [auto |].
  destruct (String.eqb question_type "behavioral"); auto.
Qed.

(** X6: the number of fallback questions as a function of the count asked
    for: the smaller of the count and 2 for a count of zero or more, and for a
    negative count what the slice leaves of the two, so that a count of -1
    gives one question and any count below -1 none. *)
Theorem fallback_questions_length (question_type : string) (count : Z) :
  Z.of_nat (List.length
              (QuestionGenerator._get_fallback_questions question_type count))
  = if 0 <=? count then Z.min count 2 else Z.max 0 (2 + count).
Proof.
  unfold QuestionGenerator._get_fallback_questions, slice_to.
  rewrite catalog_length.
  destruct (Z.leb_spec 0 count); rewrite length_firstn, catalog_length; lia.
Qed.

(** X7: every question the fallback returns, for any type and count, has the
    fields the question schema requires of an item, a difficulty among the
    values the schema enumerates, and two follow-up suggestions. *)
Theorem fallback_questions_fit_schema (question_type : string) (count : Z)
    (q : value) :
  In q (QuestionGenerator._get_fallback_questions question_type count) ->
  let item := items_schema "questions" QuestionGenerator.questions_schema in
  required_of item = ["question"; "category"; "difficulty"; "purpose"]
  /\ has_fields (required_of item) q = true
  /\ (exists d, field "difficulty" q = Some (VStr d)
                /\ In d (enum_of "difficulty" item))
  /\ (exists s1 s2,
        field "follow_up_suggestions" q = Some (VList [VStr s1; VStr s2])).
Proof.
  intros Hin item.
  apply slice_to_incl in Hin.
  split; [reflexivity |].
  destruct (catalog_cases question_type) as [H | [H | H]]; rewrite H in Hin;
    destruct Hin as [<- | [<- | []]];
    (split; [reflexivity |]);
    (split; [eexists; split; [reflexivity | simpl; auto] |]);
    eexists _, _; reflexivity.
Qed.

Lemma fallback_questions_fit_schema_witness :
  has_fields ["question"; "category"; "difficulty"; "purpose"]
    (hd VNone (QuestionGenerator._get_fallback_questions "leadership" 1)) = true.
Proof.
  apply (fallback_questions_fit_schema "leadership" 1
           (hd VNone (QuestionGenerator._get_fallback_questions "leadership" 1))).
  simpl. left. reflexivity.
Defined.

(** X8: [generate_followup_questions] is decided by what the structured
    call on the follow-up prompt gives.  When that is an object, the answer is
    the value under "followup_questions" of that very object, and the empty
    list when the object has no such key; when the prompt or the call raises,
    or the call gives anything but an object, the answer is the three fixed
    follow-ups, each of which has the fields the follow-up schema requires. *)
Theorem followup_questions_outcome (E : Env) (ai_service : AIService.t)
    (question answer : string) (qa_history : option (list value)) :
  let history := QuestionGenerator.or_default qa_history [] in
  let response :=
    (prompt <- render_prompt E
                 (FollowupPrompt question answer (last_n 3 history)) ;;
     AIService.generate_structured_response E ai_service prompt
       QuestionGenerator.followup_schema) in
  let result :=
    QuestionGenerator.generate_followup_questions E ai_service question answer
      qa_history in
  result
  = match response with
    | Ok (VDict d) => Ok (get_default "followup_questions" (VList []) d)
    | _ => Ok (VList QuestionGenerator._get_fallback_followup_questions)
    end
  /\ (forall d v,
        response = Ok (VDict d) ->
        dict_get "followup_questions" d = Some v -> result = Ok v)
  /\ (forall d,
        response = Ok (VDict d) ->
        dict_get "followup_questions" d = None ->
        result = Ok (VList []))
  /\ List.length QuestionGenerator._get_fallback_followup_questions = 3%nat
  /\ Forall (fun q =>
               has_fields
                 (required_of (items_schema "followup_questions"
                                 QuestionGenerator.followup_schema)) q = true)
       QuestionGenerator._get_fallback_followup_questions.
Proof.
  intros history response result.
  assert (Hres : result
                 = match response with
                   | Ok (VDict d) =>
                       Ok (get_default "followup_questions" (VList []) d)
                   | _ =>
                       Ok (VList QuestionGenerator._get_fallback_followup_questions)
                   end).
  { subst result response history.
    unfold QuestionGenerator.generate_followup_questions.
    destruct (render_prompt E _) as [p | e]; simpl; [| reflexivity].
    destruct (AIService.generate_structured_response E ai_service p _)
      as [[| b | q | n | s | l | d] | e]; reflexivity. }
  split; [exact Hres |].
  split.
  { intros d v Hr Hl. rewrite Hres, Hr. unfold get_default.
    rewrite Hl. reflexivity. }
  split.
  { intros d Hr Hl. rewrite Hres, Hr. unfold get_default.
    rewrite Hl. reflexivity. }
  split; [reflexivity | repeat constructor].
Qed.

Lemma followup_questions_outcome_witness :
  QuestionGenerator.generate_followup_questions
    (Fixtures.env_replying (Ok Fixtures.spread_text)) Fixtures.gemini_service
    "Why?" "Because." None
  = Ok (VList []).
Proof.
  pose proof (followup_questions_outcome
                (Fixtures.env_replying (Ok Fixtures.spread_text))
                Fixtures.gemini_service "Why?" "Because." None) as H.
  cbv zeta in H. destruct H as [_ [_ [H _]]].
  apply (H [("questions", VList [])]); reflexivity.
Defined.

Lemma last_n_app {A : Type} (pre h : list A) :
  last_n (List.length h) (pre ++ h)%list = h.
Proof.
  unfold last_n. rewrite length_app.
  replace (List.length pre + List.length h - List.length h)%nat
    with (List.length pre) by lia.
  rewrite skipn_app, skipn_all, Nat.sub_diag. reflexivity.
Qed.

(** X9: only the last three entries of the history reach the follow-up
    prompt: a history and its last three entries give the same result. *)
Theorem followup_uses_last_three (E : Env) (ai_service : AIService.t)
    (question answer : string) (older recent : list value) :
  List.length recent = 3%nat ->
  QuestionGenerator.generate_followup_questions E ai_service question answer
    (Some (older ++ recent)%list)
  = QuestionGenerator.generate_followup_questions E ai_service question answer
      (Some recent).
Proof.
  intros Hlen. unfold QuestionGenerator.generate_followup_questions.
  simpl QuestionGenerator.or_default.
  rewrite <- Hlen at 1. rewrite last_n_app.
  replace (last_n 3 recent) with recent; [reflexivity |].
  rewrite <- Hlen. symmetry. apply (last_n_app []).
Qed.

Lemma followup_uses_last_three_witness :
  QuestionGenerator.generate_followup_questions Fixtures.env_offline
    Fixtures.gemini_service "Why?" "Because."
    (Some ([VStr "0"] ++ [VStr "1"; VStr "2"; VStr "3"])%list)
  = QuestionGenerator.generate_followup_questions Fixtures.env_offline
      Fixtures.gemini_service "Why?" "Because."
      (Some [VStr "1"; VStr "2"; VStr "3"]).
Proof.
  apply (followup_uses_last_three Fixtures.env_offline Fixtures.gemini_service
           "Why?" "Because." [VStr "0"] [VStr "1"; VStr "2"; VStr "3"]).
  reflexivity.
Defined.

(** X10: an interview type outside technical, behavioral, leadership, general
    and culture_fit is treated as general, for the instruction paragraph of the
    prompt and for the fallback catalog alike; the five types have five
    different paragraphs. *)
Theorem unknown_type_is_general (question_type : string) :
  ~ In question_type
      ["technical"; "behavioral"; "leadership"; "general"; "culture_fit"] ->
  QuestionGenerator.type_instruction question_type
  = QuestionGenerator.type_instruction "general"
  /\ (forall count,
        QuestionGenerator._get_fallback_questions question_type count
        = QuestionGenerator._get_fallback_questions "general" count)
  /\ NoDup (map QuestionGenerator.type_instruction
              ["technical"; "behavioral"; "leadership"; "general";
               "culture_fit"]).
Proof.
  intros Hnot.
  assert (Hne : forall k,
            In k ["technical"; "behavioral"; "leadership"; "general";
                  "culture_fit"] ->
            String.eqb question_type k = false).
  { intros k Hk. destruct (String.eqb_spec question_type k) as [-> | _];
      [contradiction | reflexivity]. }
  split; [| split].
  - unfold QuestionGenerator.type_instruction at 1,
      QuestionGenerator.type_instructions at 1.
    simpl AIService.lookup.
    rewrite !Hne by (simpl; auto 6). reflexivity.
  - intros count.
    unfold QuestionGenerator._get_fallback_questions. f_equal.
    unfold QuestionGenerator.catalog at 1,
      QuestionGenerator.fallback_questions at 1.
    simpl AIService.lookup.
    rewrite !Hne by (simpl; auto 6). reflexivity.
  - repeat constructor; simpl; intuition discriminate.
Qed.

Lemma unknown_type_is_general_witness :
  QuestionGenerator.type_instruction "system_design"
  = QuestionGenerator.type_instruction "general".
Proof.
  apply (unknown_type_is_general "system_design").
  simpl. intuition discriminate.
Defined.

(** ** Answer analyzer *)

(** X11: on both paths the analysis carries the metadata computed from the
    question and the answer themselves; a model that sends an
    "analysis_metadata" of its own has it overwritten. *)
Theorem analysis_metadata_is_local (E : Env) (ai_service : AIService.t)
    (question answer : string) (context : option (list (string * value))) :
  exists analysis metadata,
    AnswerAnalyzer.analyze_answer E ai_service question answer context
    = Ok analysis
    /\ field "analysis_metadata" analysis = Some (VDict metadata)
    /\ VDict metadata = AnswerAnalyzer.analysis_metadata question answer
    /\ dict_get "answer_length" metadata
       = Some (VInt (Z.of_nat (List.length (split answer))))
    /\ dict_keys metadata
       = ["answer_length"; "answer_duration_estimate"; "question_type";
          "answer_complexity"].
Proof.
  assert (Hfb : field "analysis_metadata"
                  (AnswerAnalyzer._get_fallback_analysis question answer)
                = Some (AnswerAnalyzer.analysis_metadata question answer)).
  { unfold AnswerAnalyzer._get_fallback_analysis.
    destruct (AnswerAnalyzer.length_bands _) as [[r c] cl]. reflexivity. }
  unfold AnswerAnalyzer.analyze_answer, AnswerAnalyzer._create_analysis_prompt.
  destruct (render_prompt E _) as [p | e]; simpl.
  - destruct (AIService.generate_structured_response E ai_service p _)
      as [[| b | q | n | s | l | d] | e]; simpl;
      eexists _, _; (split; [reflexivity |]);
      try (split; [exact Hfb | repeat split]).
    split; [apply dict_get_set_same | repeat split].
  - eexists _, _. split; [reflexivity |]. split; [exact Hfb | repeat split].
Qed.

Lemma sentiment_cases (r : Z) :
  In (AnswerAnalyzer.sentiment_of r) ["positive"; "neutral"; "negative"].
Proof.
  unfold AnswerAnalyzer.sentiment_of.
  destruct (7 <=? r); [simpl; auto |]. destruct (5 <=? r); simpl; auto.
Qed.

Lemma confidence_cases (r : Z) :
  In (AnswerAnalyzer.confidence_of r) ["high"; "medium"; "low"].
Proof.
  unfold AnswerAnalyzer.confidence_of.
  destruct (8 <=? r); [simpl; auto |]. destruct (6 <=? r); simpl; auto.
Qed.

(** X12: the fallback analysis has every property of the analysis schema and
    the metadata, so all the required ones; its sentiment and confidence are
    among the values the schema enumerates; its key points are the first ten
    words of the answer, fewer when the answer is shorter; it lists two
    strengths, two weaknesses and three suggestions. *)
Theorem fallback_analysis_fits_schema (question answer : string) :
  let fb := AnswerAnalyzer._get_fallback_analysis question answer in
  let schema := AnswerAnalyzer.analysis_schema in
  sections fb
  = ["overall_rating"; "detailed_scores"; "strengths"; "weaknesses";
     "suggestions"; "key_points"; "sentiment"; "confidence_level";
     "analysis_metadata"]
  /\ has_fields (required_of schema) fb = true
  /\ (exists s, field "sentiment" fb = Some (VStr s)
                /\ In s (enum_of "sentiment" schema))
  /\ (exists c, field "confidence_level" fb = Some (VStr c)
                /\ In c (enum_of "confidence_level" schema))
  /\ field "key_points" fb
     = Some (VList (map VStr (firstn 10 (split answer))))
  /\ Z.of_nat (List.length (firstn 10 (split answer)))
     = Z.min 10 (AnswerAnalyzer.word_count_of answer)
  /\ (exists s1 s2 w1 w2 g1 g2 g3,
        field "strengths" fb = Some (VList [VStr s1; VStr s2])
        /\ field "weaknesses" fb = Some (VList [VStr w1; VStr w2])
        /\ field "suggestions" fb = Some (VList [VStr g1; VStr g2; VStr g3])).
Proof.
  intros fb schema. subst fb.
  unfold AnswerAnalyzer._get_fallback_analysis.
  destruct (AnswerAnalyzer.length_bands (AnswerAnalyzer.word_count_of answer))
    as [[r c] cl].
  split; [reflexivity |]. split; [reflexivity |].
  split; [eexists; split; [reflexivity | apply sentiment_cases] |].
  split; [eexists; split; [reflexivity | apply confidence_cases] |].
  split; [reflexivity |].
  split.
  { rewrite length_firstn. unfold AnswerAnalyzer.word_count_of. lia. }
  eexists _, _, _, _, _, _, _. repeat split.
Qed.

Lemma split_aux_blank (s : string) : blank s = true -> split_aux s [] = [].
Proof.
  induction s as [| c s IH]; simpl; [reflexivity |].
  intros H. apply Bool.andb_true_iff in H. destruct H as [Hc Hs].
  rewrite Hc. apply IH. exact Hs.
Qed.

(** X13: an answer without a word, empty or made of whitespace, gets the
    lowest band from the fallback: rating 3, completeness 2, clarity 4,
    negative sentiment, low confidence, no key points, and "Attempted to
    answer" as its first strength. *)
Theorem fallback_analysis_of_blank_answer (question answer : string) :
  blank answer = true ->
  let fb := AnswerAnalyzer._get_fallback_analysis question answer in
  AnswerAnalyzer.word_count_of answer = 0
  /\ field "overall_rating" fb = Some (VInt 3)
  /\ (exists scores,
        field "detailed_scores" fb = Some (VDict scores)
        /\ dict_get "completeness" scores = Some (VInt 2)
        /\ dict_get "clarity" scores = Some (VInt 4))
  /\ field "sentiment" fb = Some (VStr "negative")
  /\ field "confidence_level" fb = Some (VStr "low")
  /\ field "key_points" fb = Some (VList [])
  /\ (exists s2, field "strengths" fb
                 = Some (VList [VStr "Attempted to answer"; VStr s2])).
Proof.
  intros Hblank fb. subst fb.
  assert (Hsplit : split answer = []) by (apply split_aux_blank; exact Hblank).
  assert (Hwc : AnswerAnalyzer.word_count_of answer = 0).
  { unfold AnswerAnalyzer.word_count_of. rewrite Hsplit. reflexivity. }
  split; [exact Hwc |].
  unfold AnswerAnalyzer._get_fallback_analysis. rewrite Hwc, Hsplit.
  simpl AnswerAnalyzer.length_bands. cbv iota beta.
  repeat split.
  - eexists. repeat split.
  - eexists. reflexivity.
Qed.

Lemma fallback_analysis_of_blank_answer_witness :
  field "overall_rating" (AnswerAnalyzer._get_fallback_analysis "Why?" "   ")
  = Some (VInt 3).
Proof.
  apply (fallback_analysis_of_blank_answer "Why?" "   ").
  reflexivity.
Defined.

Lemma lower_char_idempotent (c : ascii) : lower_char (lower_char c) = lower_char c.
Proof.
  destruct c as [[] [] [] [] [] [] [] []]; reflexivity.
Qed.

Lemma lower_idempotent (s : string) : lower (lower s) = lower s.
Proof.
  induction s as [| c s IH]; simpl; [reflexivity |].
  rewrite lower_char_idempotent, IH. reflexivity.
Qed.

(** X14: [_classify_question_type] gives one of five labels, ignores the case
    of ASCII letters, gives "behavioral" as soon as one of the behavioral
    keywords occurs, whatever else the question contains, and gives "general"
    exactly when none of its seventeen keywords occurs. *)
Theorem classify_question_type_labels (question : string) :
  let label := AnswerAnalyzer._classify_question_type question in
  In label ["behavioral"; "technical"; "motivational"; "self-assessment";
            "general"]
  /\ AnswerAnalyzer._classify_question_type (lower question) = label
  /\ (any_in ["tell me about"; "describe"; "explain"; "walk me through"]
        (lower question) = true ->
      label = "behavioral")
  /\ (label = "general" <-> any_in question_keywords (lower question) = false).
Proof.
  intros label. subst label.
  change question_keywords
    with (["tell me about"; "describe"; "explain"; "walk me through"]
          ++ ["how would you"; "what would you"; "design"; "implement"; "solve"]
          ++ ["why"; "motivation"; "interest"; "passion"]
          ++ ["strengths"; "weaknesses"; "skills"; "abilities"])%list.
  unfold AnswerAnalyzer._classify_question_type.
  rewrite lower_idempotent.
  unfold any_in. rewrite !existsb_app.
  set (f := fun w : string => contains w (lower question)).
  destruct (existsb f ["tell me about"; "describe"; "explain"; "walk me through"]);
    [simpl; intuition discriminate |].
  destruct (existsb f ["how would you"; "what would you"; "design"; "implement";
                       "solve"]);
    [simpl; intuition discriminate |].
  destruct (existsb f ["why"; "motivation"; "interest"; "passion"]);
    [simpl; intuition discriminate |].
  destruct (existsb f ["strengths"; "weaknesses"; "skills"; "abilities"]);
    simpl; intuition discriminate.
Qed.

Lemma classify_question_type_labels_witness :
  AnswerAnalyzer._classify_question_type
    "Describe how would you design a cache and why"
  = "behavioral".
Proof.
  apply (classify_question_type_labels
           "Describe how would you design a cache and why").
  reflexivity.
Defined.

(** X15: [_assess_answer_complexity] gives one of three labels; an answer of
    at most 50 words is "low" however long its sentences; "medium" needs more
    than 50 words, and "high" more than 100 words and at least three
    technical terms. *)
Theorem answer_complexity_thresholds (answer : string) :
  let label := AnswerAnalyzer._assess_answer_complexity answer in
  let word_count := AnswerAnalyzer.word_count_of answer in
  In label ["high"; "medium"; "low"]
  /\ (word_count <= 50 -> label = "low")
  /\ (label = "medium" -> 50 < word_count)
  /\ (label = "high" ->
      100 < word_count
      /\ (3 <= AnswerAnalyzer.count_technical false (lower answer))%nat).
Proof.
  intros label word_count. subst label word_count.
  unfold AnswerAnalyzer._assess_answer_complexity.
  set (wc := AnswerAnalyzer.word_count_of answer).
  set (avg := (inject_Z wc / _)%Q).
  set (terms := AnswerAnalyzer.count_technical false (lower answer)).
  destruct (Z.ltb_spec 100 wc) as [H100 | H100];
    destruct (Qltb (inject_Z 15) avg);
    destruct (Z.ltb_spec 2 (Z.of_nat terms)) as [Ht | Ht];
    destruct (Z.ltb_spec 50 wc) as [H50 | H50];
    destruct (Qltb (inject_Z 10) avg);
    simpl; repeat split; auto; intros; try discriminate; try lia.
Qed.

Lemma answer_complexity_thresholds_witness :
  AnswerAnalyzer._assess_answer_complexity
    "We moved the database behind an API. It was an architecture change."
  = "low".
Proof.
  apply (answer_complexity_thresholds
           "We moved the database behind an API. It was an architecture change.").
  vm_compute. discriminate.
Defined.

(** ** Feedback *)

Lemma append_empty_r (s : string) : s ++ EmptyString = s.
Proof.
  induction s as [| c s IH]; simpl; [reflexivity | now rewrite IH].
Qed.

Lemma mention_first_two (label : string) (items : list string) :
  Feedback.mention label (firstn 2 items) = Feedback.mention label items.
Proof.
  destruct items as [| x [| y [| z items]]]; reflexivity.
Qed.

(** X16: the fallback feedback opens with the sentence of the rating's band
    ("Excellent response!" from 8, "Good response" from 6, "Thank you for
    your response" below), always ends with the same encouragement, uses
    nothing of the analysis beyond the rating and the first two strengths and
    weaknesses, and says nothing in between when both lists are empty. *)
Theorem fallback_feedback_shape (a : Feedback.analysis) :
  let fb := Feedback._get_fallback_feedback a in
  let r := Feedback.overall_rating a in
  ((8 <= r)%Q -> prefix "Excellent response!" fb = true)
  /\ ((6 <= r)%Q -> (r < 8)%Q -> prefix "Good response" fb = true)
  /\ ((r < 6)%Q -> prefix "Thank you for your response" fb = true)
  /\ (exists body, fb = body ++ Feedback.closing)
  /\ (forall suggestions',
        Feedback._get_fallback_feedback
          {| Feedback.overall_rating := r;
             Feedback.strengths := firstn 2 (Feedback.strengths a);
             Feedback.weaknesses := firstn 2 (Feedback.weaknesses a);
             Feedback.suggestions := suggestions' |} = fb)
  /\ (Feedback.strengths a = [] -> Feedback.weaknesses a = [] ->
      fb = Feedback.opening r ++ Feedback.closing).
Proof.
  intros fb r. subst fb r.
  unfold Feedback._get_fallback_feedback.
  split; [| split; [| split; [| split; [| split]]]].
  - intros H. unfold Feedback.opening, Qgeb.
    apply Qle_bool_iff in H. rewrite H. reflexivity.
  - intros H6 H8. unfold Feedback.opening, Qgeb.
    apply Qle_bool_iff in H6. rewrite H6.
    destruct (Qle_bool 8 (Feedback.overall_rating a)) eqn:H; [| reflexivity].
    apply Qle_bool_iff in H. exfalso. apply (Qlt_not_le _ _ H8 H).
  - intros H. unfold Feedback.opening, Qgeb.
    destruct (Qle_bool 8 (Feedback.overall_rating a)) eqn:H8.
    { apply Qle_bool_iff in H8. exfalso. apply (Qlt_not_le _ _ H). lra. }
    destruct (Qle_bool 6 (Feedback.overall_rating a)) eqn:H6; [| reflexivity].
    apply Qle_bool_iff in H6. exfalso. apply (Qlt_not_le _ _ H H6).
  - eexists. reflexivity.
  - intros suggestions'.
    cbn [Feedback.overall_rating Feedback.strengths Feedback.weaknesses].
    rewrite !mention_first_two. reflexivity.
  - intros -> ->. unfold Feedback.mention.
    rewrite !append_empty_r. reflexivity.
Qed.

Lemma fallback_feedback_shape_witness :
  Feedback._get_fallback_feedback
    {| Feedback.overall_rating := 9; Feedback.strengths := [];
       Feedback.weaknesses := []; Feedback.suggestions := ["Practice"] |}
  = Feedback.opening 9 ++ Feedback.closing.
Proof.
  apply (fallback_feedback_shape
           {| Feedback.overall_rating := 9; Feedback.strengths := [];
              Feedback.weaknesses := []; Feedback.suggestions := ["Practice"] |});
    reflexivity.
Defined.

(** ** Metrics aggregator *)

(** The dict [_calculate_metrics] returns, entry by entry. *)
Lemma calculate_metrics_entries (questions answers : list value) (r : Q)
    (rs : list Q) (duration : Z) (m : value) :
  ReportGenerator._calculate_metrics questions answers (r :: rs) duration = Ok m ->
  field "max_rating" m = Some (VNum (ReportGenerator.max_of r rs))
  /\ field "min_rating" m = Some (VNum (ReportGenerator.min_of r rs))
  /\ field "total_questions" m = Some (VLen questions)
  /\ field "total_answers" m = Some (VLen answers)
  /\ field "response_rate" m
     = Some (VNum match questions with
                  | [] => 0
                  | _ => ReportGenerator.len answers / ReportGenerator.len questions
                  end)
  /\ field "excellent_responses" m
     = Some (VLen (filter (fun x => Qgeb x 8) (r :: rs)))
  /\ field "good_responses" m
     = Some (VLen (filter (fun x => (Qle_bool 6 x && Qltb x 8)%bool) (r :: rs)))
  /\ field "poor_responses" m
     = Some (VLen (filter (fun x => Qltb x 6) (r :: rs))).
Proof.
  unfold ReportGenerator._calculate_metrics.
  match goal with |- (_ <- ?q ;; _) = _ -> _ => destruct q as [x | e] end;
    simpl; intros H; [| discriminate H].
  injection H as <-. repeat split.
Qed.

Lemma buckets_partition (xs : list Q) :
  (List.length (filter (fun x => Qgeb x 8) xs)
   + List.length (filter (fun x => (Qle_bool 6 x && Qltb x 8)%bool) xs)
   + List.length (filter (fun x => Qltb x 6) xs)
   = List.length xs)%nat.
Proof.
  induction xs as [| x xs IH]; simpl; [reflexivity |].
  unfold Qgeb, Qltb in *.
  destruct (Qle_bool 8 x) eqn:H8; destruct (Qle_bool 6 x) eqn:H6; simpl;
    try lia.
  apply Qle_bool_iff in H8.
  assert (H : Qle_bool 6 x = true) by (apply Qle_bool_iff; lra).
  congruence.
Qed.

Lemma category_buckets (x : Q) :
  Qgeb x 8 = String.eqb (ReportGenerator._get_rating_category x) "Excellent"
  /\ (Qle_bool 6 x && Qltb x 8)%bool
     = String.eqb (ReportGenerator._get_rating_category x) "Good"
  /\ Qltb x 6
     = (String.eqb (ReportGenerator._get_rating_category x) "Average"
        || String.eqb (ReportGenerator._get_rating_category x) "Poor")%bool.
Proof.
  unfold ReportGenerator._get_rating_category, Qgeb, Qltb.
  destruct (Qle_bool 8 x) eqn:H8.
  - apply Qle_bool_iff in H8.
    assert (H6 : Qle_bool 6 x = true) by (apply Qle_bool_iff; lra).
    rewrite H6. repeat split.
  - destruct (Qle_bool 6 x) eqn:H6; [repeat split |].
    destruct (Qle_bool 4 x); repeat split.
Qed.

(** X17: the three response counts of the metrics split the ratings: they add
    up to the number of ratings.  The excellent and good counts are the
    ratings of category Excellent and Good; the poor count takes in both the
    category Average and the category Poor. *)
Theorem response_buckets_partition (questions answers : list value) (r : Q)
    (rs : list Q) (duration : Z) (m : value) :
  ReportGenerator._calculate_metrics questions answers (r :: rs) duration = Ok m ->
  let in_category c :=
    List.length
      (filter (fun x => existsb
                          (String.eqb (ReportGenerator._get_rating_category x)) c)
         (r :: rs)) in
  exists excellent good poor : nat,
    field "excellent_responses" m = Some (VInt (Z.of_nat excellent))
    /\ field "good_responses" m = Some (VInt (Z.of_nat good))
    /\ field "poor_responses" m = Some (VInt (Z.of_nat poor))
    /\ (excellent + good + poor = List.length (r :: rs))%nat
    /\ excellent = in_category ["Excellent"]
    /\ good = in_category ["Good"]
    /\ poor = in_category ["Average"; "Poor"].
Proof.
  intros Hm in_category.
  destruct (calculate_metrics_entries _ _ _ _ _ _ Hm)
    as [_ [_ [_ [_ [_ [He [Hg Hp]]]]]]].
  eexists _, _, _.
  split; [exact He |]. split; [exact Hg |]. split; [exact Hp |].
  split; [apply buckets_partition |].
  subst in_category.
  repeat split; f_equal; apply filter_ext; intros x;
    destruct (category_buckets x) as [H1 [H2 H3]]; simpl;
    rewrite ?Bool.orb_false_r; assumption.
Qed.

Lemma response_buckets_partition_witness :
  exists m excellent poor,
    ReportGenerator._calculate_metrics [] [] [9; 9; 9]%Q 0 = Ok m
    /\ field "excellent_responses" m = Some (VInt (Z.of_nat excellent))
    /\ field "poor_responses" m = Some (VInt (Z.of_nat poor))
    /\ excellent = 3%nat /\ poor = 0%nat.
Proof.
  destruct (response_buckets_partition [] [] 9%Q [9%Q; 9%Q] 0 _ eq_refl)
    as [e [g [p [He [_ [Hp [_ [-> [_ ->]]]]]]]]].
  eexists _, _, _. split; [reflexivity |].
  split; [exact He |]. split; [exact Hp |]. split; reflexivity.
Defined.

Lemma py_max_ge (a b : Q) : (a <= py_max a b /\ b <= py_max a b)%Q.
Proof.
  unfold py_max. destruct (Qltb a b) eqn:H.
  - apply Qltb_true in H. split; lra.
  - apply Qltb_false in H. split; lra.
Qed.

Lemma py_min_le (a b : Q) : (py_min a b <= a /\ py_min a b <= b)%Q.
Proof.
  destruct (py_min_cases a b) as [[H ->] | [H ->]]; split; lra.
Qed.

Lemma max_of_spec (x : Q) (xs : list Q) :
  In (ReportGenerator.max_of x xs) (x :: xs)
  /\ forall y, In y (x :: xs) -> (y <= ReportGenerator.max_of x xs)%Q.
Proof.
  unfold ReportGenerator.max_of. revert x.
  induction xs as [| z xs IH]; intros x; simpl.
  - split; [auto |]. intros y [<- | []]. lra.
  - destruct (IH (py_max x z)) as [Hin Hge]. split.
    + destruct Hin as [Hin | Hin]; [| auto].
      rewrite <- Hin. unfold py_max. destruct (Qltb x z); auto.
    + intros y Hy.
      assert (Hm : (py_max x z <= fold_left py_max xs (py_max x z))%Q)
        by (apply Hge; left; reflexivity).
      destruct (py_max_ge x z) as [Hx Hz].
      destruct Hy as [<- | [<- | Hy]]; [lra | lra |].
      apply Hge. right. exact Hy.
Qed.

Lemma min_of_spec (x : Q) (xs : list Q) :
  In (ReportGenerator.min_of x xs) (x :: xs)
  /\ forall y, In y (x :: xs) -> (ReportGenerator.min_of x xs <= y)%Q.
Proof.
  unfold ReportGenerator.min_of. revert x.
  induction xs as [| z xs IH]; intros x; simpl.
  - split; [auto |]. intros y [<- | []]. lra.
  - destruct (IH (py_min x z)) as [Hin Hle]. split.
    + destruct Hin as [Hin | Hin]; [| auto].
      rewrite <- Hin. unfold py_min. destruct (Qltb z x); auto.
    + intros y Hy.
      assert (Hm : (fold_left py_min xs (py_min x z) <= py_min x z)%Q)
        by (apply Hle; left; reflexivity).
      destruct (py_min_le x z) as [Hx Hz].
      destruct Hy as [<- | [<- | Hy]]; [lra | lra |].
      apply Hle. right. exact Hy.
Qed.

(** X18: [max_rating] and [min_rating] of the metrics are ratings of the
    interview, and every rating lies between them. *)
Theorem max_and_min_rating (questions answers : list value) (r : Q)
    (rs : list Q) (duration : Z) (m : value) :
  ReportGenerator._calculate_metrics questions answers (r :: rs) duration = Ok m ->
  exists hi lo : Q,
    field "max_rating" m = Some (VNum hi)
    /\ field "min_rating" m = Some (VNum lo)
    /\ In hi (r :: rs) /\ In lo (r :: rs)
    /\ forall y, In y (r :: rs) -> (lo <= y /\ y <= hi)%Q.
Proof.
  intros Hm.
  destruct (calculate_metrics_entries _ _ _ _ _ _ Hm) as [Hmax [Hmin _]].
  destruct (max_of_spec r rs) as [Hin_max Hle_max].
  destruct (min_of_spec r rs) as [Hin_min Hle_min].
  eexists _, _. split; [exact Hmax |]. split; [exact Hmin |].
  split; [exact Hin_max |]. split; [exact Hin_min |].
  intros y Hy. split; [apply Hle_min | apply Hle_max]; exact Hy.
Qed.

Lemma max_and_min_rating_witness :
  exists m hi lo,
    ReportGenerator._calculate_metrics [] [] [4; 9; 6]%Q 0 = Ok m
    /\ field "max_rating" m = Some (VNum hi)
    /\ field "min_rating" m = Some (VNum lo)
    /\ (lo <= 6 /\ 6 <= hi)%Q.
Proof.
  destruct (max_and_min_rating [] [] 4%Q [9%Q; 6%Q] 0 _ eq_refl)
    as [hi [lo [Hhi [Hlo [_ [_ Hall]]]]]].
  eexists _, hi, lo. split; [reflexivity |].
  split; [exact Hhi |]. split; [exact Hlo |].
  apply Hall. simpl. auto.
Defined.

(** X19: [response_rate] is 0 for an interview without questions and the
    number of answers over the number of questions otherwise; nothing keeps it
    below 1, it exceeds 1 exactly when there are more answers than questions. *)
Theorem response_rate_value (questions answers : list value) (r : Q)
    (rs : list Q) (duration : Z) (m : value) :
  ReportGenerator._calculate_metrics questions answers (r :: rs) duration = Ok m ->
  exists rate : Q,
    field "response_rate" m = Some (VNum rate)
    /\ (questions = [] -> rate = 0%Q)
    /\ (questions <> [] ->
        (rate == inject_Z (Z.of_nat (List.length answers))
                 / inject_Z (Z.of_nat (List.length questions)))%Q
        /\ ((1 < rate)%Q <->
            (List.length questions < List.length answers)%nat)).
Proof.
  intros Hm.
  destruct (calculate_metrics_entries _ _ _ _ _ _ Hm)
    as [_ [_ [_ [_ [Hrate _]]]]].
  eexists. split; [exact Hrate |].
  destruct questions as [| q qs]; split; try congruence; try reflexivity.
  intros _. split; [reflexivity |].
  unfold ReportGenerator.len.
  set (a := Z.of_nat (List.length answers)).
  set (n := Z.of_nat (List.length (q :: qs))).
  assert (Hn : 0 < n) by (subst n; simpl List.length; lia).
  assert (Hnq : (0 < inject_Z n)%Q)
    by (change 0%Q with (inject_Z 0); rewrite <- Zlt_Qlt; exact Hn).
  assert (Hmul : (inject_Z n * (inject_Z a / inject_Z n) == inject_Z a)%Q).
  { apply Qmult_div_r. intros H0. rewrite H0 in Hnq. apply (Qlt_irrefl _ Hnq). }
  assert (Hiff : (1 < inject_Z a / inject_Z n)%Q <-> n < a).
  { rewrite Zlt_Qlt. rewrite <- Hmul at 2.
    rewrite <- (Qmult_lt_l 1 (inject_Z a / inject_Z n) (inject_Z n) Hnq).
    rewrite Qmult_1_r. tauto. }
  rewrite Hiff. subst a n. lia.
Qed.

Lemma response_rate_value_witness :
  exists m rate,
    ReportGenerator._calculate_metrics [VStr "Why this role?"]
      [VStr "For the work"; VStr "And the team"] [7%Q] 0 = Ok m
    /\ field "response_rate" m = Some (VNum rate)
    /\ (1 < rate)%Q.
Proof.
  destruct (response_rate_value [VStr "Why this role?"]
              [VStr "For the work"; VStr "And the team"] 7%Q [] 0 _ eq_refl)
    as [rate [Hrate [_ Hsome]]].
  eexists _, rate. split; [reflexivity |]. split; [exact Hrate |].
  apply Hsome; [discriminate | simpl; lia].
Defined.

(** ** Report assembler *)

(** X20: the key insights of an answer are at most three of the four tags, in
    the order experience, challenges, teamwork, learning; each of the first
    three is present exactly when its keyword occurs in the answer, in any
    case of letters, and the learning tag exactly when "learn" occurs and one
    of the other three keywords does not.  An answer that is not a string
    raises. *)
Theorem key_insights_tags (answer : string) :
  let low := lower answer in
  exists tags,
    ReportGenerator._extract_key_insights (VStr answer) = Ok tags
    /\ (List.length tags <= 3)%nat
    /\ (In "Mentioned relevant experience" tags <->
        contains "experience" low = true)
    /\ (In "Discussed challenges" tags <-> contains "challenge" low = true)
    /\ (In "Referenced teamwork" tags <-> contains "team" low = true)
    /\ (In "Showed learning mindset" tags <->
        contains "learn" low = true
        /\ (contains "experience" low && contains "challenge" low
            && contains "team" low)%bool = false)
    /\ (forall v, (forall s, v <> VStr s) ->
                  ReportGenerator._extract_key_insights v = Raise AttributeError).
Proof.
  intros low. subst low. unfold ReportGenerator._extract_key_insights.
  eexists. split; [reflexivity |].
  destruct (contains "experience" (lower answer));
    destruct (contains "challenge" (lower answer));
    destruct (contains "team" (lower answer));
    destruct (contains "learn" (lower answer)); simpl;
    (split; [lia |]);
    (repeat split; try solve [intuition discriminate | intuition congruence]);
    intros v Hv; destruct v; try reflexivity; exfalso; eapply Hv; reflexivity.
Qed.

Lemma qa_entries_spec (questions answers : list value) (ratings : list Q) :
  forall i : Z,
  let n := Nat.min (Nat.min (List.length questions) (List.length answers))
             (List.length ratings) in
  if forallb spoken (firstn n answers)
  then exists entries,
         ReportGenerator.qa_entries i questions answers ratings = Ok entries
         /\ List.length entries = n
         /\ map (field "question_number") entries
            = map (fun k => Some (VInt (i + Z.of_nat k))) (seq 1 n)
         /\ map (field "rating") entries
            = map (fun r => Some (VNum r)) (firstn n ratings)
         /\ map (field "rating_category") entries
            = map (fun r => Some (VStr (ReportGenerator._get_rating_category r)))
                (firstn n ratings)
  else ReportGenerator.qa_entries i questions answers ratings
       = Raise AttributeError.
Proof.
  revert answers ratings.
  induction questions as [| q qs IH]; intros answers ratings i; simpl.
  { exists []. repeat split. }
  destruct answers as [| a ans]; simpl; [exists []; repeat split |].
  destruct ratings as [| r rs]; simpl.
  { exists []. repeat split. }
  unfold spoken at 1, ReportGenerator._extract_key_insights.
  destruct (ReportGenerator.text_of "answer" a) eqn:Htext; simpl;
    try reflexivity.
  specialize (IH ans rs (i + 1)). cbv zeta in IH.
  destruct (forallb spoken _).
  - destruct IH as [entries [-> [Hlen [Hnum [Hrat Hcat]]]]]. simpl.
    eexists. split; [reflexivity |]. simpl.
    split; [now rewrite Hlen |].
    split; [| split; [now rewrite Hrat | now rewrite Hcat]].
    f_equal.
    rewrite Hnum, <- (seq_shift _ 1), map_map.
    apply map_ext. intros k. do 2 f_equal. lia.
  - rewrite IH. reflexivity.
Qed.

(** X21: the question-by-question analysis stops at the shortest of the
    three sequences.  When the text of each of these answers is a string it
    has one entry per triple, numbered from 1, carrying the rating and its
    category; as soon as one of them is not, it raises. *)
Theorem qa_analysis_alignment (questions answers : list value)
    (ratings : list Q) :
  let n := Nat.min (Nat.min (List.length questions) (List.length answers))
             (List.length ratings) in
  (forallb spoken (firstn n answers) = true ->
   exists entries,
     ReportGenerator._generate_qa_analysis questions answers ratings
     = Ok (VList entries)
     /\ List.length entries = n
     /\ map (field "question_number") entries
        = map (fun k => Some (VInt (Z.of_nat k))) (seq 1 n)
     /\ map (field "rating") entries
        = map (fun r => Some (VNum r)) (firstn n ratings)
     /\ map (field "rating_category") entries
        = map (fun r => Some (VStr (ReportGenerator._get_rating_category r)))
            (firstn n ratings))
  /\ (forallb spoken (firstn n answers) = false ->
      ReportGenerator._generate_qa_analysis questions answers ratings
      = Raise AttributeError).
Proof.
  intros n. unfold ReportGenerator._generate_qa_analysis.
  pose proof (qa_entries_spec questions answers ratings 0) as H.
  cbv zeta in H. fold n in H.
  destruct (forallb spoken (firstn n answers)); split; intros Hb;
    try discriminate Hb.
  - destruct H as [entries [-> H]]. exists entries. split; [reflexivity | exact H].
  - rewrite H. reflexivity.
Qed.

Lemma qa_analysis_alignment_witness :
  exists entries,
    ReportGenerator._generate_qa_analysis
      [VStr "Why this role?"; VStr "Why now?"]
      [VStr "I like hard problems"] [7; 8; 9]%Q = Ok (VList entries)
    /\ List.length entries = 1%nat.
Proof.
  destruct (proj1 (qa_analysis_alignment
                     [VStr "Why this role?"; VStr "Why now?"]
                     [VStr "I like hard problems"] [7; 8; 9]%Q) eq_refl)
    as [entries [H [Hlen _]]].
  exists entries. split; [exact H | exact Hlen].
Defined.

(** The course of [generate_report]: the metrics decide whether anything is
    returned, the question-by-question analysis decides which report. *)
Lemma generate_report_course (E : Env) (ai_service : AIService.t)
    (data : ReportGenerator.interview_data) :
  let questions :=
    ReportGenerator.or_default _ (ReportGenerator.questions data) [] in
  let answers := ReportGenerator.or_default _ (ReportGenerator.answers data) [] in
  let ratings := ReportGenerator.or_default _ (ReportGenerator.ratings data) [] in
  let duration := ReportGenerator.or_default _ (ReportGenerator.duration data) 0 in
  let candidate_info :=
    ReportGenerator.or_default _ (ReportGenerator.candidate_info data) [] in
  match ReportGenerator._calculate_metrics questions answers ratings duration with
  | Raise e => ReportGenerator.generate_report E ai_service data = Raise e
  | Ok m =>
      match ReportGenerator._generate_qa_analysis questions answers ratings with
      | Ok qa =>
          exists report es da sw rec ns oa,
            ReportGenerator.generate_report E ai_service data = Ok report
            /\ sections report = primary_sections
            /\ ReportGenerator._generate_executive_summary E ai_service
                 questions answers ratings duration = Ok es
            /\ ReportGenerator._generate_detailed_analysis E ai_service
                 questions answers ratings = Ok da
            /\ ReportGenerator._generate_strengths_weaknesses E ai_service
                 questions answers ratings = Ok sw
            /\ ReportGenerator._generate_recommendations E ai_service
                 questions answers ratings candidate_info = Ok rec
            /\ ReportGenerator._generate_next_steps E ai_service ratings
                 candidate_info = Ok ns
            /\ ReportGenerator._generate_overall_assessment E ai_service m da
               = Ok oa
            /\ field "executive_summary" report = Some es
            /\ field "overall_assessment" report = Some oa
            /\ field "metrics" report = Some m
            /\ field "detailed_analysis" report = Some da
            /\ field "strengths_weaknesses" report = Some sw
            /\ field "recommendations" report = Some rec
            /\ field "next_steps" report = Some ns
            /\ field "qa_analysis" report = Some qa
      | Raise _ =>
          exists report,
            ReportGenerator.generate_report E ai_service data = Ok report
            /\ ReportGenerator._get_fallback_report E data = Ok report
            /\ sections report = fallback_sections
            /\ field "metrics" report = Some m
      end
  end.
Proof.
  intros questions answers ratings duration candidate_info.
  pose proof (fallback_report_cases E data) as Hfb. cbv zeta in Hfb.
  fold questions answers ratings duration in Hfb.
  unfold ReportGenerator.generate_report. cbv zeta.
  fold questions answers ratings duration candidate_info.
  destruct (executive_summary_returns E ai_service questions answers ratings
              duration) as [es Hes].
  destruct (detailed_analysis_returns E ai_service questions answers ratings)
    as [da Hda].
  destruct (strengths_weaknesses_returns E ai_service questions answers ratings)
    as [sw Hsw].
  destruct (recommendations_returns E ai_service questions answers ratings
              candidate_info) as [rec Hrec].
  destruct (next_steps_returns E ai_service ratings candidate_info) as [ns Hns].
  rewrite Hes, Hda, Hsw, Hrec, Hns. cbn [bind].
  destruct (ReportGenerator._calculate_metrics questions answers ratings duration)
    as [m | e] eqn:Hm; cbn [bind try_except]; [| exact Hfb].
  destruct (calculate_metrics_is_dict _ _ _ _ _ Hm) as [d ->].
  destruct (overall_assessment_returns E ai_service d da) as [oa Hoa].
  rewrite Hoa. cbn [bind].
  destruct (ReportGenerator._generate_qa_analysis questions answers ratings)
    as [qa | e]; cbn [bind try_except].
  - eexists _, es, da, sw, rec, ns, oa. repeat split; assumption.
  - destruct Hfb as [report [Hreport [Hsec Hmet]]].
    exists report. auto.
Qed.

(** On a bundle that is read off an object, the ratings are what the object
    has under "ratings". *)
Lemma interview_of_ratings (raw : list (string * value))
    (data : ReportGenerator.interview_data) :
  Dynamic.interview_of raw = Some data ->
  Dynamic.optional Dynamic.as_numbers "ratings" raw
  = Some (ReportGenerator.ratings data).
Proof.
  unfold Dynamic.interview_of. intros H.
  destruct (Dynamic.optional Dynamic.as_list "questions" raw);
    [| discriminate H].
  destruct (Dynamic.optional Dynamic.as_list "answers" raw);
    [| discriminate H].
  destruct (Dynamic.optional Dynamic.as_numbers "ratings" raw);
    [| discriminate H].
  destruct (Dynamic.optional Dynamic.as_int "duration" raw);
    [| discriminate H].
  destruct (Dynamic.optional Dynamic.as_dict "candidate_info" raw);
    [| discriminate H].
  injection H as <-. reflexivity.
Qed.



(** X23: an object without ratings (no "ratings" key, or an empty list under
    it) whose other keys carry values of the expected types always gets the
    full report: the metrics are the marker "No ratings available" whatever
    the duration, the question-by-question analysis is empty, and the overall
    assessment, when the model does not supply it, scores 5. *)
Theorem report_without_ratings (E : Env) (ai_service : AIService.t)
    (report_untyped : list (string * value) -> result value)
    (raw : list (string * value)) (data : ReportGenerator.interview_data) :
  Dynamic.interview_of raw = Some data ->
  dict_get "ratings" raw = None \/ dict_get "ratings" raw = Some (VList []) ->
  exists report oa,
    Dynamic.generate_report E ai_service report_untyped (VDict raw) = Ok report
    /\ sections report = primary_sections
    /\ field "metrics" report
       = Some (VDict [("error", VStr "No ratings available")])
    /\ field "qa_analysis" report = Some (VList [])
    /\ field "overall_assessment" report = Some oa
    /\ (AIService.current_instance ai_service = None ->
        field "overall_score" oa = Some (VInt 5)).
Proof.
  intros Hview Hr.
  unfold Dynamic.generate_report. rewrite Hview.
  pose proof (generate_report_course E ai_service data) as H. cbv zeta in H.
  assert (Hratings : ReportGenerator.or_default _ (ReportGenerator.ratings data) []
                     = []).
  { pose proof (interview_of_ratings raw data Hview) as Hrt.
    unfold Dynamic.optional in Hrt.
    destruct Hr as [Hr | Hr]; rewrite Hr in Hrt; simpl in Hrt;
      injection Hrt as <-; reflexivity. }
  rewrite Hratings in H. simpl ReportGenerator._calculate_metrics in H.
  assert (Hqa : forall qs ans,
            ReportGenerator._generate_qa_analysis qs ans [] = Ok (VList [])).
  { intros [| q qs] [| a ans]; reflexivity. }
  rewrite Hqa in H.
  destruct H as [report [es [da [sw [rec [ns [oa H]]]]]]].
  destruct H as [Hrep [Hsec [_ [_ [_ [_ [_ [Hoa [_ [Hfoa [Hm [_ [_ [_ [_ Hq]]]]]]]]]]]]]]].
  exists report, oa. repeat split; auto.
  intros Hnone.
  unfold ReportGenerator._generate_overall_assessment, ReportGenerator.ask in Hoa.
  destruct (render_prompt E _) as [p | e]; simpl in Hoa.
  - unfold AIService.generate_structured_response in Hoa. rewrite Hnone in Hoa.
    simpl in Hoa. injection Hoa as <-. reflexivity.
  - injection Hoa as <-. reflexivity.
Qed.

Lemma report_without_ratings_witness :
  exists report,
    Dynamic.generate_report Fixtures.env_offline AIService.unconfigured
      (fun _ => Raise TypeError)
      (VDict [("questions", VList [VStr "Why this role?"]);
              ("duration", VInt 30000)])
    = Ok report
    /\ field "qa_analysis" report = Some (VList []).
Proof.
  destruct (report_without_ratings Fixtures.env_offline AIService.unconfigured
              (fun _ => Raise TypeError)
              [("questions", VList [VStr "Why this role?"]);
               ("duration", VInt 30000)]
              _ eq_refl (or_introl eq_refl))
    as [report [oa [Hrep [_ [_ [Hqa _]]]]]].
  exists report. split; [exact Hrep | exact Hqa].
Defined.



(** X25: each fallback of a report section has the fields the schema of that
    section requires of the model, and each fallback next step has the four
    fields of a step with a priority the schema enumerates. *)
Theorem section_fallbacks_fit_schemas (E : Env) (ratings : list Q)
    (avg_rating : Q) (metrics : list (string * value)) :
  has_fields (required_of ReportGenerator.executive_summary_schema)
    (ReportGenerator._get_fallback_executive_summary E ratings) = true
  /\ has_fields (required_of ReportGenerator.detailed_analysis_schema)
       ReportGenerator._get_fallback_detailed_analysis = true
  /\ has_fields (required_of ReportGenerator.strengths_weaknesses_schema)
       ReportGenerator._get_fallback_strengths_weaknesses = true
  /\ has_fields (required_of ReportGenerator.recommendations_schema)
       (ReportGenerator._get_fallback_recommendations E avg_rating) = true
  /\ (exists oa,
        ReportGenerator._get_fallback_overall_assessment (VDict metrics) = Ok oa
        /\ has_fields (required_of ReportGenerator.overall_assessment_schema) oa
           = true)
  /\ (exists steps,
        ReportGenerator._get_fallback_next_steps avg_rating = VList steps
        /\ Forall
             (fun step =>
                has_fields ["step"; "timeline"; "priority"; "description"] step
                = true
                /\ exists p,
                     field "priority" step = Some (VStr p)
                     /\ In p (enum_of "priority"
                                (items_schema "next_steps"
                                   ReportGenerator.next_steps_schema)))
             steps)
  /\ required_of ReportGenerator.executive_summary_schema
     = ["summary"; "key_highlights"; "concerns"; "recommendation"]
  /\ required_of ReportGenerator.detailed_analysis_schema
     = ["communication_analysis"; "technical_analysis"; "experience_analysis"]
  /\ required_of ReportGenerator.overall_assessment_schema
     = ["overall_score"; "performance_level"; "key_takeaways"].
Proof.
  split; [reflexivity |]. split; [reflexivity |]. split; [reflexivity |].
  split; [reflexivity |].
  split; [eexists; split; reflexivity |].
  split; [| repeat split].
  eexists. split; [reflexivity |].
  repeat constructor; eexists; (split; [reflexivity | simpl; auto]).
Qed.

(** X26: the fallback recommendation is Hire for an average of 7 or more,
    Consider from 5 to below 7, and No Hire below 5.  Consider is not a value
    of the recommendation enum the schema gives the model, so the fallback is
    inside the enum exactly outside that middle band. *)
Theorem fallback_recommendation_bands (E : Env) (avg_rating : Q) :
  exists rec,
    field "recommendation"
      (ReportGenerator._get_fallback_recommendations E avg_rating)
    = Some (VStr rec)
    /\ (rec = "Hire" <-> (7 <= avg_rating)%Q)
    /\ (rec = "Consider" <-> (5 <= avg_rating /\ avg_rating < 7)%Q)
    /\ (rec = "No Hire" <-> (avg_rating < 5)%Q)
    /\ (In rec (enum_of "recommendation" ReportGenerator.recommendations_schema)
        <-> ~ (5 <= avg_rating /\ avg_rating < 7)%Q).
Proof.
  unfold ReportGenerator._get_fallback_recommendations, Qgeb.
  eexists. split; [reflexivity |].
  destruct (Qle_bool 7 avg_rating) eqn:H7.
  - apply Qle_bool_iff in H7.
    repeat split; intros; try discriminate; try lra; simpl; auto.
  - assert (H7' : (avg_rating < 7)%Q).
    { apply Qnot_le_lt. intros H. apply Qle_bool_iff in H. congruence. }
    destruct (Qle_bool 5 avg_rating) eqn:H5.
    + apply Qle_bool_iff in H5.
      repeat split; intros; try discriminate; try lra; try tauto;
        try (simpl in *; intuition discriminate).
    + assert (H5' : (avg_rating < 5)%Q).
      { apply Qnot_le_lt. intros H. apply Qle_bool_iff in H. congruence. }
      repeat split; intros; try discriminate; try lra; simpl; auto.
Qed.

(** ** Routes *)

Lemma known_provider_lookup (provider : string) :
  In provider known_providers <->
  exists c, AIService.lookup provider AIService.providers = Some c.
Proof.
  split.
  - intros H. apply known_provider_cases in H.
    destruct H as [-> | [-> | ->]]; eexists; reflexivity.
  - intros [c Hc].
    destruct (in_dec string_dec provider known_providers) as [Hin | Hout];
      [exact Hin |].
    rewrite (lookup_unknown_provider _ Hout) in Hc. discriminate Hc.
Qed.

(** X27: the configure route answers 500 exactly when the body is not an
    object, 200 exactly when it is one whose provider (gemini when absent) is
    in the registry and whose key is present and not empty, and 400 otherwise.
    Only a 200 changes the service; the health route afterwards reports the
    provider just configured after a 200 and the previous one after a 400 or
    a 500. *)
Theorem configure_ai_status (E : Env) (str : exception -> string)
    (ai_service : AIService.t)
    (get_json : result (option App.configure_request)) :
  let resp := fst (App.configure_ai str ai_service get_json) in
  let after := snd (App.configure_ai str ai_service get_json) in
  let accepted d :=
    In (App.or_default _ (App.cr_provider d) "gemini") known_providers
    /\ App.or_default _ (App.cr_api_key d) EmptyString <> EmptyString in
  In (App.status resp) [200; 400; 500]
  /\ (App.status resp = 500 <-> ~ exists d, get_json = Ok (Some d))
  /\ (App.status resp = 200 <-> exists d, get_json = Ok (Some d) /\ accepted d)
  /\ dict_get "success" (App.body resp)
     = Some (VBool (App.status resp =? 200))
  /\ (App.status resp <> 200 -> after = ai_service)
  /\ (forall d, get_json = Ok (Some d) -> accepted d ->
      dict_get "provider" (App.body resp)
      = Some (VStr (App.or_default _ (App.cr_provider d) "gemini"))
      /\ dict_get "ai_provider" (App.body (App.health_check E after))
         = Some (VStr (App.or_default _ (App.cr_provider d) "gemini"))).
Proof.
  intros resp after accepted. subst resp after.
  unfold App.configure_ai, App.object_of.
  destruct get_json as [[d |] | e]; cbn [bind].
  2, 3: (simpl; split; [auto |];
         split; [split; [intros _ [d H]; discriminate H | reflexivity] |];
         split; [split; [discriminate | intros [d [H _]]; discriminate H] |];
         split; [reflexivity |]; split; [reflexivity |];
         intros d H; discriminate H).
  set (provider := App.or_default _ (App.cr_provider d) "gemini") in *.
  set (key := App.or_default _ (App.cr_api_key d) EmptyString) in *.
  set (requested := App.or_default _ (App.cr_model d) EmptyString) in *.
  assert (Hacc : accepted d <-> In provider known_providers /\ key <> EmptyString)
    by (subst accepted; reflexivity).
  destruct (configure_provider_cases ai_service provider key (Some requested))
    as [[-> Hwhy] | [c [Hc [Hkey ->]]]]; simpl.
  - assert (Hno : ~ accepted d).
    { rewrite Hacc. intros [Hin Hk]. destruct Hwhy as [Hl | Hk']; [| contradiction].
      apply known_provider_lookup in Hin. destruct Hin as [c Hc]. congruence. }
    split; [auto |].
    split; [split; [discriminate | intros H; exfalso; apply H; eexists; reflexivity] |].
    split; [split; [discriminate | intros [d' [H Hd']]; injection H as <-; contradiction] |].
    split; [reflexivity |]. split; [reflexivity |].
    intros d' H Hd'. injection H as <-. contradiction.
  - assert (Hin : In provider known_providers)
      by (apply known_provider_lookup; eexists; exact Hc).
    split; [auto |].
    split; [split; [discriminate | intros H; exfalso; apply H; eexists; reflexivity] |].
    split; [split; [intros _; exists d; split; [reflexivity | apply Hacc; auto]
                   | reflexivity] |].
    split; [reflexivity |]. split; [congruence |].
    assert (Htruthy : AIService.truthy provider = true).
    { apply known_provider_cases in Hin.
      destruct Hin as [H | [H | H]]; rewrite H; reflexivity. }
    intros d' H _. injection H as <-. fold provider.
    split; [reflexivity |].
    unfold App.health_check, AIService.get_current_provider.
    cbn [App.body snd AIService.current_provider].
    rewrite Htruthy. reflexivity.
Qed.

Lemma configure_ai_status_witness :
  App.status
    (fst (App.configure_ai (fun _ => "error")
            AIService.unconfigured
            (Ok (Some {| App.cr_provider := None;
                         App.cr_api_key := Some "AIza-test";
                         App.cr_model := None |})))) = 200.
Proof.
  apply (proj1 (proj2 (proj2 (configure_ai_status Fixtures.env_offline
                         (fun _ => "error") AIService.unconfigured _)))).
  eexists. split; [reflexivity |]. split; [simpl; auto | discriminate].
Defined.

(** With a question and an answer that are strings the analysis is the one
    of the typed service, or its fallback where the context has no [get]. *)
Lemma dynamic_analyze_answer_strings (E : Env) (ai_service : AIService.t)
    (render_untyped : list value -> result string) (q a : string)
    (context : value) :
  Dynamic.analyze_answer E ai_service render_untyped (VStr q) (VStr a) context
  = match context with
    | VNone => AnswerAnalyzer.analyze_answer E ai_service q a None
    | VDict c => AnswerAnalyzer.analyze_answer E ai_service q a (Some c)
    | _ => Ok (AnswerAnalyzer._get_fallback_analysis q a)
    end.
Proof.
  unfold Dynamic.analyze_answer, AnswerAnalyzer.analyze_answer.
  destruct context; reflexivity.
Qed.

(** With a question or an answer that is no string the analysis raises: the
    metadata cannot be computed, nor can the fallback. *)
Lemma dynamic_analyze_answer_raises (E : Env) (ai_service : AIService.t)
    (render_untyped : list value -> result string)
    (question answer context : value) :
  (~ exists q a, question = VStr q /\ answer = VStr a) ->
  Dynamic.analyze_answer E ai_service render_untyped question answer context
  = Raise AttributeError.
Proof.
  intros Hno.
  assert (Hmeta : Dynamic.analysis_metadata question answer
                  = Raise AttributeError
                  /\ Dynamic._get_fallback_analysis question answer
                     = Raise AttributeError).
  { destruct answer; destruct question; simpl; try (split; reflexivity).
    exfalso. apply Hno. eexists _, _. split; reflexivity. }
  destruct Hmeta as [Hmeta Hfb].
  unfold Dynamic.analyze_answer. cbv zeta.
  destruct (Dynamic._create_analysis_prompt E render_untyped question answer _)
    as [p | e]; cbn [bind try_except]; [| exact Hfb].
  destruct (AIService.generate_structured_response E ai_service p _)
    as [r | e]; cbn [bind try_except]; [| exact Hfb].
  rewrite Hmeta. cbn [bind try_except]. exact Hfb.
Qed.

Lemma dynamic_followup_returns (E : Env) (ai_service : AIService.t)
    (render_untyped : list value -> result string)
    (question answer qa_history : value) :
  returns (Dynamic.generate_followup_questions E ai_service render_untyped
             question answer qa_history).
Proof.
  unfold Dynamic.generate_followup_questions. cbv zeta.
  apply try_except_returns. intros e. eexists. reflexivity.
Qed.

(** X28: the analysis route answers 200 with an analysis exactly for the
    bodies that are objects whose question and answer (the empty text when
    absent) are strings, whatever the context is and whatever the provider
    does; for an object with a question or an answer of another type it
    answers 500 with the text of the attribute error, as it does for a body
    that is no object.  The follow-up route answers 200 with a payload for
    every object, whatever the types of its fields, and 500 exactly when the
    body is no object. *)
Theorem generation_routes_status (E : Env) (str : exception -> string)
    (render_untyped : list value -> result string)
    (ai_service : AIService.t) :
  (forall get_json,
     let resp := App.analyze_answer E str render_untyped ai_service get_json in
     (forall d, get_json = Ok (VDict d) ->
        let question := get_default "question" (VStr EmptyString) d in
        let answer := get_default "answer" (VStr EmptyString) d in
        ((exists q a, question = VStr q /\ answer = VStr a) ->
         App.status resp = 200
         /\ dict_get "success" (App.body resp) = Some (VBool true)
         /\ exists analysis,
              dict_get "analysis" (App.body resp) = Some analysis
              /\ Dynamic.analyze_answer E ai_service render_untyped question
                   answer (get_default "context" (VDict []) d)
                 = Ok analysis)
        /\ ((~ exists q a, question = VStr q /\ answer = VStr a) ->
            App.status resp = 500
            /\ App.body resp
               = [("success", VBool false);
                  ("error", VStr (str AttributeError))]))
     /\ ((~ exists d, get_json = Ok (VDict d)) ->
         App.status resp = 500
         /\ dict_get "success" (App.body resp) = Some (VBool false)))
  /\ (forall get_json,
        let resp :=
          App.suggest_followup E str render_untyped ai_service get_json in
        (forall d, get_json = Ok (VDict d) ->
           App.status resp = 200
           /\ dict_get "success" (App.body resp) = Some (VBool true)
           /\ exists qs,
                dict_get "followup_questions" (App.body resp) = Some qs
                /\ Dynamic.generate_followup_questions E ai_service
                     render_untyped
                     (get_default "question" (VStr EmptyString) d)
                     (get_default "answer" (VStr EmptyString) d)
                     (get_default "qa_history" (VList []) d)
                   = Ok qs)
        /\ ((~ exists d, get_json = Ok (VDict d)) ->
            App.status resp = 500
            /\ dict_get "success" (App.body resp) = Some (VBool false))).
Proof.
  split; intros get_json resp; subst resp; split.
  - intros d -> question answer.
    unfold App.analyze_answer, App.data_get. cbn [bind Dynamic.dict_of].
    fold question answer. split.
    + intros [q [a [Hq Ha]]].
      assert (Hret : returns (Dynamic.analyze_answer E ai_service
                                render_untyped question answer
                                (get_default "context" (VDict []) d))).
      { rewrite Hq, Ha, dynamic_analyze_answer_strings.
        destruct (get_default "context" (VDict []) d);
          try (eexists; reflexivity); apply analyze_answer_returns. }
      destruct Hret as [analysis Hret]. rewrite Hret. simpl.
      split; [reflexivity |]. split; [reflexivity |].
      exists analysis. split; reflexivity.
    + intros Hno.
      rewrite (dynamic_analyze_answer_raises E ai_service render_untyped
                 question answer _ Hno).
      split; reflexivity.
  - intros Hno. unfold App.analyze_answer.
    destruct get_json as [[| b | q | n | s | l | d] | e']; simpl;
      try (split; reflexivity).
    exfalso. apply Hno. eexists. reflexivity.
  - intros d ->.
    unfold App.suggest_followup, App.data_get. cbn [bind Dynamic.dict_of].
    destruct (dynamic_followup_returns E ai_service render_untyped
                (get_default "question" (VStr EmptyString) d)
                (get_default "answer" (VStr EmptyString) d)
                (get_default "qa_history" (VList []) d)) as [qs Hqs].
    rewrite Hqs. simpl.
    split; [reflexivity |]. split; [reflexivity |].
    exists qs. split; reflexivity.
  - intros Hno. unfold App.suggest_followup.
    destruct get_json as [[| b | q | n | s | l | d] | e']; simpl;
      try (split; reflexivity).
    exfalso. apply Hno. eexists. reflexivity.
Qed.

Lemma generation_routes_status_witness :
  App.status
    (App.analyze_answer Fixtures.env_offline (fun _ => "error")
       (fun _ => Ok EmptyString) AIService.unconfigured
       (Ok (VDict [("question", VStr "Why this role?");
                   ("answer", VInt 5)]))) = 500
  /\ App.status
       (App.analyze_answer Fixtures.env_offline (fun _ => "error")
          (fun _ => Ok EmptyString) AIService.unconfigured
          (Ok (VDict [("question", VStr "Why this role?");
                      ("answer", VStr "I like solving hard problems");
                      ("context", VList [])]))) = 200
  /\ App.status
       (App.suggest_followup Fixtures.env_offline (fun _ => "error")
          (fun _ => Ok EmptyString) AIService.unconfigured
          (Ok (VDict [("answer", VInt 5); ("qa_history", VInt 7)]))) = 200.
Proof.
  pose proof (generation_routes_status Fixtures.env_offline (fun _ => "error")
                (fun _ => Ok EmptyString) AIService.unconfigured) as [Ha Hf].
  split; [| split].
  - refine (proj1 (proj2 (proj1 (Ha _) _ eq_refl) _)).
    intros [q [a [_ H]]]. discriminate H.
  - refine (proj1 (proj1 (proj1 (Ha _) _ eq_refl) _)).
    eexists _, _. split; reflexivity.
  - exact (proj1 (proj1 (Hf _) _ eq_refl)).
Defined.




(** X30: the providers route lists exactly the names the registry accepts:
    gemini, openai and anthropic, each with a default model.  A name is listed
    exactly when configuring it with a non-empty key and no model succeeds,
    and the model then installed is the default the route shows for it. *)
Theorem listed_providers_are_configurable :
  let listed := map AIService.name AIService.get_available_providers in
  listed = known_providers
  /\ map fst AIService.providers = listed
  /\ (exists entries,
        dict_get "providers" (App.body App.get_providers) = Some (VList entries)
        /\ map (field "name") entries = map (fun n => Some (VStr n)) listed
        /\ map (field "default_model") entries
           = map (fun n => Some (VStr (catalog_default n))) listed)
  /\ (forall self provider key,
        key <> EmptyString ->
        (In provider listed <->
         fst (AIService.configure_provider self provider key None) = true))
  /\ (forall self provider key i,
        AIService.configure_provider self provider key None
        = (true, {| AIService.current_provider := Some provider;
                    AIService.current_instance := Some i |}) ->
        model i = catalog_default provider
        /\ model i <> EmptyString).
Proof.
  split; [reflexivity |]. split; [reflexivity |].
  split; [eexists; repeat split |].
  split.
  - intros self provider key Hkey.
    change (map AIService.name AIService.get_available_providers)
      with known_providers.
    destruct (configure_provider_cases self provider key None)
      as [[-> Hwhy] | [c [Hc [_ ->]]]]; simpl.
    + split; [| discriminate]. intros Hin.
      apply known_provider_lookup in Hin. destruct Hin as [c Hc].
      destruct Hwhy as [H | H]; congruence.
    + split; [reflexivity |]. intros _.
      apply known_provider_lookup. eexists. exact Hc.
  - intros self provider key i Hconf.
    destruct (configure_provider_cases self provider key None)
      as [[H _] | [c [Hc [_ H]]]]; rewrite H in Hconf; [discriminate Hconf |].
    injection Hconf as <-. simpl.
    split; [reflexivity |]. apply (catalog_default_nonempty _ _ Hc).
Qed.

Lemma key_insights_tags_witness :
  ReportGenerator._extract_key_insights (VNum 5) = Raise AttributeError.
Proof.
  destruct (key_insights_tags "We learn as a team") as [tags [_ [_ [_ [_ [_ [_ H]]]]]]].
  apply H. intros s. discriminate.
Defined.

Lemma listed_providers_are_configurable_witness :
  fst (AIService.configure_provider AIService.unconfigured "anthropic"
         "sk-ant-test" None) = true.
Proof.
  apply (proj1 (proj2 (proj2 (proj2 listed_providers_are_configurable)))
           AIService.unconfigured "anthropic" "sk-ant-test").
  - discriminate.
  - simpl. auto.
Defined.
